(** * flowly: the conversation engine and the calendar slot engine

    A shallow embedding of the two Go sources of package [main]: the
    webhook program (flow state machine, flow validation, template
    substitution, configuration cache, tenant resolver, WhatsApp client,
    sessions and webhook handler) and [calendar.go] (construction of the
    service, slot search and booking), followed by the properties stated
    about them.

    Conventions of the embedding.
    - A Go [string] is a sequence of bytes: Rocq's [string], whose
      characters are the 8-bit [ascii].
    - A Go [int] is a [Z]; no arithmetic of these programs can overflow
      on values they compute themselves.
    - A Go [map[string]V] is a [gmap string V]; a [nil] map or pointer is
      [None].  A [range] over a map visits the entries in an order the
      language leaves unspecified: the embedding takes the order from an
      oracle [MapRange], constrained only to enumerate the entries.
    - A Go [error] is its message.
    - Calls to the outside (files, environment, clock, calendar service,
      messaging channel) read from an explicit environment record and are
      logged in an explicit list of requests.  [log.Printf] is not
      modelled.
    - Functions of the Go standard library that walk Unicode tables
      ([strings.TrimSpace], [strings.EqualFold], [strconv.Quote]) or the
      layout machine of package [time] ([time.Parse]) are operations of a
      class; their ASCII / strict instances are given for evaluation. *)

From Stdlib Require Import ZArith Lia Ascii String DecimalString Sorted.
From stdpp Require Import gmap strings list fin_maps.

(* ===================================================================== *)
(** * Part I.  Definitions                                                *)
(* ===================================================================== *)

(** ** Go strings *)

Definition byteval (c : ascii) : N := N_of_ascii c.

Definition inRange (lo hi : N) (c : ascii) : bool :=
  ((lo <=? byteval c) && (byteval c <=? hi))%N.

(** [strings.HasPrefix(s, prefix)]. *)
Definition HasPrefix (s p : string) : bool := String.prefix p s.

(** [strings.Contains(s, substr)], by scanning every start position. *)
Fixpoint Contains (s sub : string) : bool :=
  HasPrefix s sub ||
  match s with
  | "" => false
  | String _ r => Contains r sub
  end.

(** [strings.Join(elems, sep)]. *)
Fixpoint Join (elems : list string) (sep : string) : string :=
  match elems with
  | [] => ""
  | e :: rest =>
      match rest with
      | [] => e
      | _ :: _ => e +:+ sep +:+ Join rest sep
      end
  end.

(** The verb [%d] of [fmt.Sprintf] on an [int]. *)
Definition fmt_d (n : Z) : string := NilZero.string_of_int (Z.to_int n).

(** *** UTF-8 ([unicode/utf8]) *)

(** The table [first] of package [utf8], for the leading bytes of
    multi-byte sequences: encoded width and accepted range of the second
    byte.  [None] stands for the entries [as] (ASCII) and [xx] (invalid),
    both of which advance by one byte. *)
Definition first (c : ascii) : option (nat * N * N) :=
  let b := byteval c in
  (if b <? 0xC2 then None
   else if b <? 0xE0 then Some (2%nat, 0x80, 0xBF)
   else if b =? 0xE0 then Some (3%nat, 0xA0, 0xBF)
   else if b <? 0xED then Some (3%nat, 0x80, 0xBF)
   else if b =? 0xED then Some (3%nat, 0x80, 0x9F)
   else if b <? 0xF0 then Some (3%nat, 0x80, 0xBF)
   else if b =? 0xF0 then Some (4%nat, 0x90, 0xBF)
   else if b <? 0xF4 then Some (4%nat, 0x80, 0xBF)
   else if b =? 0xF4 then Some (4%nat, 0x80, 0x8F)
   else None)%N.

Definition locb : N := 0x80.
Definition hicb : N := 0xBF.

(** Number of bytes the loop of [utf8.RuneCountInString] (and
    [utf8.DecodeRuneInString]) consumes at the head of [s]: the width of a
    well-formed sequence, 1 for ASCII, for an invalid byte and for a
    truncated or ill-formed sequence. *)
Definition runeWidth (s : string) : nat :=
  match s with
  | "" => 0
  | String c r =>
      match first c with
      | None => 1
      | Some (size, lo, hi) =>
          if String.length s <? size then 1 else
          match r with
          | "" => 1
          | String c1 r1 =>
              if negb (inRange lo hi c1) then 1
              else if size =? 2 then 2
              else match r1 with
                   | "" => 1
                   | String c2 r2 =>
                       if negb (inRange locb hicb c2) then 1
                       else if size =? 3 then 3
                       else match r2 with
                            | "" => 1
                            | String c3 _ =>
                                if negb (inRange locb hicb c3) then 1 else 4
                            end
                   end
          end
      end
  end.

(** The loop [for i := 0; i < ns; n++ { ... i += size }]: [skip] is the
    number of bytes still to step over before the next rune starts. *)
Fixpoint runeCount (skip : nat) (s : string) : nat :=
  match s with
  | "" => 0
  | String _ r =>
      match skip with
      | S k => runeCount k r
      | O => S (runeCount (runeWidth s - 1) r)
      end
  end.

Definition RuneCountInString (s : string) : nat := runeCount 0 s.

(** *** [strings.ReplaceAll] *)

(** [Replace] with a non-empty [old]: each round copies the input up to
    the leftmost occurrence of [old] at or after [start], writes [new] and
    restarts after the occurrence.  Scanning byte by byte and testing
    [old] at each position performs the same copies; [skip] steps over
    the bytes of a replaced occurrence. *)
Fixpoint replaceScan (old new : string) (skip : nat) (s : string) : string :=
  match s with
  | "" => ""
  | String c r =>
      match skip with
      | S k => replaceScan old new k r
      | O =>
          if HasPrefix s old
          then new +:+ replaceScan old new (String.length old - 1) r
          else String c (replaceScan old new 0 r)
      end
  end.

(** [Replace] with [old == ""]: [new] goes in front of every rune and
    after the last one. *)
Fixpoint insertAtRunes (new : string) (skip : nat) (s : string) : string :=
  match s with
  | "" => new
  | String c r =>
      match skip with
      | S k => String c (insertAtRunes new k r)
      | O => new +:+ String c (insertAtRunes new (runeWidth s - 1) r)
      end
  end.

Definition ReplaceAll (s old new : string) : string :=
  if String.eqb old new then s
  else match old with
       | "" => insertAtRunes new 0 s
       | String _ _ => replaceScan old new 0 s
       end.

(** *** Library functions that depend on Unicode tables *)

Class GoUnicode := {
  (** [strings.TrimSpace] *)
  TrimSpace : string → string;
  (** [strings.EqualFold] *)
  EqualFold : string → string → bool;
  (** [strconv.Quote], the verb [%q] of [fmt.Sprintf] on a string *)
  Quote : string → string
}.

(** The order in which [range] visits a map. *)
Definition MapRange : Type := ∀ V : Type, gmap string V → list (string * V).

Definition ValidRange (range : MapRange) : Prop :=
  ∀ (V : Type) (m : gmap string V), range V m ≡ₚ map_to_list m.

(** Results of fallible calls: a value or the error's message. *)
Inductive result (A : Type) : Type :=
| Ok (a : A)
| Err (msg : string).
Arguments Ok {A} a.
Arguments Err {A} msg.

Definition nl : string := String (ascii_of_nat 10) "".
Definition dquote : string := String (ascii_of_nat 34) "".

(** ** Flow configuration (types of the webhook program) *)

Module FlowRow.
Record t := mk { ID : string; Title : string; Description : string }.
End FlowRow.

Module FlowSection.
Record t := mk { Title : string; Rows : list FlowRow.t }.
End FlowSection.

Module FlowList.
Record t := mk {
  Header : string;
  ButtonText : string;
  Footer : string;
  Sections : list FlowSection.t
}.
End FlowList.

(** [Type_] is the field [Type] ("text" | "interactive_list"); [List] is a
    pointer and [OnSelectNext] a map, both possibly [nil]. *)
Module FlowState.
Record t := mk {
  Type_ : string;
  Body : string;
  List : option FlowList.t;
  OnTextNext : string;
  OnSelectNext : option (gmap string string)
}.
End FlowState.

Module FlowConfig.
Record t := mk { Version : string; States : gmap string FlowState.t }.
End FlowConfig.

(** ** Inbound messages ([IncomingMessage]) *)

Module WAText.
Record t := mk { Body : string }.
End WAText.

Module WAButtonReply.
Record t := mk { ID : string; Title : string }.
End WAButtonReply.

Module WAListReply.
Record t := mk { ID : string; Title : string; Description : string }.
End WAListReply.

Module WAInteractive.
Record t := mk {
  Type_ : string;
  ButtonReply : option WAButtonReply.t;
  ListReply : option WAListReply.t
}.
End WAInteractive.

Module IncomingMessage.
Record t := mk {
  From : string;
  ID : string;
  Timestamp : string;
  Type_ : string;
  Text : option WAText.t;
  Interactive : option WAInteractive.t
}.
End IncomingMessage.

(** ** Configuration cache *)

(** [ConfigCache]: the map behind the lock; the embedding is sequential. *)
Module ConfigCache.
Record t := mk { cache : gmap string FlowConfig.t }.
Definition Get (c : t) (tenant : string) : option FlowConfig.t :=
  cache c !! tenant.
Definition Set_ (c : t) (tenant : string) (cfg : FlowConfig.t) : t :=
  mk (<[tenant := cfg]> (cache c)).
End ConfigCache.

Definition NewConfigCache : ConfigCache.t := ConfigCache.mk ∅.

(** What the programs read from the operating system: [os.Getenv],
    [filepath.Join], [os.Stat] (does the call succeed?) and [os.ReadFile]. *)
Record OS := {
  Getenv : string → string;
  filepathJoin : list string → string;
  Stat : string → bool;
  ReadFile : string → result string
}.

(** The messaging channel as the renderer uses it: the two sends of
    [WhatsAppClient], each answering [nil] or an error. *)
Inductive Outbound : Type :=
| SendText (to body : string)
| SendList (to header body footer buttonText : string)
    (sections : list FlowSection.t).

Record WhatsAppClient := { post : Outbound → option string }.

Definition configRoot : string := "configs".

Section Flow.
Context `{GoUnicode}.
Variable range : MapRange.
Variable os : OS.
(** [json.Unmarshal] into a [FlowConfig]. *)
Variable UnmarshalFlow : string → result FlowConfig.t.

(** *** Simple templating: [{{name}}] *)

Definition renderVars (s : string) (vars : gmap string string) : string :=
  if String.eqb s "" || (size vars =? 0) then s
  else
    foldl (λ s kv, ReplaceAll s ("{{" +:+ kv.1 +:+ "}}") kv.2) s
      (range _ vars).

(** *** Flow validation (WhatsApp limits) *)

Definition runeLen (s : string) : Z := Z.of_nat (RuneCountInString s).

(** The message of one violation: ["state=%s <what> > <limit> (%d): %q"]. *)
Definition tooLong (stateName what : string) (limit : Z) (text : string)
  : string :=
  "state=" +:+ stateName +:+ " " +:+ what +:+ " > " +:+ fmt_d limit +:+
  " (" +:+ fmt_d (runeLen text) +:+ "): " +:+ Quote text.

Definition emptyRowID (stateName title : string) : string :=
  "state=" +:+ stateName +:+ " row id vacío (title=" +:+ Quote title +:+ ")".

(** [if runeLen(text) > limit { errs = append(errs, ...) }] *)
Definition checkLen (stateName what : string) (limit : Z) (text : string)
    (errs : list string) : list string :=
  if (limit <? runeLen text)%Z
  then errs ++ [tooLong stateName what limit text]
  else errs.

Definition validateRow (stateName : string) (errs : list string)
    (row : FlowRow.t) : list string :=
  let errs :=
    if String.eqb (FlowRow.ID row) ""
    then errs ++ [emptyRowID stateName (FlowRow.Title row)]
    else errs in
  let errs := checkLen stateName "row title" 24 (FlowRow.Title row) errs in
  checkLen stateName "row desc" 72 (FlowRow.Description row) errs.

Definition validateSection (stateName : string) (errs : list string)
    (sec : FlowSection.t) : list string :=
  let errs :=
    checkLen stateName "section title" 24 (FlowSection.Title sec) errs in
  foldl (validateRow stateName) errs (FlowSection.Rows sec).

(** One round of the loop over [cfg.States]. *)
Definition validateState (errs : list string) (kv : string * FlowState.t)
  : list string :=
  let '(stateName, st) := kv in
  match FlowState.List st with
  | None => errs
  | Some l =>
      if negb (String.eqb (FlowState.Type_ st) "interactive_list") then errs
      else
        let errs := checkLen stateName "header" 60 (FlowList.Header l) errs in
        let errs := checkLen stateName "footer" 60 (FlowList.Footer l) errs in
        let errs :=
          checkLen stateName "button_text" 20 (FlowList.ButtonText l) errs in
        foldl (validateSection stateName) errs (FlowList.Sections l)
  end.

Definition flowErrors (cfg : FlowConfig.t) : list string :=
  foldl validateState [] (range _ (FlowConfig.States cfg)).

(** [nil] is [None]. *)
Definition validateFlowConfig (tenant : string) (cfg : FlowConfig.t)
  : option string :=
  let errs := flowErrors cfg in
  if (0 <? length errs)%nat
  then Some ("flow inválido tenant=" +:+ tenant +:+ ":" +:+ nl +:+ "- " +:+
             Join errs (nl +:+ "- "))
  else None.

Definition loadFlowConfig (tenant : string) : result FlowConfig.t :=
  let path := filepathJoin os [configRoot; tenant; "flow.json"] in
  match ReadFile os path with
  | Err err => Err ("no pude leer " +:+ path +:+ ": " +:+ err)
  | Ok b =>
      match UnmarshalFlow b with
      | Err err => Err ("json inválido en " +:+ path +:+ ": " +:+ err)
      | Ok cfg =>
          if (size (FlowConfig.States cfg) =? 0)%nat
          then Err ("flow.json de " +:+ tenant +:+ " no tiene states")
          else match validateFlowConfig tenant cfg with
               | Some err => Err err
               | None => Ok cfg
               end
      end
  end.

(** *** The state machine: [processMessage] *)

(** [if st.OnSelectNext != nil { if ns, ok := st.OnSelectNext[id];
    ok && ns != "" { return ns, true, nil } }; return "MENU", false, nil] *)
Definition selectNext (st : FlowState.t) (id : string)
  : string * bool * option string :=
  match FlowState.OnSelectNext st with
  | Some m =>
      match m !! id with
      | Some ns => if String.eqb ns "" then ("MENU", false, None)
                   else (ns, true, None)
      | None => ("MENU", false, None)
      end
  | None => ("MENU", false, None)
  end.

(** The body of [processMessage] once [cfg] is resolved. *)
Definition decide_ (cfg : FlowConfig.t) (state : string)
    (msg : IncomingMessage.t) : string * bool * option string :=
  match FlowConfig.States cfg !! state with
  | None => ("MENU", false, None)
  | Some st =>
      if String.eqb (IncomingMessage.Type_ msg) "text" then
        match IncomingMessage.Text msg with
        | None => ("MENU", false, None)
        | Some text =>
            let txt := TrimSpace (WAText.Body text) in
            if EqualFold txt "menu" then ("MENU", true, None)
            else if negb (String.eqb (FlowState.OnTextNext st) "")
            then (FlowState.OnTextNext st, true, None)
            else ("MENU", false, None)
        end
      else if String.eqb (IncomingMessage.Type_ msg) "interactive" then
        match IncomingMessage.Interactive msg with
        | None => ("MENU", false, None)
        | Some inter =>
            if String.eqb (WAInteractive.Type_ inter) "list_reply" then
              match WAInteractive.ListReply inter with
              | None => ("MENU", false, None)
              | Some lr => selectNext st (WAListReply.ID lr)
              end
            else if String.eqb (WAInteractive.Type_ inter) "button_reply" then
              match WAInteractive.ButtonReply inter with
              | None => ("MENU", false, None)
              | Some br => selectNext st (WAButtonReply.ID br)
              end
            else ("MENU", false, None)
        end
      else ("MENU", false, None)
  end.

(** [processMessage] returns [(next, handled, err)] and may have filled
    the cache. *)
Definition processMessage (cache : ConfigCache.t) (tenant state : string)
    (msg : IncomingMessage.t)
  : ConfigCache.t * (string * bool * option string) :=
  match ConfigCache.Get cache tenant with
  | Some cfg => (cache, decide_ cfg state msg)
  | None =>
      match loadFlowConfig tenant with
      | Err err2 => (cache, ("", false, Some err2))
      | Ok loaded =>
          (ConfigCache.Set_ cache tenant loaded, decide_ loaded state msg)
      end
  end.

(** *** Renderer *)

Definition renderRow (vars : gmap string string) (row : FlowRow.t)
  : FlowRow.t :=
  FlowRow.mk (FlowRow.ID row)
    (renderVars (FlowRow.Title row) vars)
    (renderVars (FlowRow.Description row) vars).

Definition renderSection (vars : gmap string string) (s : FlowSection.t)
  : FlowSection.t :=
  FlowSection.mk (renderVars (FlowSection.Title s) vars)
    (map (renderRow vars) (FlowSection.Rows s)).

(** The sends of one state. *)
Definition renderState (stateName : string) (st : FlowState.t)
    (wa : WhatsAppClient) (to : string) (vars : gmap string string)
  : option string * list Outbound :=
  if String.eqb (FlowState.Type_ st) "text" then
    let m := SendText to (renderVars (FlowState.Body st) vars) in
    (post wa m, [m])
  else if String.eqb (FlowState.Type_ st) "interactive_list" then
    match FlowState.List st with
    | None =>
        (Some ("estado " +:+ stateName +:+
               " es interactive_list pero list es nil"), [])
    | Some l =>
        let bodyText := TrimSpace (FlowState.Body st) in
        let bodyText :=
          if String.eqb bodyText "" then "Elegí una opción:" else bodyText in
        let bodyText := renderVars bodyText vars in
        let header := renderVars (FlowList.Header l) vars in
        let footer := renderVars (FlowList.Footer l) vars in
        let button := renderVars (FlowList.ButtonText l) vars in
        let sections := map (renderSection vars) (FlowList.Sections l) in
        let m := SendList to header bodyText footer button sections in
        (post wa m, [m])
    end
  else (Some ("tipo de estado no soportado: " +:+ FlowState.Type_ st), []).

Definition RenderAndSend (cache : ConfigCache.t) (tenant stateName : string)
    (wa : WhatsAppClient) (to : string) (vars : gmap string string)
  : ConfigCache.t * (option string * list Outbound) :=
  let send (cache : ConfigCache.t) (cfg : FlowConfig.t) :=
    match FlowConfig.States cfg !! stateName with
    | None => (cache, (Some ("estado no existe: " +:+ stateName), []))
    | Some st => (cache, renderState stateName st wa to vars)
    end in
  match ConfigCache.Get cache tenant with
  | Some cfg => send cache cfg
  | None =>
      match loadFlowConfig tenant with
      | Err err => (cache, (Some err, []))
      | Ok loaded => send (ConfigCache.Set_ cache tenant loaded) loaded
      end
  end.

End Flow.

(** ** Package [time] *)

(** Instants are counted in nanoseconds from the Unix epoch.  A location
    is a fixed offset from UTC, in seconds east: the zone the program
    asks for, America/Argentina/Buenos_Aires, has stayed at -03:00 since
    2009; zones whose offset changes lie outside this model. *)
Module time.
Local Open Scope Z_scope.

Record Location := { zoneOffset : Z }.

Definition UTC : Location := {| zoneOffset := 0 |}.

Record Time := { unixNano : Z; loc : Location }.

(** Durations are nanoseconds, as in Go. *)
Definition Second : Z := 1000000000.
Definition Hour : Z := 3600 * Second.

Definition In (t : Time) (l : Location) : Time :=
  {| unixNano := unixNano t; loc := l |}.

Definition Add (t : Time) (d : Z) : Time :=
  {| unixNano := unixNano t + d; loc := loc t |}.

Definition Before (t u : Time) : bool := unixNano t <? unixNano u.
Definition After (t u : Time) : bool := unixNano u <? unixNano t.

(** Seconds and days of the wall clock at the time's location. *)
Definition wallSec (t : Time) : Z := unixNano t / Second + zoneOffset (loc t).
Definition wallDays (t : Time) : Z := wallSec t / 86400.

(** 0 = Sunday; the epoch was a Thursday. *)
Definition Weekday (t : Time) : Z := (wallDays t + 4) mod 7.

(** Day count since the epoch to year, month and day of the proleptic
    Gregorian calendar, and back. *)
Definition civil (days : Z) : Z * Z * Z :=
  let z := days + 719468 in
  let era := z / 146097 in
  let doe := z - era * 146097 in
  let yoe := (doe - doe / 1460 + doe / 36524 - doe / 146096) / 365 in
  let doy := doe - (365 * yoe + yoe / 4 - yoe / 100) in
  let mp := (5 * doy + 2) / 153 in
  let d := doy - (153 * mp + 2) / 5 + 1 in
  let m := if mp <? 10 then mp + 3 else mp - 9 in
  let y := yoe + era * 400 in
  (if m <=? 2 then y + 1 else y, m, d).

Definition daysFromCivil (y m d : Z) : Z :=
  let y := if m <=? 2 then y - 1 else y in
  let era := y / 400 in
  let yoe := y - era * 400 in
  let mp := if 2 <? m then m - 3 else m + 9 in
  let doy := (153 * mp + 2) / 5 + d - 1 in
  let doe := yoe * 365 + yoe / 4 - yoe / 100 + doy in
  era * 146097 + doe - 719468.

Definition Year (t : Time) : Z := (civil (wallDays t)).1.1.
Definition Month (t : Time) : Z := (civil (wallDays t)).1.2.
Definition Day (t : Time) : Z := (civil (wallDays t)).2.
Definition Hour_ (t : Time) : Z := wallSec t mod 86400 / 3600.
Definition Minute (t : Time) : Z := wallSec t mod 3600 / 60.
Definition Second_ (t : Time) : Z := wallSec t mod 60.
Definition Nanosecond (t : Time) : Z := unixNano t mod Second.

(** [time.Date]: out-of-range months, days, hours... are normalised by
    carrying, which the linear count below does; the month is normalised
    first, as Go does. *)
Definition Date (year month day hour min sec nsec : Z) (l : Location) : Time :=
  let m0 := month - 1 in
  let y := year + m0 / 12 in
  let m := m0 mod 12 + 1 in
  let days := daysFromCivil y m 1 + (day - 1) in
  let unix := days * 86400 + hour * 3600 + min * 60 + sec - zoneOffset l in
  {| unixNano := unix * Second + nsec; loc := l |}.

Definition AddDate (t : Time) (years months days : Z) : Time :=
  Date (Year t + years) (Month t + months) (Day t + days)
       (Hour_ t) (Minute t) (Second_ t) (Nanosecond t) (loc t).

(** [t.Truncate(time.Second)]: the instant without its fraction of a
    second. *)
Definition wholeSecond (t : Time) : Time :=
  {| unixNano := unixNano t / Second * Second; loc := loc t |}.

(** The zero [Time]: January 1, year 1, 00:00:00 UTC. *)
Definition zero : Time := {| unixNano := -62135596800 * Second; loc := UTC |}.

(** [appendInt(x, width)]: decimal, zero-padded to [width] digits. *)
Fixpoint zeros (n : nat) : string :=
  match n with O => "" | S k => "0" +:+ zeros k end.

Definition appendInt (x : Z) (width : nat) : string :=
  let digits := fmt_d (Z.abs x) in
  (if x <? 0 then "-" else "") +:+
  zeros (width - String.length digits) +:+ digits.

(** The layouts the programs use. *)
Definition shortDayNames (wd : Z) : string :=
  match wd with
  | 0 => "Sun" | 1 => "Mon" | 2 => "Tue" | 3 => "Wed"
  | 4 => "Thu" | 5 => "Fri" | _ => "Sat"
  end.

(** Layout ["Z07:00"]. *)
Definition formatZone (offset : Z) : string :=
  if offset =? 0 then "Z"
  else
    let zone := Z.quot offset 60 in
    (if zone <? 0 then "-" else "+") +:+
    appendInt (Z.quot (Z.abs zone) 60) 2 +:+ ":" +:+
    appendInt (Z.rem (Z.abs zone) 60) 2.

(** [t.Format(time.RFC3339)], layout ["2006-01-02T15:04:05Z07:00"]. *)
Definition FormatRFC3339 (t : Time) : string :=
  appendInt (Year t) 4 +:+ "-" +:+ appendInt (Month t) 2 +:+ "-" +:+
  appendInt (Day t) 2 +:+ "T" +:+ appendInt (Hour_ t) 2 +:+ ":" +:+
  appendInt (Minute t) 2 +:+ ":" +:+ appendInt (Second_ t) 2 +:+
  formatZone (zoneOffset (loc t)).

(** [t.Format("Mon 02")] and [t.Format("15:04")]. *)
Definition FormatMon02 (t : Time) : string :=
  shortDayNames (Weekday t) +:+ " " +:+ appendInt (Day t) 2.

Definition Format1504 (t : Time) : string :=
  appendInt (Hour_ t) 2 +:+ ":" +:+ appendInt (Minute t) 2.

End time.

(** [time.Parse(time.RFC3339, value)]. *)
Class GoTimeParse := {
  ParseRFC3339 : string → result time.Time
}.

(** ** The calendar service ([google.golang.org/api/calendar/v3]) *)

Module calendar.

(** [TimePeriod]; [End_] is the field [End]. *)
Record TimePeriod := { Start : string; End_ : string }.

Record FreeBusyRequest := {
  TimeMin : string;
  TimeMax : string;
  Items : list string
}.

Record FreeBusyCalendar := { Busy : list TimePeriod }.

Record FreeBusyResponse := { Calendars : gmap string FreeBusyCalendar }.

Record EventDateTime := { DateTime : string }.

Record Event := {
  Summary : string;
  Description : string;
  EventStart : option EventDateTime;
  EventEnd : option EventDateTime
}.

(** The requests a program sends. *)
Inductive Call : Type :=
| FreebusyQuery (q : FreeBusyRequest)
| EventsInsert (calendarId : string) (ev : Event).

(** [*calendar.Service]: how the service answers each request.  An insert
    answers [nil] or an error. *)
Record Service := {
  FreebusyDo : FreeBusyRequest → result FreeBusyResponse;
  InsertDo : string → Event → option string
}.

End calendar.

(** ** [calendar.go] *)

Module CalendarService.
Record t := mk {
  srv : calendar.Service;
  calID : string;
  StartHour : Z;
  EndHour : Z;
  WorkDays : list Z
}.
End CalendarService.

Module TenantCalendarConfig.
Record t := mk {
  CalendarID : string;
  StartHour : Z;
  EndHour : Z;
  WorkDays : list Z
}.
End TenantCalendarConfig.

(** A decoded [calendar.json]: the members the document has.  Unmarshal
    into a struct overwrites the fields whose member is present (and not
    [null]) and leaves the others as they were. *)
Module CalendarJSON.
Record t := mk {
  calendar_id : option string;
  start_hour : option Z;
  end_hour : option Z;
  work_days : option (list Z)
}.
End CalendarJSON.

Module Slot.
Record t := mk { ID : string; Text : string; ISOValue : string }.
End Slot.

(** Clock and zone database. *)
Record Clock := {
  LoadLocation : string → result time.Location;
  Local : time.Location;
  Now : time.Time
}.

Section Calendar.
Context `{GoTimeParse}.
Variable os : OS.
Variable clock : Clock.
(** [json.Unmarshal] into a [TenantCalendarConfig]. *)
Variable UnmarshalCalendar : string → result CalendarJSON.t.
(** [calendar.NewService] with the credentials file. *)
Variable NewService : string → result calendar.Service.

Local Open Scope Z_scope.

Definition unmarshalInto (cfg : TenantCalendarConfig.t) (j : CalendarJSON.t)
  : TenantCalendarConfig.t :=
  TenantCalendarConfig.mk
    (default (TenantCalendarConfig.CalendarID cfg) (CalendarJSON.calendar_id j))
    (default (TenantCalendarConfig.StartHour cfg) (CalendarJSON.start_hour j))
    (default (TenantCalendarConfig.EndHour cfg) (CalendarJSON.end_hour j))
    (default (TenantCalendarConfig.WorkDays cfg) (CalendarJSON.work_days j)).

(** The basic validations of [NewCalendarService]. *)
Definition basicValidations (cfg : TenantCalendarConfig.t)
  : TenantCalendarConfig.t :=
  let startHour :=
    if TenantCalendarConfig.StartHour cfg <? 0 then 9
    else TenantCalendarConfig.StartHour cfg in
  let endHour :=
    if 24 <? TenantCalendarConfig.EndHour cfg then 17
    else TenantCalendarConfig.EndHour cfg in
  let workDays :=
    if (length (TenantCalendarConfig.WorkDays cfg) =? 0)%nat
    then [1; 2; 3; 4; 5]
    else TenantCalendarConfig.WorkDays cfg in
  TenantCalendarConfig.mk (TenantCalendarConfig.CalendarID cfg)
    startHour endHour workDays.

Definition NewCalendarService (tenant : string) : result CalendarService.t :=
  let credsFile := Getenv os "GOOGLE_APPLICATION_CREDENTIALS" in
  if String.eqb credsFile "" then
    Err "GOOGLE_APPLICATION_CREDENTIALS no está en .env"
  else
    let configRoot := "configs" in
    let configPath := filepathJoin os [configRoot; tenant; "calendar.json"] in
    let cfg := TenantCalendarConfig.mk "" 9 17 [1; 2; 3; 4; 5] in
    let loaded :=
      if Stat os configPath then
        match ReadFile os configPath with
        | Err err => Err ("error leyendo config calendario: " +:+ err)
        | Ok b =>
            match UnmarshalCalendar b with
            | Err err => Err ("json calendario inválido: " +:+ err)
            | Ok j => Ok (unmarshalInto cfg j)
            end
        end
      else
        Ok (TenantCalendarConfig.mk (Getenv os "GOOGLE_CALENDAR_ID")
              (TenantCalendarConfig.StartHour cfg)
              (TenantCalendarConfig.EndHour cfg)
              (TenantCalendarConfig.WorkDays cfg)) in
    match loaded with
    | Err err => Err err
    | Ok cfg =>
        if String.eqb (TenantCalendarConfig.CalendarID cfg) "" then
          Err ("no se encontró calendar_id para el tenant " +:+ tenant)
        else
          let cfg := basicValidations cfg in
          match NewService credsFile with
          | Err err => Err ("error creando cliente calendar: " +:+ err)
          | Ok srv =>
              Ok (CalendarService.mk srv
                    (TenantCalendarConfig.CalendarID cfg)
                    (TenantCalendarConfig.StartHour cfg)
                    (TenantCalendarConfig.EndHour cfg)
                    (TenantCalendarConfig.WorkDays cfg))
          end
    end.

(** [t, _ := time.Parse(time.RFC3339, s)]: the error is dropped and [t] is
    then the zero [Time]. *)
Definition parseOrZero (s : string) : time.Time :=
  match ParseRFC3339 s with
  | Ok t => t
  | Err _ => time.zero
  end.

(** The inner loop over [busyRanges]. *)
Definition isBusy (slotStart slotEnd : time.Time)
    (busyRanges : list calendar.TimePeriod) : bool :=
  existsb
    (λ busy,
       let bStart := parseOrZero (calendar.Start busy) in
       let bEnd := parseOrZero (calendar.End_ busy) in
       time.Before slotStart bEnd && time.After slotEnd bStart)
    busyRanges.

(** [for _, wd := range c.WorkDays { if wd == weekday ... }] *)
Definition isWorkingDay (c : CalendarService.t) (weekday : Z) : bool :=
  existsb (λ wd, wd =? weekday) (CalendarService.WorkDays c).

(** The state of the two loops: the slots found and [counter]. *)
Definition SlotAcc : Type := list Slot.t * Z.

(** [time.Date(day.Year(), day.Month(), day.Day(), h, 0, 0, 0, loc)] *)
Definition slotStartAt (day : time.Time) (l : time.Location) (h : Z)
  : time.Time :=
  time.Date (time.Year day) (time.Month day) (time.Day day) h 0 0 0 l.

(** One round of the loop over the hours of [day].  A round entered with
    three slots breaks the loop; the rounds after it are then no rounds,
    which is what returning the state unchanged amounts to. *)
Definition hourStep (now day : time.Time) (l : time.Location)
    (busyRanges : list calendar.TimePeriod) (acc : SlotAcc) (h : Z)
  : SlotAcc :=
  let '(slots, counter) := acc in
  if (3 <=? length slots)%nat then acc
  else
    let slotStart := slotStartAt day l h in
    let slotEnd := time.Add slotStart (1 * time.Hour) in
    if time.Before slotStart now then acc
    else if isBusy slotStart slotEnd busyRanges then acc
    else
      (slots ++ [Slot.mk ("SLOT_" +:+ fmt_d counter)
                   (time.FormatMon02 slotStart +:+ " " +:+
                    time.Format1504 slotStart)
                   (time.FormatRFC3339 slotStart)],
       counter + 1).

(** One round of the loop over the days [d = 0 .. 9]. *)
Definition dayStep (c : CalendarService.t) (now : time.Time)
    (l : time.Location) (busyRanges : list calendar.TimePeriod)
    (acc : SlotAcc) (d : Z) : SlotAcc :=
  if (3 <=? length acc.1)%nat then acc
  else
    let day := time.AddDate now 0 0 d in
    let weekday := time.Weekday day in
    if negb (isWorkingDay c weekday) then acc
    else
      foldl (hourStep now day l busyRanges) acc
        (seqZ (CalendarService.StartHour c)
           (CalendarService.EndHour c - CalendarService.StartHour c)).

Definition GetNextAvailableSlots (c : CalendarService.t)
  : result (list Slot.t) * list calendar.Call :=
  let l :=
    match LoadLocation clock "America/Argentina/Buenos_Aires" with
    | Ok l => l
    | Err _ => Local clock
    end in
  let now := time.In (Now clock) l in
  let minTime := time.FormatRFC3339 now in
  let maxTime := time.FormatRFC3339 (time.Add now (7 * 24 * time.Hour)) in
  let query :=
    {| calendar.TimeMin := minTime;
       calendar.TimeMax := maxTime;
       calendar.Items := [CalendarService.calID c] |} in
  match calendar.FreebusyDo (CalendarService.srv c) query with
  | Err err => (Err err, [calendar.FreebusyQuery query])
  | Ok res =>
      let busyRanges :=
        match calendar.Calendars res !! CalendarService.calID c with
        | Some cal => calendar.Busy cal
        | None => []
        end in
      let acc := foldl (dayStep c now l busyRanges) ([], 1) (seqZ 0 10) in
      (Ok acc.1, [calendar.FreebusyQuery query])
  end.

Definition CreateAppointment (c : CalendarService.t)
    (isoStart contactName contactPhone : string)
  : option string * list calendar.Call :=
  match ParseRFC3339 isoStart with
  | Err err => (Some ("fecha inválida: " +:+ err), [])
  | Ok startTime =>
      let endTime := time.Add startTime (1 * time.Hour) in
      let summary := "Turno Flowly: " +:+ contactName in
      let desc :=
        "Paciente agendado vía WhatsApp." +:+ nl +:+ "Teléfono: " +:+
        contactPhone in
      let event :=
        {| calendar.Summary := summary;
           calendar.Description := desc;
           calendar.EventStart :=
             Some {| calendar.DateTime := time.FormatRFC3339 startTime |};
           calendar.EventEnd :=
             Some {| calendar.DateTime := time.FormatRFC3339 endTime |} |} in
      (calendar.InsertDo (CalendarService.srv c) (CalendarService.calID c)
         event,
       [calendar.EventsInsert (CalendarService.calID c) event])
  end.

End Calendar.

(** Calendar arithmetic and layouts are evaluated on closed terms only. *)
Arguments time.Date : simpl never.
Arguments time.AddDate : simpl never.
Arguments time.Weekday : simpl never.
Arguments time.FormatRFC3339 : simpl never.
Arguments time.FormatMon02 : simpl never.
Arguments time.Format1504 : simpl never.
Arguments slotStartAt : simpl never.
Arguments fmt_d : simpl never.

(** ** Instances for evaluation *)

(** *** ASCII instance of the Unicode-dependent functions

    On strings of ASCII bytes the three library functions never consult a
    Unicode table: they run the fast paths below. *)
Module Ascii7.

(** The table [asciiSpace] of package [strings]. *)
Definition asciiSpace (c : ascii) : bool :=
  match c with
  | "009" | "010" | "011" | "012" | "013" | " " => true
  | _ => false
  end%char.

Fixpoint trimLeft (s : string) : string :=
  match s with
  | "" => ""
  | String c r => if asciiSpace c then trimLeft r else s
  end.

Fixpoint trimRight (s : string) : string :=
  match s with
  | "" => ""
  | String c r =>
      let r' := trimRight r in
      if asciiSpace c && String.eqb r' "" then "" else String c r'
  end.

Definition trimSpace (s : string) : string := trimRight (trimLeft s).

(** One round of the ASCII loop of [EqualFold]: equal bytes, or an upper
    case letter and its lower case. *)
Definition foldEq (sr tr : ascii) : bool :=
  let a := N.min (byteval sr) (byteval tr) in
  let b := N.max (byteval sr) (byteval tr) in
  ((a =? b) || ((65 <=? a) && (a <=? 90) && (b =? a + 32)))%N.

Fixpoint equalFold (s t : string) : bool :=
  match s, t with
  | "", "" => true
  | String sr s', String tr t' => foldEq sr tr && equalFold s' t'
  | _, _ => false
  end.

(** [strconv.Quote] on printable ASCII: the text between double quotes,
    with a backslash before a double quote or a backslash. *)
Fixpoint escape (s : string) : string :=
  match s with
  | "" => ""
  | String c r =>
      if ((byteval c =? 34) || (byteval c =? 92))%N
      then String (ascii_of_nat 92) (String c (escape r))
      else String c (escape r)
  end.

Definition quote (s : string) : string := dquote +:+ escape s +:+ dquote.

Definition unicode : GoUnicode :=
  {| TrimSpace := trimSpace; EqualFold := equalFold; Quote := quote |}.

End Ascii7.

(** *** Strict RFC 3339 instance of [time.Parse]

    The function [parseRFC3339] that [time.Parse] tries first for the
    layout [time.RFC3339]; it decides every string of the strict grammar
    [YYYY-MM-DDTHH:MM:SS[.fraction](Z|+HH:MM|-HH:MM)]. *)
Module rfc3339.
Local Open Scope Z_scope.

Definition isDigit (c : ascii) : bool := inRange 48 57 c.

Fixpoint digits (s : string) (x : Z) : option Z :=
  match s with
  | "" => Some x
  | String c r =>
      if isDigit c then digits r (x * 10 + (Z.of_N (byteval c) - 48))
      else None
  end.

Definition parseUint (s : string) (min max : Z) : option Z :=
  x ← digits s 0;
  if (x <? min) || (max <? x) then None else Some x.

Definition isLeap (year : Z) : bool :=
  (year mod 4 =? 0) && (negb (year mod 100 =? 0) || (year mod 400 =? 0)).

Definition daysIn (m year : Z) : Z :=
  if (m =? 2) && isLeap year then 29
  else if m =? 2 then 28
  else if (m =? 4) || (m =? 6) || (m =? 9) || (m =? 11) then 30
  else 31.

Fixpoint countDigits (s : string) : nat :=
  match s with
  | "" => 0
  | String c r => if isDigit c then S (countDigits r) else 0
  end.

Definition byteAt (s : string) (i : nat) (c : ascii) : bool :=
  match String.get i s with
  | Some c' => Ascii.eqb c c'
  | None => false
  end.

(** The fractional second: at most nine digits count. *)
Definition parseFraction (s : string) : Z * string :=
  match s with
  | String "." r =>
      let n := countDigits r in
      if (n =? 0)%nat then (0, s)
      else
        let k := Nat.min n 9 in
        (default 0 (digits (substring 0 k r) 0) * 10 ^ Z.of_nat (9 - k),
         substring n (String.length r - n) r)
  | _ => (0, s)
  end.

Definition parseZone (s : string) : option Z :=
  if String.eqb s "Z" then Some 0
  else if negb (String.length s =? 6)%nat then None
  else
    hr ← parseUint (substring 1 2 s) 0 23;
    mm ← parseUint (substring 4 2 s) 0 59;
    if negb ((byteAt s 0 "-" || byteAt s 0 "+") && byteAt s 3 ":") then None
    else
      let zoneOffset := (hr * 60 + mm) * 60 in
      Some (if byteAt s 0 "-" then - zoneOffset else zoneOffset).

Definition parse (s : string) : option time.Time :=
  if (String.length s <? 19)%nat then None
  else
    year ← parseUint (substring 0 4 s) 0 9999;
    month ← parseUint (substring 5 2 s) 1 12;
    day ← parseUint (substring 8 2 s) 1 (daysIn month year);
    hour ← parseUint (substring 11 2 s) 0 23;
    min ← parseUint (substring 14 2 s) 0 59;
    sec ← parseUint (substring 17 2 s) 0 59;
    if negb (byteAt s 4 "-" && byteAt s 7 "-" && byteAt s 10 "T" &&
             byteAt s 13 ":" && byteAt s 16 ":")
    then None
    else
      let '(nsec, rest) :=
        parseFraction (substring 19 (String.length s - 19) s) in
      zoneOffset ← parseZone rest;
      Some (time.Date year month day hour min sec nsec
              {| time.zoneOffset := zoneOffset |}).

Definition parseStrict (s : string) : result time.Time :=
  match parse s with
  | Some t => Ok t
  | None => Err ("parsing time " +:+ Ascii7.quote s)
  end.

Definition strict : GoTimeParse := {| ParseRFC3339 := parseStrict |}.

End rfc3339.

(** ** Templates as token sequences

    The reading of a template the substitution is meant for: literal text
    and placeholders [{{name}}], neither containing a brace. *)
Inductive Token : Type :=
| Lit (text : string)
| Hole (name : string).

Fixpoint braceFree (s : string) : bool :=
  match s with
  | "" => true
  | String c r =>
      negb (Ascii.eqb c "{") && negb (Ascii.eqb c "}") && braceFree r
  end.

Definition tokenOK (tk : Token) : bool :=
  match tk with
  | Lit text => braceFree text
  | Hole name => braceFree name
  end.

Definition placeholder (name : string) : string := "{{" +:+ name +:+ "}}".

Definition tokenString (tk : Token) : string :=
  match tk with
  | Lit text => text
  | Hole name => placeholder name
  end.

Definition flatten (tks : list Token) : string :=
  foldr (λ tk acc, tokenString tk +:+ acc) "" tks.

(** Substitution in one pass: every placeholder whose name is a key
    becomes the key's value, every other token stays. *)
Definition substToken (vars : gmap string string) (tk : Token) : Token :=
  match tk with
  | Lit text => Lit text
  | Hole name =>
      match vars !! name with
      | Some v => Lit v
      | None => Hole name
      end
  end.

Definition singlePass (vars : gmap string string) (tks : list Token) : string :=
  flatten (map (substToken vars) tks).

(** One round of the substitution loop, on tokens. *)
Definition subst1 (k v : string) (tk : Token) : Token :=
  match tk with
  | Lit text => Lit text
  | Hole name => if String.eqb name k then Lit v else Hole name
  end.

(** No opening brace. *)
Fixpoint noOpen (s : string) : bool :=
  match s with
  | "" => true
  | String c r => negb (Ascii.eqb c "{") && noOpen r
  end.

(** Keys and values without braces. *)
Definition plainVars (vars : gmap string string) : Prop :=
  ∀ k v, vars !! k = Some v → braceFree k = true ∧ braceFree v = true.

(** ** The flow definition a message is processed with, and the selection
       it carries *)

Section FlowViews.
Context `{GoUnicode}.
Variable range : MapRange.
Variable os : OS.
Variable UnmarshalFlow : string → result FlowConfig.t.

(** Load-on-miss, as [processMessage] and [RenderAndSend] both do it. *)
Definition resolveFlow (cache : ConfigCache.t) (tenant : string)
  : result FlowConfig.t :=
  match ConfigCache.Get cache tenant with
  | Some cfg => Ok cfg
  | None => loadFlowConfig range os UnmarshalFlow tenant
  end.

End FlowViews.

(** The free text of a message of type "text". *)
Definition freeText (msg : IncomingMessage.t) : option string :=
  if String.eqb (IncomingMessage.Type_ msg) "text"
  then WAText.Body <$> IncomingMessage.Text msg
  else None.

(** The id a list-row or button click selects. *)
Definition selectedID (msg : IncomingMessage.t) : option string :=
  if String.eqb (IncomingMessage.Type_ msg) "interactive" then
    inter ← IncomingMessage.Interactive msg;
    if String.eqb (WAInteractive.Type_ inter) "list_reply"
    then WAListReply.ID <$> WAInteractive.ListReply inter
    else if String.eqb (WAInteractive.Type_ inter) "button_reply"
    then WAButtonReply.ID <$> WAInteractive.ButtonReply inter
    else None
  else None.

(** ** A small deployment, for evaluating the programs *)

Module Demo.

Definition range : MapRange := λ V m, map_to_list m.

(** The same entries, last first. *)
Definition reversed : MapRange := λ V m, reverse (map_to_list m).

(** No file, no variable. *)
Definition os : OS :=
  {| Getenv := λ _, "";
     filepathJoin := λ elems, Join elems "/";
     Stat := λ _, false;
     ReadFile := λ path, Err ("open " +:+ path +:+ ": no such file or directory") |}.

Definition noJSON {A : Type} : string → result A :=
  λ _, Err "unexpected end of JSON input".

Definition menuList : FlowList.t :=
  FlowList.mk "Flowly" "Ver opciones" "Escribe menu para volver"
    [FlowSection.mk "Turnos"
       [FlowRow.mk "opt_turno" "Pedir turno" "Reservar un horario";
        FlowRow.mk "opt_info" "Informacion" ""]].

Definition menuState : FlowState.t :=
  FlowState.mk "interactive_list" "Hola {{name}}" (Some menuList) ""
    (Some {[ "opt_turno" := "TURNO"; "opt_info" := "" ]}).

Definition turnoState : FlowState.t :=
  FlowState.mk "text" "Decime tu nombre" None "MENU" None.

Definition flow : FlowConfig.t :=
  FlowConfig.mk "1" {[ "MENU" := menuState; "TURNO" := turnoState ]}.

Definition cache : ConfigCache.t := ConfigCache.Set_ NewConfigCache "broker" flow.

Definition textMsg (body : string) : IncomingMessage.t :=
  IncomingMessage.mk "5491100000000" "wamid.1" "1700000000" "text"
    (Some (WAText.mk body)) None.

Definition listReply (id : string) : IncomingMessage.t :=
  IncomingMessage.mk "5491100000000" "wamid.2" "1700000001" "interactive" None
    (Some (WAInteractive.mk "list_reply" None (Some (WAListReply.mk id "x" "")))).

Definition buttonReply (id : string) : IncomingMessage.t :=
  IncomingMessage.mk "5491100000000" "wamid.3" "1700000002" "interactive" None
    (Some (WAInteractive.mk "button_reply" (Some (WAButtonReply.mk id "x")) None)).

End Demo.

(** The state machine on the demo deployment. *)
Abbreviation demoProcess :=
  (@processMessage Ascii7.unicode Demo.range Demo.os Demo.noJSON Demo.cache "broker").

(** A deployment with a [calendar.json] for each tenant. *)
Module DemoCalendar.
Local Open Scope Z_scope.

Definition os : OS :=
  {| Getenv := λ name,
       if String.eqb name "GOOGLE_APPLICATION_CREDENTIALS" then "creds.json"
       else "";
     filepathJoin := λ elems, Join elems "/";
     Stat := λ path, HasPrefix path "configs/";
     ReadFile := λ path, Ok path |}.

(** The documents: "broker" sets a negative start hour, an end hour
    above 24 and no working day; "late" sets a start hour above 24, a
    negative end hour and a weekday that does not exist; any other
    tenant sets the calendar only. *)
Definition unmarshal (b : string) : result CalendarJSON.t :=
  if String.eqb b "configs/broker/calendar.json"
  then Ok (CalendarJSON.mk (Some "cal") (Some (-1)) (Some 30) (Some []))
  else if String.eqb b "configs/late/calendar.json"
  then Ok (CalendarJSON.mk (Some "cal") (Some 30) (Some (-2)) (Some [9]))
  else Ok (CalendarJSON.mk (Some "cal") None None None).

(** A service with the busy intervals [busy] for the calendar "cal". *)
Definition api (busy : list calendar.TimePeriod) : calendar.Service :=
  {| calendar.FreebusyDo := λ _,
       Ok {| calendar.Calendars := {[ "cal" := {| calendar.Busy := busy |} ]} |};
     calendar.InsertDo := λ _ _, None |}.

Definition newService (credsFile : string) : result calendar.Service :=
  Ok (api []).

Definition buenosAires : time.Location := {| time.zoneOffset := -10800 |}.

Definition clockAt (now : time.Time) : Clock :=
  {| LoadLocation := λ _, Ok buenosAires; Local := time.UTC; Now := now |}.

Definition service (busy : list calendar.TimePeriod) (startHour endHour : Z)
    (workDays : list Z) : CalendarService.t :=
  CalendarService.mk (api busy) "cal" startHour endHour workDays.

(** The hours of a service, when its construction succeeds. *)
Definition hoursOf (r : result CalendarService.t) : option (Z * Z * list Z) :=
  match r with
  | Ok c => Some (CalendarService.StartHour c, CalendarService.EndHour c,
                  CalendarService.WorkDays c)
  | Err _ => None
  end.

End DemoCalendar.

Abbreviation demoNewService :=
  (NewCalendarService DemoCalendar.os DemoCalendar.unmarshal DemoCalendar.newService).

(** ** What the properties of the slot search speak of *)

(** The slots found so far are at most three, and each renders a start
    that is not before [now]. *)
Definition slotsOK (now : time.Time) (acc : SlotAcc) : Prop :=
  length acc.1 ≤ 3 ∧
  Forall (λ s, ∃ start,
            Slot.ISOValue s = time.FormatRFC3339 start ∧
            Slot.Text s =
              time.FormatMon02 start +:+ " " +:+ time.Format1504 start ∧
            time.Before start now = false) acc.1.

(** The monday of the examples, 2024-01-01, at the given hour and minute
    in Buenos Aires. *)
Definition monday (hour min : Z) : time.Time :=
  time.Date 2024 1 1 hour min 0 0 DemoCalendar.buenosAires.

Definition slotAt (n : Z) (text iso : string) : Slot.t :=
  Slot.mk ("SLOT_" +:+ fmt_d n) text iso.

(** The request of a search at [monday 8 0]: seven days from then. *)
Definition weekQuery (hour : string) : calendar.FreeBusyRequest :=
  {| calendar.TimeMin := "2024-01-01T" +:+ hour +:+ ":00:00-03:00";
     calendar.TimeMax := "2024-01-08T" +:+ hour +:+ ":00:00-03:00";
     calendar.Items := ["cal"] |}.

Definition tenToEleven : calendar.TimePeriod :=
  {| calendar.Start := "2024-01-01T10:00:00-03:00";
     calendar.End_ := "2024-01-01T11:00:00-03:00" |}.

(** The event of a booking by Ana for the monday at 10:00. *)
Definition anaAtTen : calendar.Event :=
  {| calendar.Summary := "Turno Flowly: Ana";
     calendar.Description :=
       "Paciente agendado vía WhatsApp." +:+ nl +:+ "Teléfono: 5491100000000";
     calendar.EventStart :=
       Some {| calendar.DateTime := "2024-01-01T10:00:00-03:00" |};
     calendar.EventEnd :=
       Some {| calendar.DateTime := "2024-01-01T11:00:00-03:00" |} |}.

Abbreviation demoSlots now c :=
  (@GetNextAvailableSlots rfc3339.strict (DemoCalendar.clockAt now) c).

Abbreviation demoBook c :=
  (@CreateAppointment rfc3339.strict c).

(** ** The offending fields of a flow definition *)

Section Offences.
Context `{GoUnicode}.

(** [st] is the state [name] of [cfg], an interactive list with the
    presentation [l]. *)
Definition listState (cfg : FlowConfig.t) (name : string) (st : FlowState.t)
    (l : FlowList.t) : Prop :=
  FlowConfig.States cfg !! name = Some st ∧
  FlowState.Type_ st = "interactive_list" ∧
  FlowState.List st = Some l.

(** The offending fields of a row, each with the message that names it. *)
Inductive RowOffends (name : string) (row : FlowRow.t) : string → Prop :=
| offends_row_id :
    FlowRow.ID row = "" →
    RowOffends name row (emptyRowID name (FlowRow.Title row))
| offends_row_title :
    (24 < runeLen (FlowRow.Title row))%Z →
    RowOffends name row (tooLong name "row title" 24 (FlowRow.Title row))
| offends_row_desc :
    (72 < runeLen (FlowRow.Description row))%Z →
    RowOffends name row (tooLong name "row desc" 72 (FlowRow.Description row)).

(** The offending fields of a flow definition: a header or footer of more
    than 60 characters, a button text of more than 20, a section title or
    row title of more than 24, a row description of more than 72, an
    empty row id, in a state that is an interactive list. *)
Inductive Offends (cfg : FlowConfig.t) : string → Prop :=
| offends_header name st l :
    listState cfg name st l →
    (60 < runeLen (FlowList.Header l))%Z →
    Offends cfg (tooLong name "header" 60 (FlowList.Header l))
| offends_footer name st l :
    listState cfg name st l →
    (60 < runeLen (FlowList.Footer l))%Z →
    Offends cfg (tooLong name "footer" 60 (FlowList.Footer l))
| offends_button name st l :
    listState cfg name st l →
    (20 < runeLen (FlowList.ButtonText l))%Z →
    Offends cfg (tooLong name "button_text" 20 (FlowList.ButtonText l))
| offends_section name st l sec :
    listState cfg name st l →
    sec ∈ FlowList.Sections l →
    (24 < runeLen (FlowSection.Title sec))%Z →
    Offends cfg (tooLong name "section title" 24 (FlowSection.Title sec))
| offends_row name st l sec row msg :
    listState cfg name st l →
    sec ∈ FlowList.Sections l →
    row ∈ FlowSection.Rows sec →
    RowOffends name row msg →
    Offends cfg msg.

End Offences.

(** A deployment whose flow definition breaks four limits. *)
Module DemoBad.

Definition os : OS :=
  {| Getenv := λ _, "";
     filepathJoin := λ elems, Join elems "/";
     Stat := λ _, true;
     ReadFile := λ path, Ok path |}.

Definition longHeader : string :=
  "Bienvenido al sistema de turnos del consultorio de la doctora Ana".

Definition menuList : FlowList.t :=
  FlowList.mk longHeader "Ver todas las opciones" "ñandú"
    [FlowSection.mk "Turnos"
       [FlowRow.mk "" "Pedir turno" "";
        FlowRow.mk "opt_info" "Informacion sobre el consultorio" ""]].

Definition flow : FlowConfig.t :=
  FlowConfig.mk "1"
    {[ "MENU" := FlowState.mk "interactive_list" "Hola" (Some menuList) "" None ]}.

Definition unmarshal (b : string) : result FlowConfig.t := Ok flow.

(** A channel that accepts every send. *)
Definition wa : WhatsAppClient := {| post := λ _, None |}.

(** The error of the load, entry by entry. *)
Definition entries : list string :=
  ["state=MENU header > 60 (65): " +:+ Ascii7.quote longHeader;
   "state=MENU button_text > 20 (22): " +:+ Ascii7.quote "Ver todas las opciones";
   "state=MENU row id vacío (title=" +:+ Ascii7.quote "Pedir turno" +:+ ")";
   "state=MENU row title > 24 (32): " +:+
     Ascii7.quote "Informacion sobre el consultorio"].

Definition error : string :=
  "flow inválido tenant=broker:" +:+ nl +:+ "- " +:+ Join entries (nl +:+ "- ").

End DemoBad.

Abbreviation demoBadLoad :=
  (@loadFlowConfig Ascii7.unicode Demo.range DemoBad.os DemoBad.unmarshal).

Abbreviation demoBadProcess :=
  (@processMessage Ascii7.unicode Demo.range DemoBad.os DemoBad.unmarshal).

Abbreviation demoBadRender :=
  (@RenderAndSend Ascii7.unicode Demo.range DemoBad.os DemoBad.unmarshal).

(** ** What a cached flow definition satisfies *)

Section FlowValidity.
Context `{GoUnicode}.

(** A flow definition that loads: it has a state and no offending field. *)
Definition flowValid (cfg : FlowConfig.t) : Prop :=
  FlowConfig.States cfg ≠ ∅ ∧ ∀ m, ¬ Offends cfg m.

Definition cacheValid (cache : ConfigCache.t) : Prop :=
  ∀ tenant cfg, ConfigCache.Get cache tenant = Some cfg → flowValid cfg.

End FlowValidity.

(** The row ids of the sections of a list, section by section. *)
Definition rowIDs (sections : list FlowSection.t) : list (list string) :=
  map (λ s, map FlowRow.ID (FlowSection.Rows s)) sections.

(** ** The calendar arithmetic, checked over one era *)

(** [civil] and [daysFromCivil] agree on the day [z], and the month and
    day [civil] gives are a month and a day. *)
Definition civilOK (z : Z) : bool :=
  let '(y, m, d) := time.civil z in
  ((time.daysFromCivil y m d =? z) && (1 <=? m) && (m <=? 12)
   && (1 <=? d) && (d <=? 31))%Z.

(** [civilOK] on the [n] days from [z] on. *)
Fixpoint civilOKFrom (n : nat) (z : Z) : bool :=
  match n with
  | O => true
  | S k => civilOK z && civilOKFrom k (z + 1)
  end.

(** ** Where the slots of a search come from *)

(** The slot the search builds for the start [start] when [counter] slots
    minus one are already found. *)
Definition slotOf (counter : Z) (start : time.Time) : Slot.t :=
  Slot.mk ("SLOT_" +:+ fmt_d counter)
    (time.FormatMon02 start +:+ " " +:+ time.Format1504 start)
    (time.FormatRFC3339 start).

(** The location and the instant a search works with. *)
Definition searchLocation (clock : Clock) : time.Location :=
  match LoadLocation clock "America/Argentina/Buenos_Aires" with
  | Ok l => l
  | Err _ => Local clock
  end.

Definition searchNow (clock : Clock) : time.Time :=
  time.In (Now clock) (searchLocation clock).

(** The busy intervals a response holds for the calendar of [c]. *)
Definition busyOf (c : CalendarService.t) (res : calendar.FreeBusyResponse)
  : list calendar.TimePeriod :=
  match calendar.Calendars res !! CalendarService.calID c with
  | Some cal => calendar.Busy cal
  | None => []
  end.

Section Candidates.
Context `{GoTimeParse}.

(** [start] is the hour [h] of the day [d] days from [now], a working day
    and hour of [c], not before [now] and not busy. *)
Definition candidate (c : CalendarService.t) (now : time.Time)
    (l : time.Location) (busyRanges : list calendar.TimePeriod)
    (start : time.Time) : Prop :=
  ∃ d h : Z,
    (0 ≤ d < 10)%Z ∧
    (CalendarService.StartHour c ≤ h < CalendarService.EndHour c)%Z ∧
    isWorkingDay c (time.Weekday (time.AddDate now 0 0 d)) = true ∧
    start = slotStartAt (time.AddDate now 0 0 d) l h ∧
    time.Before start now = false ∧
    isBusy start (time.Add start (1 * time.Hour)) busyRanges = false.

(** The state of the loops: the slots are those of candidate starts,
    numbered from 1, and [counter] is the next number. *)
Definition slotsFrom (c : CalendarService.t) (now : time.Time)
    (l : time.Location) (busyRanges : list calendar.TimePeriod)
    (acc : SlotAcc) : Prop :=
  acc.2 = (Z.of_nat (length acc.1) + 1)%Z ∧
  ∃ starts : list time.Time,
    acc.1 = imap (λ i start, slotOf (Z.of_nat i + 1) start) starts ∧
    Forall (candidate c now l busyRanges) starts.

End Candidates.


(** ** The order of a search *)

(** The instant at which the hour [rank mod 24] starts in [l], [rank / 24]
    days after the day of [now]: the search meets the hours in the order
    of their rank. *)
Definition hourInstant (now : time.Time) (l : time.Location) (rank : Z) : Z :=
  ((time.wallDays now * 86400 + rank * 3600 - time.zoneOffset l)
   * time.Second)%Z.

(** The slots found so far render starts in strictly increasing order,
    all before the hour of rank [bound]. *)
Definition scannedTo (now : time.Time) (l : time.Location) (bound : Z)
    (acc : SlotAcc) : Prop :=
  ∃ starts : list time.Time,
    map Slot.ISOValue acc.1 = map time.FormatRFC3339 starts ∧
    StronglySorted (λ t u, (time.unixNano t < time.unixNano u)%Z) starts ∧
    Forall (λ t, (time.unixNano t < hourInstant now l bound)%Z) starts.

(** ** Package [strings], continued *)

(** [strings.Split(s, sep)] for a separator of one byte: the pieces
    between the separators, one more than there are separators. *)
Fixpoint Split (s : string) (sep : ascii) : list string :=
  match s with
  | "" => [""]
  | String c rest =>
      if Ascii.eqb c sep then "" :: Split rest sep
      else
        match Split rest sep with
        | [] => [String c ""]
        | p :: ps => String c p :: ps
        end
  end.

(** [s] before and after the first [sep]. *)
Fixpoint cutAt (s : string) (sep : ascii) : option (string * string) :=
  match s with
  | "" => None
  | String c rest =>
      if Ascii.eqb c sep then Some ("", rest)
      else
        match cutAt rest sep with
        | Some (before, after) => Some (String c before, after)
        | None => None
        end
  end.

(** [strings.SplitN(s, sep, 2)] for a separator of one byte. *)
Definition SplitN2 (s : string) (sep : ascii) : list string :=
  match cutAt s sep with
  | Some (before, after) => [before; after]
  | None => [s]
  end.

(** [s[n:]]. *)
Definition sliceFrom (n : nat) (s : string) : string :=
  String.substring n (String.length s - n) s.

(** [strings.TrimPrefix(s, prefix)]. *)
Definition TrimPrefix (s p : string) : string :=
  if HasPrefix s p then sliceFrom (String.length p) s else s.

(** ** Tenant resolver *)

Module TenantResolver.
Record t := mk {
  byPhoneNumberID : gmap string string;
  defaultTenant : string
}.
End TenantResolver.

Section Tenants.
Context `{GoUnicode}.
Variable os : OS.

(** One round of the loop of [NewTenantResolver] over the entries of
    TENANT_BY_PHONE_NUMBER_ID. *)
Definition tenantEntry (m : gmap string string) (p : string)
  : gmap string string :=
  let p := TrimSpace p in
  if String.eqb p "" then m
  else
    match SplitN2 p ":" with
    | [k; v] => <[TrimSpace k := TrimSpace v]> m
    | _ => m
    end.

Definition NewTenantResolver : TenantResolver.t :=
  let raw := Getenv os "TENANT_BY_PHONE_NUMBER_ID" in
  let m :=
    if negb (String.eqb raw "") then foldl tenantEntry ∅ (Split raw ",")
    else ∅ in
  let def := Getenv os "DEFAULT_TENANT" in
  let def := if String.eqb def "" then "broker" else def in
  TenantResolver.mk m def.

Definition Resolve (r : TenantResolver.t) (phoneNumberID : string) : string :=
  match TenantResolver.byPhoneNumberID r !! phoneNumberID with
  | Some t =>
      if negb (String.eqb t "") then t else TenantResolver.defaultTenant r
  | None => TenantResolver.defaultTenant r
  end.

End Tenants.

(** ** WhatsApp client (Cloud API) *)

Definition apiVersion : string := "v24.0".

(** A value of [map[string]any] and what the program stores in one. *)
#[warnings="-register-all"] Inductive Any : Type :=
| AString (s : string)
| AList (l : list Any)
| AMap (m : gmap string Any).

(** The struct [WhatsAppClient]. *)
Module WAClient.
Record t := mk {
  token : string;
  phoneID : string;
  apiBaseURL : string;
  forceTo : string
}.
End WAClient.

(** Package [net/http] as [post] uses it, and [json.Marshal]. *)
Module http.
Record Request := {
  Method : string;
  URL : string;
  Header : gmap string string;
  Body : string
}.
Record Response := {
  StatusCode : Z;
  Status : string;
  ResponseBody : string
}.
Record Client := {
  (** [json.Marshal] of a payload; its error is dropped by the program *)
  Marshal : Any → string;
  (** the error of [http.NewRequest] for a method and a URL, if any *)
  NewRequestError : string → string → option string;
  (** [http.DefaultClient.Do] *)
  Do : Request → result Response
}.
End http.

Section WhatsApp.
Context `{GoUnicode}.
Variable os : OS.
Variable net : http.Client.

Local Open Scope Z_scope.

Definition normalizeRecipientForMeta (to : string) : string :=
  let env := TrimSpace (Getenv os "APP_ENV") in
  let env := if String.eqb env "" then "dev" else env in
  if String.eqb env "prod" then to
  else
    let to := TrimSpace to in
    let to := TrimPrefix to "+" in
    if HasPrefix to "549" && (3 <? String.length to)%nat
    then "54" +:+ sliceFrom 3 to
    else to.

Definition NewWhatsAppClient (phoneNumberID : string) : result WAClient.t :=
  let token := Getenv os "WHATSAPP_TOKEN" in
  if String.eqb token "" then Err "WHATSAPP_TOKEN no seteado"
  else
    let env := TrimSpace (Getenv os "APP_ENV") in
    let env := if String.eqb env "" then "dev" else env in
    let force := Getenv os "WHATSAPP_FORCE_TO" in
    let force := if negb (String.eqb env "dev") then "" else force in
    Ok (WAClient.mk token phoneNumberID
          ("https://graph.facebook.com/" +:+ apiVersion +:+ "/" +:+
           phoneNumberID +:+ "/messages")
          force).

(** The method [post]. *)
Definition post_ (c : WAClient.t) (payload : gmap string Any) : option string :=
  let b := http.Marshal net (AMap payload) in
  match http.NewRequestError net "POST" (WAClient.apiBaseURL c) with
  | Some err => Some err
  | None =>
      let req :=
        {| http.Method := "POST";
           http.URL := WAClient.apiBaseURL c;
           http.Header :=
             {[ "Authorization" := "Bearer " +:+ WAClient.token c;
                "Content-Type" := "application/json" ]};
           http.Body := b |} in
      match http.Do net req with
      | Err err => Some err
      | Ok resp =>
          if (http.StatusCode resp <? 200) || (300 <=? http.StatusCode resp)
          then Some ("respuesta no OK de Meta: " +:+ http.Status resp +:+
                     " - " +:+ http.ResponseBody resp)
          else None
      end
  end.

(** The recipient both sends write into the payload. *)
Definition recipient (c : WAClient.t) (to : string) : string :=
  let to := if negb (String.eqb (WAClient.forceTo c) "")
            then WAClient.forceTo c else to in
  normalizeRecipientForMeta to.

(** The payload of [sendText]. *)
Definition textPayload (c : WAClient.t) (to body : string) : gmap string Any :=
  let to := recipient c to in
  {[ "messaging_product" := AString "whatsapp";
     "to" := AString to;
     "type" := AString "text";
     "text" := AMap {[ "body" := AString body ]} ]}.

Definition sendText (c : WAClient.t) (to body : string) : option string :=
  post_ c (textPayload c to body).

Definition waRow (r : FlowRow.t) : Any :=
  let row : gmap string Any :=
    {[ "id" := AString (FlowRow.ID r); "title" := AString (FlowRow.Title r) ]} in
  let row :=
    if negb (String.eqb (TrimSpace (FlowRow.Description r)) "")
    then <["description" := AString (FlowRow.Description r)]> row
    else row in
  AMap row.

Definition waSection (s : FlowSection.t) : Any :=
  let rows := map waRow (FlowSection.Rows s) in
  AMap {[ "title" := AString (FlowSection.Title s); "rows" := AList rows ]}.

(** The payload of [sendList]. *)
Definition listPayload (c : WAClient.t)
    (to header body footer buttonText : string)
    (sections : list FlowSection.t) : gmap string Any :=
  let to := recipient c to in
  let waSections := map waSection sections in
  let interactive : gmap string Any :=
    {[ "type" := AString "list";
       "body" := AMap {[ "text" := AString body ]};
       "action" := AMap {[ "button" := AString buttonText;
                           "sections" := AList waSections ]} ]} in
  let interactive :=
    if negb (String.eqb (TrimSpace header) "")
    then <["header" := AMap {[ "type" := AString "text";
                               "text" := AString header ]}]> interactive
    else interactive in
  let interactive :=
    if negb (String.eqb (TrimSpace footer) "")
    then <["footer" := AMap {[ "text" := AString footer ]}]> interactive
    else interactive in
  {[ "messaging_product" := AString "whatsapp";
     "to" := AString to;
     "type" := AString "interactive";
     "interactive" := AMap interactive ]}.

Definition sendList (c : WAClient.t)
    (to header body footer buttonText : string)
    (sections : list FlowSection.t) : option string :=
  post_ c (listPayload c to header body footer buttonText sections).

(** The payload a send of the renderer posts through the client [c]. *)
Definition payloadOf (c : WAClient.t) (m : Outbound) : gmap string Any :=
  match m with
  | SendText to body => textPayload c to body
  | SendList to header body footer buttonText sections =>
      listPayload c to header body footer buttonText sections
  end.

(** The client [c] as the channel of the renderer. *)
Definition channel (c : WAClient.t) : WhatsAppClient :=
  {| post := λ m,
       match m with
       | SendText to body => sendText c to body
       | SendList to header body footer buttonText sections =>
           sendList c to header body footer buttonText sections
       end |}.

End WhatsApp.

(** The recipient argument of a send. *)
Definition recipientOf (m : Outbound) : string :=
  match m with
  | SendText to _ => to
  | SendList to _ _ _ _ _ => to
  end.

(** What a send of one state leaves: no message and an error, or one
    message to the recipient given and the answer of the channel to it. *)
Definition oneSend (wa : WhatsAppClient) (to : string)
    (r : option string * list Outbound) : Prop :=
  (r.2 = [] ∧ r.1 ≠ None) ∨
  (∃ m, r.2 = [m] ∧ r.1 = post wa m ∧ recipientOf m = to).

(** ** Sessions *)

Module UserSession.
Record t := mk { State : string; UpdatedAt : time.Time }.
End UserSession.

Module SessionStore.
Record t := mk { data : gmap string UserSession.t }.
Definition Get (s : t) (key : string) : option UserSession.t := data s !! key.
Definition Set_ (s : t) (key : string) (sess : UserSession.t) : t :=
  mk (<[key := sess]> (data s)).
End SessionStore.

Definition NewSessionStore : SessionStore.t := SessionStore.mk ∅.

(** ** The webhook payload *)

Module WAContact.
Record t := mk { ProfileName : string; WaID : string }.
End WAContact.

Module WAValue.
Record t := mk {
  MessagingProduct : string;
  DisplayPhoneNumber : string;
  PhoneNumberID : string;
  Contacts : list WAContact.t;
  Messages : list IncomingMessage.t
}.
End WAValue.

Module WAChange.
Record t := mk { Field : string; Value : WAValue.t }.
End WAChange.

Module WAEntry.
Record t := mk { Changes : list WAChange.t }.
End WAEntry.

Module WebhookPayload.
Record t := mk { Object : string; Entry : list WAEntry.t }.
End WebhookPayload.

(** ** The application *)

(** The struct [App].  Its renderer holds the pointer to the cache that
    the application holds: the two share the one field [cache]. *)
Module App.
Record t := mk {
  verifyToken : string;
  resolver : TenantResolver.t;
  sessions : SessionStore.t;
  cache : ConfigCache.t
}.
End App.

(** A handler at work: the application, how many times the clock has been
    read, and the sends made so far, first to last. *)
Record Run := {
  app : App.t;
  clockReads : nat;
  sends : list Outbound
}.

Definition StatusOK : Z := 200.
Definition StatusForbidden : Z := 403.

(** The key of the session of the user [waID] of [tenant]. *)
Definition sessKey (tenant waID : string) : string :=
  tenant +:+ ":" +:+ waID.

Section Handler.
Context `{GoUnicode}.
Variable range : MapRange.
Variable os : OS.
Variable net : http.Client.
Variable UnmarshalFlow : string → result FlowConfig.t.
(** [json.Unmarshal] into a [WebhookPayload]. *)
Variable UnmarshalWebhook : string → result WebhookPayload.t.
(** [time.Now()] at its n-th call. *)
Variable nowAt : nat → time.Time.

Definition NewApp : App.t :=
  let verify := Getenv os "VERIFY_TOKEN" in
  let verify := if String.eqb verify "" then "brokerbot_verify" else verify in
  App.mk verify (NewTenantResolver os) NewSessionStore NewConfigCache.

(** [handleVerify] on the query parameters hub.mode, hub.verify_token and
    hub.challenge: the status and the body written. *)
Definition handleVerify (a : App.t) (mode token challenge : string)
  : Z * string :=
  if String.eqb mode "subscribe" && String.eqb token (App.verifyToken a)
  then (StatusOK, challenge)
  else (StatusForbidden, "").

(** [a.sessions.Set(key, UserSession{State: state, UpdatedAt: time.Now()})]. *)
Definition setSession (r : Run) (key state : string) : Run :=
  let a := app r in
  {| app := App.mk (App.verifyToken a) (App.resolver a)
              (SessionStore.Set_ (App.sessions a) key
                 (UserSession.mk state (nowAt (clockReads r))))
              (App.cache a);
     clockReads := S (clockReads r);
     sends := sends r |}.

Definition setCache (r : Run) (cache : ConfigCache.t) : Run :=
  let a := app r in
  {| app := App.mk (App.verifyToken a) (App.resolver a) (App.sessions a) cache;
     clockReads := clockReads r;
     sends := sends r |}.

(** A send through the client; the handler drops its error where it
    calls [sendText] itself. *)
Definition addSends (r : Run) (ms : list Outbound) : Run :=
  {| app := app r; clockReads := clockReads r; sends := sends r ++ ms |}.

(** The session of [sessKey] as the handler takes it up: a session that
    is missing or has no state is set to "MENU" first.  The state, and the
    handler afterwards. *)
Definition openSession (r : Run) (key : string) : string * Run :=
  let fresh := ("MENU", setSession r key "MENU") in
  match SessionStore.Get (App.sessions (app r)) key with
  | Some sess =>
      if String.eqb (UserSession.State sess) "" then fresh
      else (UserSession.State sess, r)
  | None => fresh
  end.

(** The body of the loop of [handleMessage] over the messages of a
    change. *)
Definition handleOne (tenant phoneID : string) (contacts : list WAContact.t)
    (r : Run) (msg : IncomingMessage.t) : Run :=
  let waID := IncomingMessage.From msg in
  let name :=
    match contacts with
    | c :: _ => TrimSpace (WAContact.ProfileName c)
    | [] => ""
    end in
  let name := if String.eqb name "" then "ahí" else name in
  let vars : gmap string string := {[ "name" := name ]} in
  let '(state, r) := openSession r (sessKey tenant waID) in
  match NewWhatsAppClient os phoneID with
  | Err _ => r
  | Ok waClient =>
      let '(cache, (nextState, handled, err)) :=
        processMessage range os UnmarshalFlow (App.cache (app r)) tenant
          state msg in
      let r := setCache r cache in
      match err with
      | Some _ =>
          addSends r [SendText waID "Perdón, hubo un error. Probá de nuevo."]
      | None =>
          let nextState := if negb handled then "MENU" else nextState in
          let r := setSession r (sessKey tenant waID) nextState in
          let '(cache, (err, sent)) :=
            RenderAndSend range os UnmarshalFlow (App.cache (app r)) tenant
              nextState (channel os net waClient) waID vars in
          let r := addSends (setCache r cache) sent in
          match err with
          | Some _ =>
              addSends r
                [SendText waID "Perdón, hubo un problema mostrando el menú."]
          | None => r
          end
      end
  end.

Definition handleChange (r : Run) (ch : WAChange.t) : Run :=
  let phoneID := WAValue.PhoneNumberID (WAChange.Value ch) in
  let tenant := Resolve (App.resolver (app r)) phoneID in
  if (length (WAValue.Messages (WAChange.Value ch)) =? 0)%nat then r
  else
    foldl (handleOne tenant phoneID (WAValue.Contacts (WAChange.Value ch)))
      r (WAValue.Messages (WAChange.Value ch)).

(** [handleMessage] on the body of a request: the handler afterwards and
    the status written. *)
Definition handleMessage (r : Run) (rawBody : string) : Run * Z :=
  match UnmarshalWebhook rawBody with
  | Err _ => (r, StatusOK)
  | Ok payload =>
      (foldl (λ r e, foldl handleChange r (WAEntry.Changes e)) r
         (WebhookPayload.Entry payload),
       StatusOK)
  end.

End Handler.

(** The sessions of a handler all hold a state name. *)
Definition sessionsNamed (r : Run) : Prop :=
  ∀ key sess,
    SessionStore.Get (App.sessions (app r)) key = Some sess →
    UserSession.State sess ≠ "".

(** ** What the properties of the handler speak of *)

Section TenantViews.
Context `{GoUnicode}.

(** An entry of [entries] gives the tenant [t] for the id [id]: it holds
    a colon, with [id] before the first one and [t] after it, both
    trimmed. *)
Definition fromEntry (entries : list string) (id t : string) : Prop :=
  ∃ p k v, p ∈ entries ∧ cutAt (TrimSpace p) ":" = Some (k, v) ∧
           TrimSpace k = id ∧ TrimSpace v = t.

(** What every request keeps: the cache holds flow definitions that
    load, and every session holds a state name. *)
Definition handlerOK (r : Run) : Prop :=
  cacheValid (App.cache (app r)) ∧ sessionsNamed r.

End TenantViews.

(** The messages of a request, in the order the handler meets them. *)
Definition changeMessages (ch : WAChange.t) : list IncomingMessage.t :=
  WAValue.Messages (WAChange.Value ch).

Definition entryMessages (e : WAEntry.t) : list IncomingMessage.t :=
  flat_map changeMessages (WAEntry.Changes e).

Definition payloadMessages (payload : WebhookPayload.t)
  : list IncomingMessage.t :=
  flat_map entryMessages (WebhookPayload.Entry payload).

(** From [r] to [r'] the handler has answered [n] messages of [msgs]:
    what it has sent since goes to senders of [msgs], at least [lo] and
    at most [hi] sends for each of the [n]. *)
Definition answers (lo hi : nat) (msgs : list IncomingMessage.t) (n : nat)
    (r r' : Run) : Prop :=
  ∃ new, sends r' = sends r ++ new ∧
    Forall (λ m, ∃ msg, msg ∈ msgs ∧ recipientOf m = IncomingMessage.From msg)
      new ∧
    lo * n ≤ length new ≤ hi * n.

(** The least and the most sends for a message: none without a token,
    one to two with one. *)
Definition sendsPerMessage (os : OS) : nat * nat :=
  if String.eqb (Getenv os "WHATSAPP_TOKEN") "" then (0, 0) else (1, 2).

(** ** Limits counted in bytes *)

(** The fields of a row, a section, a list and a state respect the limits
    of the validation when their lengths are counted in bytes, and the
    row ids are not empty. *)
Definition rowWithin (row : FlowRow.t) : bool :=
  negb (String.eqb (FlowRow.ID row) "") &&
  (String.length (FlowRow.Title row) <=? 24) &&
  (String.length (FlowRow.Description row) <=? 72).

Definition sectionWithin (sec : FlowSection.t) : bool :=
  (String.length (FlowSection.Title sec) <=? 24) &&
  forallb rowWithin (FlowSection.Rows sec).

Definition listWithin (l : FlowList.t) : bool :=
  (String.length (FlowList.Header l) <=? 60) &&
  (String.length (FlowList.Footer l) <=? 60) &&
  (String.length (FlowList.ButtonText l) <=? 20) &&
  forallb sectionWithin (FlowList.Sections l).

Definition stateWithin (st : FlowState.t) : bool :=
  match FlowState.List st with
  | Some l =>
      negb (String.eqb (FlowState.Type_ st) "interactive_list") || listWithin l
  | None => true
  end.

Definition withinBytes (cfg : FlowConfig.t) : bool :=
  forallb (λ kv, stateWithin kv.2) (map_to_list (FlowConfig.States cfg)).

(** ** A deployment of the webhook, for evaluating the handler *)

Module DemoApp.
Local Open Scope Z_scope.

Definition phone : string := "1041740029016016".

(** The environment of production; every file exists and reads as its
    own path. *)
Definition os : OS :=
  {| Getenv := λ name,
       if String.eqb name "WHATSAPP_TOKEN" then "EAAM"
       else if String.eqb name "APP_ENV" then "prod"
       else if String.eqb name "TENANT_BY_PHONE_NUMBER_ID"
       then "1041740029016016:broker, 77:other"
       else "";
     filepathJoin := λ elems, Join elems "/";
     Stat := λ _, true;
     ReadFile := λ path, Ok path |}.

(** The environment of development, with a forced recipient. *)
Definition devOs : OS :=
  {| Getenv := λ name,
       if String.eqb name "WHATSAPP_TOKEN" then "EAAM"
       else if String.eqb name "APP_ENV" then " dev "
       else if String.eqb name "WHATSAPP_FORCE_TO" then "+5491155550000"
       else "";
     filepathJoin := λ elems, Join elems "/";
     Stat := λ _, true;
     ReadFile := λ path, Ok path |}.

(** Every flow.json holds the flow of [Demo]. *)
Definition unmarshalFlow (b : string) : result FlowConfig.t := Ok Demo.flow.

(** A network that answers every request with 200. *)
Definition net : http.Client :=
  {| http.Marshal := λ _, "{}";
     http.NewRequestError := λ _ _, None;
     http.Do := λ _, Ok {| http.StatusCode := 200;
                          http.Status := "200 OK";
                          http.ResponseBody := "{}" |} |}.

(** A request with one text message, "hola", from Ana. *)
Definition payload : WebhookPayload.t :=
  WebhookPayload.mk "whatsapp_business_account"
    [WAEntry.mk
       [WAChange.mk "messages"
          (WAValue.mk "whatsapp" "5491100000001" phone
             [WAContact.mk " Ana " "5491100000000"]
             [Demo.textMsg "hola"])]].

Definition unmarshalWebhook (b : string) : result WebhookPayload.t :=
  Ok payload.

Definition nowAt (n : nat) : time.Time :=
  {| time.unixNano := 1700000000 * time.Second + Z.of_nat n;
     time.loc := time.UTC |}.

(** The handler as [main] starts it. *)
Definition start : Run :=
  {| app := @NewApp Ascii7.unicode os; clockReads := 0; sends := [] |}.

(** The client of [phone] in production and in development. *)
Definition client (force : string) : WAClient.t :=
  WAClient.mk "EAAM" phone
    "https://graph.facebook.com/v24.0/1041740029016016/messages" force.

(** The menu of [Demo] as Ana gets it. *)
Definition menuForAna : Outbound :=
  SendList "5491100000000" "Flowly" "Hola Ana" "Escribe menu para volver"
    "Ver opciones" (FlowList.Sections Demo.menuList).

End DemoApp.

Abbreviation demoHandle :=
  (@handleMessage Ascii7.unicode Demo.range DemoApp.os DemoApp.net
     DemoApp.unmarshalFlow DemoApp.unmarshalWebhook DemoApp.nowAt).

(** A flow whose menu is an interactive list without a list. *)
Module DemoNil.

Definition menuState : FlowState.t :=
  FlowState.mk "interactive_list" "Hola {{name}}" None "" None.

Definition flow : FlowConfig.t := FlowConfig.mk "1" {[ "MENU" := menuState ]}.

Definition unmarshalFlow (b : string) : result FlowConfig.t := Ok flow.

End DemoNil.

(* ===================================================================== *)
(** * Part II.  Properties                                                *)
(* ===================================================================== *)

(** ** The state machine *)

Section StateMachine.
Context `{GoUnicode}.
Variable range : MapRange.
Variable os : OS.
Variable UnmarshalFlow : string → result FlowConfig.t.

Local Abbreviation process := (processMessage range os UnmarshalFlow).
Local Abbreviation resolve := (resolveFlow range os UnmarshalFlow).

(** [processMessage] decides on the resolved flow definition, and fails
    exactly when there is none. *)
Lemma processMessage_resolved cache tenant state msg :
  (process cache tenant state msg).2 =
  match resolve cache tenant with
  | Ok cfg => decide_ cfg state msg
  | Err err => ("", false, Some err)
  end.
Proof.
  unfold processMessage, resolveFlow.
  destruct (ConfigCache.Get cache tenant) as [cfg|]; [reflexivity|].
  destruct (loadFlowConfig _ _ _ tenant); reflexivity.
Qed.

(** An unknown state resets, whatever the message. *)
Lemma decide_unknown_state cfg state msg :
  FlowConfig.States cfg !! state = None →
  decide_ cfg state msg = ("MENU", false, None).
Proof. intros Hst. unfold decide_. now rewrite Hst. Qed.

Lemma decide_free_text cfg state st msg body :
  FlowConfig.States cfg !! state = Some st →
  freeText msg = Some body →
  decide_ cfg state msg =
    if EqualFold (TrimSpace body) "menu" then ("MENU", true, None)
    else if negb (String.eqb (FlowState.OnTextNext st) "")
    then (FlowState.OnTextNext st, true, None)
    else ("MENU", false, None).
Proof.
  intros Hst Hmsg. unfold decide_, freeText in *. rewrite Hst.
  destruct (String.eqb (IncomingMessage.Type_ msg) "text"); [|discriminate].
  destruct (IncomingMessage.Text msg) as [text|]; simpl in Hmsg; [|discriminate].
  now inversion Hmsg.
Qed.

Lemma decide_selection cfg state st msg id :
  FlowConfig.States cfg !! state = Some st →
  selectedID msg = Some id →
  decide_ cfg state msg = selectNext st id.
Proof.
  intros Hst Hmsg. unfold decide_, selectedID in *. rewrite Hst.
  destruct (String.eqb (IncomingMessage.Type_ msg) "text") eqn:Htext.
  { apply String.eqb_eq in Htext. rewrite Htext in Hmsg. discriminate. }
  destruct (String.eqb (IncomingMessage.Type_ msg) "interactive"); [|discriminate].
  destruct (IncomingMessage.Interactive msg) as [inter|]; simpl in Hmsg; [|discriminate].
  destruct (String.eqb (WAInteractive.Type_ inter) "list_reply").
  { destruct (WAInteractive.ListReply inter); simpl in Hmsg; [|discriminate].
    now inversion Hmsg. }
  destruct (String.eqb (WAInteractive.Type_ inter) "button_reply"); [|discriminate].
  destruct (WAInteractive.ButtonReply inter); simpl in Hmsg; [|discriminate].
  now inversion Hmsg.
Qed.

(** C1, as amended: once the tenant's flow definition is resolved, a free
    text whose trimmed body equals "menu" under case folding sends every
    state OF THE FLOW DEFINITION to [("MENU", handled = true)].  (A state
    that is not in the definition is reset before the text is looked at:
    [processMessage_menu_unknown_state].) *)
Theorem processMessage_menu_keyword cache tenant cfg state st msg body :
  resolve cache tenant = Ok cfg →
  FlowConfig.States cfg !! state = Some st →
  freeText msg = Some body →
  EqualFold (TrimSpace body) "menu" = true →
  (process cache tenant state msg).2 = ("MENU", true, None).
Proof.
  intros Hcfg Hst Hmsg Hmenu.
  rewrite processMessage_resolved, Hcfg.
  rewrite (decide_free_text _ _ _ _ _ Hst Hmsg).
  now rewrite Hmenu.
Qed.

(** C2, as amended: in a state of the flow definition, a list-row or
    button click whose id the selection map sends to a NON-EMPTY state
    name moves there, handled; a click with no such transition (no map,
    id not in the map, or id mapped to the empty name) gives
    [("MENU", handled = false)]. *)
Theorem processMessage_selection cache tenant cfg state st msg id :
  resolve cache tenant = Ok cfg →
  FlowConfig.States cfg !! state = Some st →
  selectedID msg = Some id →
  (∀ m ns, FlowState.OnSelectNext st = Some m → m !! id = Some ns →
           ns ≠ "" →
           (process cache tenant state msg).2 = (ns, true, None)) ∧
  ((∀ m ns, FlowState.OnSelectNext st = Some m → m !! id = Some ns →
            ns = "") →
   (process cache tenant state msg).2 = ("MENU", false, None)).
Proof.
  intros Hcfg Hst Hmsg.
  rewrite processMessage_resolved, Hcfg.
  rewrite (decide_selection _ _ _ _ _ Hst Hmsg).
  unfold selectNext. split.
  - intros m ns Hm Hid Hns. rewrite Hm, Hid.
    destruct (String.eqb ns "") eqn:E; [|reflexivity].
    apply String.eqb_eq in E. contradiction.
  - intros Hnone.
    destruct (FlowState.OnSelectNext st) as [m|]; [|reflexivity].
    destruct (m !! id) as [ns|] eqn:Hid; [|reflexivity].
    rewrite (Hnone m ns eq_refl Hid). reflexivity.
Qed.

End StateMachine.

Lemma processMessage_menu_keyword_witness :
  (demoProcess "TURNO" (Demo.textMsg "  MeNu ")).2 = ("MENU", true, None).
Proof.
  apply (@processMessage_menu_keyword Ascii7.unicode Demo.range Demo.os
           Demo.noJSON Demo.cache "broker" Demo.flow "TURNO" Demo.turnoState
           (Demo.textMsg "  MeNu ") "  MeNu ");
    vm_compute; reflexivity.
Defined.

(** C1 as stated fails: in a state that the flow definition does not have,
    the text "menu" is answered [("MENU", handled = false)]. *)
Lemma processMessage_menu_unknown_state :
  FlowConfig.States Demo.flow !! "FOO" = None ∧
  Ascii7.equalFold (Ascii7.trimSpace "menu") "menu" = true ∧
  (demoProcess "FOO" (Demo.textMsg "menu")).2 = ("MENU", false, None).
Proof. repeat split; vm_compute; reflexivity. Qed.

Lemma processMessage_selection_witness :
  (demoProcess "MENU" (Demo.listReply "opt_turno")).2 = ("TURNO", true, None) ∧
  (demoProcess "MENU" (Demo.buttonReply "otra")).2 = ("MENU", false, None).
Proof.
  pose proof (@processMessage_selection Ascii7.unicode Demo.range Demo.os
                Demo.noJSON Demo.cache "broker" Demo.flow "MENU"
                Demo.menuState) as Hsel.
  split.
  - refine (proj1 (Hsel (Demo.listReply "opt_turno") "opt_turno" _ _ _)
              {[ "opt_turno" := "TURNO"; "opt_info" := "" ]} "TURNO" _ _ _);
      try (vm_compute; reflexivity).
    discriminate.
  - refine (proj2 (Hsel (Demo.buttonReply "otra") "otra" _ _ _) _);
      try (vm_compute; reflexivity).
    intros m ns [= <-] Hid. vm_compute in Hid. discriminate.
Defined.

(** C2 as stated fails: the selection map of MENU contains [opt_info], and
    the click on it is not handled, because it is mapped to the empty
    name. *)
Lemma processMessage_selection_empty_target :
  (FlowConfig.States Demo.flow !! "MENU" ≫= FlowState.OnSelectNext)
    ≫= (λ m, m !! "opt_info") = Some "" ∧
  (demoProcess "MENU" (Demo.listReply "opt_info")).2 = ("MENU", false, None).
Proof. split; vm_compute; reflexivity. Qed.

(** ** The calendar: construction of the service *)

Section ServiceConstruction.
Variable os : OS.
Variable UnmarshalCalendar : string → result CalendarJSON.t.
Variable NewService : string → result calendar.Service.

Local Open Scope Z_scope.

Lemma basicValidations_bounds cfg :
  0 ≤ TenantCalendarConfig.StartHour (basicValidations cfg) ∧
  TenantCalendarConfig.EndHour (basicValidations cfg) ≤ 24 ∧
  TenantCalendarConfig.WorkDays (basicValidations cfg) ≠ [].
Proof.
  unfold basicValidations; simpl. repeat split.
  - destruct (Z.ltb_spec (TenantCalendarConfig.StartHour cfg) 0); lia.
  - destruct (Z.ltb_spec 24 (TenantCalendarConfig.EndHour cfg)); lia.
  - destruct (TenantCalendarConfig.WorkDays cfg); simpl; discriminate.
Qed.

(** What the constructed service holds, from the settings read. *)
Lemma NewCalendarService_settings tenant c :
  NewCalendarService os UnmarshalCalendar NewService tenant = Ok c →
  ∃ cfg : TenantCalendarConfig.t,
    (if Stat os (filepathJoin os ["configs"; tenant; "calendar.json"])
     then ∃ b j,
         ReadFile os (filepathJoin os ["configs"; tenant; "calendar.json"]) = Ok b ∧
         UnmarshalCalendar b = Ok j ∧
         cfg = unmarshalInto (TenantCalendarConfig.mk "" 9 17 [1; 2; 3; 4; 5]) j
     else cfg = TenantCalendarConfig.mk (Getenv os "GOOGLE_CALENDAR_ID")
                  9 17 [1; 2; 3; 4; 5]) ∧
    CalendarService.calID c = TenantCalendarConfig.CalendarID cfg ∧
    CalendarService.StartHour c =
      TenantCalendarConfig.StartHour (basicValidations cfg) ∧
    CalendarService.EndHour c =
      TenantCalendarConfig.EndHour (basicValidations cfg) ∧
    CalendarService.WorkDays c =
      TenantCalendarConfig.WorkDays (basicValidations cfg).
Proof.
  unfold NewCalendarService. intros Hnew.
  destruct (String.eqb (Getenv os "GOOGLE_APPLICATION_CREDENTIALS") "");
    [discriminate|].
  set (path := filepathJoin os ["configs"; tenant; "calendar.json"]) in *.
  destruct (Stat os path).
  - destruct (ReadFile os path) as [b|] eqn:Hread; [|discriminate].
    destruct (UnmarshalCalendar b) as [j|] eqn:Hjson; [|discriminate].
    set (cfg := unmarshalInto _ j) in *.
    destruct (String.eqb (TenantCalendarConfig.CalendarID cfg) "");
      [discriminate|].
    destruct (NewService _); [|discriminate].
    inversion Hnew; subst c; simpl.
    exists cfg. split; [exists b, j; auto|]. auto.
  - simpl in Hnew.
    destruct (String.eqb (Getenv os "GOOGLE_CALENDAR_ID") ""); [discriminate|].
    destruct (NewService _); [|discriminate].
    inversion Hnew; subst c; simpl.
    eexists. split; [reflexivity|]. simpl. auto.
Qed.

(** C9, as amended: the constructed service takes 9, 17 and Monday to
    Friday for a setting that [calendar.json] does not give (or when there
    is no file), for a NEGATIVE start hour, for an end hour ABOVE 24 and
    for an empty list of working days, and every other value as it is
    configured.  Hence the start hour is never negative, the end hour
    never above 24 and the working days never empty; a start hour above
    24 or a negative end hour is kept
    ([NewCalendarService_keeps_late_start]). *)
Theorem NewCalendarService_defaults tenant c :
  NewCalendarService os UnmarshalCalendar NewService tenant = Ok c →
  (∃ j : CalendarJSON.t,
     (Stat os (filepathJoin os ["configs"; tenant; "calendar.json"]) = false →
      j = CalendarJSON.mk None None None None) ∧
     (Stat os (filepathJoin os ["configs"; tenant; "calendar.json"]) = true →
      ∃ b, ReadFile os (filepathJoin os ["configs"; tenant; "calendar.json"]) = Ok b ∧
           UnmarshalCalendar b = Ok j) ∧
     CalendarService.StartHour c =
       match CalendarJSON.start_hour j with
       | Some h => if h <? 0 then 9 else h
       | None => 9
       end ∧
     CalendarService.EndHour c =
       match CalendarJSON.end_hour j with
       | Some h => if 24 <? h then 17 else h
       | None => 17
       end ∧
     CalendarService.WorkDays c =
       match CalendarJSON.work_days j with
       | Some (d :: ds) => d :: ds
       | Some [] | None => [1; 2; 3; 4; 5]
       end) ∧
  0 ≤ CalendarService.StartHour c ∧
  CalendarService.EndHour c ≤ 24 ∧
  CalendarService.WorkDays c ≠ [].
Proof.
  intros Hnew.
  destruct (NewCalendarService_settings _ _ Hnew)
    as (cfg & Hcfg & _ & Hs & He & Hw).
  pose proof (basicValidations_bounds cfg) as (Bs & Be & Bw).
  split; [|rewrite Hs, He, Hw; auto].
  destruct (Stat os _) eqn:Hstat.
  - destruct Hcfg as (b & j & Hread & Hjson & ->).
    exists j. rewrite Hs, He, Hw. unfold basicValidations, unmarshalInto; simpl.
    split; [discriminate|]. split; [eauto|].
    destruct j as [cid [sh|] [eh|] [[|d ds]|]]; simpl; auto.
  - subst cfg. exists (CalendarJSON.mk None None None None).
    rewrite Hs, He, Hw. simpl. repeat split; auto. discriminate.
Qed.

End ServiceConstruction.



Lemma NewCalendarService_defaults_witness :
  DemoCalendar.hoursOf (demoNewService "broker") = Some (9, 17, [1; 2; 3; 4; 5])%Z ∧
  DemoCalendar.hoursOf (demoNewService "empty") = Some (9, 17, [1; 2; 3; 4; 5])%Z ∧
  (0 ≤ 9 ∧ 17 ≤ 24)%Z.
Proof.
  split; [vm_compute; reflexivity|]. split; [vm_compute; reflexivity|].
  destruct (demoNewService "broker") as [c|] eqn:Hc; [|vm_compute in Hc; discriminate].
  pose proof (NewCalendarService_defaults DemoCalendar.os DemoCalendar.unmarshal
                DemoCalendar.newService "broker" c Hc) as (_ & Hs & He & _).
  vm_compute in Hc. inversion Hc; subst c. simpl in Hs, He. auto.
Defined.

(** C9 as stated fails: a start hour of 30 and an end hour of -2 are out
    of range and are kept, not replaced by 9 and 17. *)
Lemma NewCalendarService_keeps_late_start :
  DemoCalendar.unmarshal "configs/late/calendar.json" =
    Ok (CalendarJSON.mk (Some "cal") (Some 30%Z) (Some (-2)%Z) (Some [9%Z])) ∧
  DemoCalendar.hoursOf (demoNewService "late") = Some (30, -2, [9])%Z.
Proof. split; vm_compute; reflexivity. Qed.

(** ** The calendar: slot search *)

Lemma foldl_invariant {A B : Type} (P : A → Prop) (f : A → B → A)
    (l : list B) (a : A) :
  (∀ a b, P a → P (f a b)) → P a → P (foldl f a l).
Proof.
  intros Hstep. revert a.
  induction l as [|b l IH]; intros a Ha; [exact Ha|].
  apply (IH (f a b)), Hstep, Ha.
Qed.

Lemma Ok_inj {A : Type} (a b : A) : Ok a = Ok b → a = b.
Proof.
  intros Hab.
  exact (f_equal (λ r, match r with Ok x => x | Err _ => a end) Hab).
Qed.

(** The layout RFC 3339 shows the wall clock in whole seconds and the
    offset, nothing else. *)
Lemma FormatRFC3339_wallSec t u :
  time.wallSec t = time.wallSec u → time.loc t = time.loc u →
  time.FormatRFC3339 t = time.FormatRFC3339 u.
Proof.
  intros Hsec Hloc.
  unfold time.FormatRFC3339, time.Year, time.Month, time.Day, time.Hour_,
    time.Minute, time.Second_, time.wallDays.
  rewrite Hsec, Hloc. reflexivity.
Qed.

Lemma wallSec_wholeSecond t :
  time.wallSec (time.wholeSecond t) = time.wallSec t.
Proof.
  unfold time.wallSec, time.wholeSecond. cbn [time.unixNano time.loc].
  rewrite Z.div_mul; [reflexivity|]. unfold time.Second. lia.
Qed.

Lemma wallSec_Add_hour t :
  time.wallSec (time.Add t (1 * time.Hour)) = (time.wallSec t + 3600)%Z.
Proof.
  unfold time.wallSec, time.Add, time.Hour. cbn [time.unixNano time.loc].
  replace (time.unixNano t + 1 * (3600 * time.Second))%Z
    with (time.unixNano t + 3600 * time.Second)%Z by lia.
  rewrite Z.div_add; [lia|]. unfold time.Second. lia.
Qed.

Section SlotSearch.
Context `{GoTimeParse}.
Variable clock : Clock.

Local Open Scope Z_scope.

(** Hours of one day are an hour apart. *)
Lemma slotStartAt_hour day l h :
  time.unixNano (slotStartAt day l h) =
  time.unixNano (slotStartAt day l 0) + h * time.Hour.
Proof.
  unfold slotStartAt, time.Date, time.Hour. cbn [time.unixNano]. lia.
Qed.

(** The busy test is the half-open intersection with some interval. *)
Lemma isBusy_overlap slotStart slotEnd busyRanges :
  isBusy slotStart slotEnd busyRanges = true ↔
  ∃ busy, busy ∈ busyRanges ∧
    time.unixNano slotStart < time.unixNano (parseOrZero (calendar.End_ busy)) ∧
    time.unixNano (parseOrZero (calendar.Start busy)) < time.unixNano slotEnd.
Proof.
  unfold isBusy. rewrite existsb_exists. split.
  - intros (busy & Hin & Hover). exists busy.
    apply list_elem_of_In in Hin. split; [assumption|].
    apply andb_true_iff in Hover as [Hb Ha].
    unfold time.Before, time.After in *. lia.
  - intros (busy & Hin & Hb & Ha). exists busy.
    apply list_elem_of_In in Hin. split; [assumption|].
    apply andb_true_iff. unfold time.Before, time.After. split; lia.
Qed.

(** What one round of the hour loop does. *)
Lemma hourStep_cases now day l busyRanges slots counter h :
  hourStep now day l busyRanges (slots, counter) h =
    if (3 <=? length slots)%nat
       || time.Before (slotStartAt day l h) now
       || isBusy (slotStartAt day l h)
            (time.Add (slotStartAt day l h) (1 * time.Hour)) busyRanges
    then (slots, counter)
    else (slots ++ [Slot.mk ("SLOT_" +:+ fmt_d counter)
                      (time.FormatMon02 (slotStartAt day l h) +:+ " " +:+
                       time.Format1504 (slotStartAt day l h))
                      (time.FormatRFC3339 (slotStartAt day l h))],
          counter + 1).
Proof.
  unfold hourStep.
  destruct (3 <=? length slots)%nat; [reflexivity|].
  destruct (time.Before _ now); [reflexivity|].
  destruct (isBusy _ _ busyRanges); reflexivity.
Qed.

Lemma hourStep_slotsOK now day l busyRanges acc h :
  slotsOK now acc → slotsOK now (hourStep now day l busyRanges acc h).
Proof.
  destruct acc as [slots counter]. intros [Hlen Hall].
  rewrite hourStep_cases.
  destruct (3 <=? length slots)%nat eqn:Hthree; [split; assumption|].
  destruct (time.Before _ now) eqn:Hpast; [split; assumption|].
  destruct (isBusy _ _ busyRanges); [split; assumption|].
  apply Nat.leb_gt in Hthree.
  unfold slotsOK in *. cbn [fst orb] in *. split.
  - rewrite length_app. cbn [length]. lia.
  - apply Forall_app. split; [assumption|].
    apply Forall_singleton. exists (slotStartAt day l h).
    cbn [Slot.ISOValue Slot.Text]. auto.
Qed.

Lemma dayStep_slotsOK c now l busyRanges acc d :
  slotsOK now acc → slotsOK now (dayStep c now l busyRanges acc d).
Proof.
  intros Hacc. unfold dayStep.
  destruct (3 <=? length acc.1)%nat; [assumption|].
  destruct (negb _); [assumption|].
  apply foldl_invariant; [|assumption].
  intros a h. apply hourStep_slotsOK.
Qed.

(** The search sends one request, whatever the answer. *)
Lemma GetNextAvailableSlots_one_query c :
  ∃ q, (GetNextAvailableSlots clock c).2 = [calendar.FreebusyQuery q] ∧
       calendar.Items q = [CalendarService.calID c].
Proof.
  unfold GetNextAvailableSlots.
  destruct (calendar.FreebusyDo _ _); eexists; split; reflexivity.
Qed.



(** C7, as amended: when the timestamp parses, booking sends exactly one
    insert request and returns its answer; the event starts at the parsed
    instant WITHOUT ITS FRACTION OF A SECOND and ends one hour after that
    start, both in the layout RFC 3339.  When the timestamp does not
    parse, booking returns an error and sends nothing. *)
Theorem CreateAppointment_event c isoStart contactName contactPhone :
  (∀ startTime, ParseRFC3339 isoStart = Ok startTime →
     ∃ ev,
       CreateAppointment c isoStart contactName contactPhone =
         (calendar.InsertDo (CalendarService.srv c) (CalendarService.calID c) ev,
          [calendar.EventsInsert (CalendarService.calID c) ev]) ∧
       calendar.EventStart ev =
         Some {| calendar.DateTime :=
                   time.FormatRFC3339 (time.wholeSecond startTime) |} ∧
       calendar.EventEnd ev =
         Some {| calendar.DateTime :=
                   time.FormatRFC3339
                     (time.Add (time.wholeSecond startTime) (1 * time.Hour)) |}) ∧
  (∀ err, ParseRFC3339 isoStart = Err err →
     CreateAppointment c isoStart contactName contactPhone =
       (Some ("fecha inválida: " +:+ err), [])).
Proof.
  unfold CreateAppointment. split.
  - intros startTime ->. eexists. split; [reflexivity|].
    cbn [calendar.EventStart calendar.EventEnd].
    split; do 2 f_equal; apply FormatRFC3339_wallSec; try reflexivity.
    + symmetry. apply wallSec_wholeSecond.
    + rewrite !wallSec_Add_hour, wallSec_wholeSecond. reflexivity.
  - intros err ->. reflexivity.
Qed.

End SlotSearch.

(** *** The search and the booking on the demo calendar *)



(** C4 on a failing input.  Monday 08:00, the service works on Mondays
    from 9 to 10: the one request asks for the busy intervals up to the
    next Monday 08:00, and the search returns the slot of the next Monday
    at 09:00, one hour past the end of what was asked. *)
Theorem GetNextAvailableSlots_beyond_window :
  demoSlots (monday 8 0) (DemoCalendar.service [] 9 10 [1%Z]) =
    (Ok [slotAt 1 "Mon 01 09:00" "2024-01-01T09:00:00-03:00";
         slotAt 2 "Mon 08 09:00" "2024-01-08T09:00:00-03:00"],
     [calendar.FreebusyQuery (weekQuery "08")]) ∧
  rfc3339.parse (calendar.TimeMax (weekQuery "08")) =
    Some (time.Add (monday 8 0) (7 * 24 * time.Hour)) ∧
  rfc3339.parse "2024-01-08T09:00:00-03:00" =
    Some (time.Add (monday 8 0) (7 * 24 * time.Hour + 1 * time.Hour)) ∧
  time.Before (time.Add (monday 8 0) (7 * 24 * time.Hour))
    (time.Add (monday 8 0) (7 * 24 * time.Hour + 1 * time.Hour)) = true.
Proof. repeat split; vm_compute; reflexivity. Qed.


Lemma CreateAppointment_event_witness :
  rfc3339.parseStrict "2024-01-01T10:00:00-03:00" = Ok (monday 10 0) ∧
  (∃ ev,
     demoBook (DemoCalendar.service [] 9 17 [1%Z]) "2024-01-01T10:00:00-03:00"
       "Ana" "5491100000000" =
       (None, [calendar.EventsInsert "cal" ev]) ∧
     calendar.EventStart ev =
       Some {| calendar.DateTime := "2024-01-01T10:00:00-03:00" |} ∧
     calendar.EventEnd ev =
       Some {| calendar.DateTime := "2024-01-01T11:00:00-03:00" |}) ∧
  demoBook (DemoCalendar.service [] 9 17 [1%Z]) "el lunes a las diez"
    "Ana" "5491100000000" =
    (Some ("fecha inválida: parsing time " +:+
           Ascii7.quote "el lunes a las diez"), []).
Proof.
  assert (Hparse : rfc3339.parseStrict "2024-01-01T10:00:00-03:00"
                   = Ok (monday 10 0)) by (vm_compute; reflexivity).
  split; [exact Hparse|]. split.
  - destruct (proj1 (@CreateAppointment_event rfc3339.strict
                       (DemoCalendar.service [] 9 17 [1%Z])
                       "2024-01-01T10:00:00-03:00" "Ana" "5491100000000")
                (monday 10 0) Hparse) as (ev & Hrun & Hstart & Hend).
    exists ev. split; [exact Hrun|].
    rewrite Hstart, Hend. split; vm_compute; reflexivity.
  - apply (proj2 (@CreateAppointment_event rfc3339.strict
                    (DemoCalendar.service [] 9 17 [1%Z])
                    "el lunes a las diez" "Ana" "5491100000000")).
    vm_compute. reflexivity.
Defined.

(** C7 as stated fails: the timestamp with half a second parses, and the
    event starts on the whole second, half a second before it. *)
Lemma CreateAppointment_drops_fraction :
  rfc3339.parse "2024-01-01T10:00:00.5-03:00" =
    Some (time.Add (monday 10 0) 500000000) ∧
  demoBook (DemoCalendar.service [] 9 17 [1%Z]) "2024-01-01T10:00:00.5-03:00"
    "Ana" "5491100000000" =
    (None, [calendar.EventsInsert "cal" anaAtTen]) ∧
  calendar.EventStart anaAtTen =
    Some {| calendar.DateTime := "2024-01-01T10:00:00-03:00" |} ∧
  rfc3339.parse "2024-01-01T10:00:00-03:00" = Some (monday 10 0) ∧
  time.Before (monday 10 0) (time.Add (monday 10 0) 500000000) = true.
Proof. repeat split; vm_compute; reflexivity. Qed.

(** ** Strings *)

Lemma app_cons c s t : String c s +:+ t = String c (s +:+ t).
Proof. reflexivity. Qed.

Lemma app_nil_l t : "" +:+ t = t.
Proof. reflexivity. Qed.

Lemma app_nil_r s : s +:+ "" = s.
Proof. induction s as [|c s IH]; [reflexivity|]. now rewrite app_cons, IH. Qed.

Lemma app_assoc_s a b c : (a +:+ b) +:+ c = a +:+ (b +:+ c).
Proof.
  induction a as [|x a IH]; [reflexivity|]. now rewrite !app_cons, IH.
Qed.

Lemma prefix_cons c p s :
  String.prefix (String c p) (String c s) = String.prefix p s.
Proof. simpl. destruct (ascii_dec c c); [reflexivity|contradiction]. Qed.

Lemma HasPrefix_app s t : HasPrefix (s +:+ t) s = true.
Proof.
  unfold HasPrefix. induction s as [|c s IH]; [now destruct t|].
  now rewrite app_cons, prefix_cons.
Qed.

Lemma Contains_head s t : Contains (s +:+ t) s = true.
Proof.
  destruct s as [|c s].
  - destruct t; reflexivity.
  - rewrite app_cons. cbn [Contains]. rewrite <- app_cons, HasPrefix_app.
    reflexivity.
Qed.

Lemma Contains_app_r a s sub :
  Contains s sub = true → Contains (a +:+ s) sub = true.
Proof.
  intros Hs. induction a as [|c a IH]; [exact Hs|].
  rewrite app_cons. cbn [Contains]. rewrite IH. apply orb_true_r.
Qed.

(** Every element of a joined list stands in the result. *)
Lemma Contains_Join elems sep e :
  e ∈ elems → Contains (Join elems sep) e = true.
Proof.
  induction elems as [|x rest IH]; intros Hin.
  - apply elem_of_nil in Hin. contradiction.
  - apply elem_of_cons in Hin. cbn [Join].
    destruct rest as [|y rest'].
    + destruct Hin as [->|Hin]; [|apply elem_of_nil in Hin; contradiction].
      rewrite <- (app_nil_r x) at 1. apply Contains_head.
    + destruct Hin as [->|Hin]; [apply Contains_head|].
      do 2 apply Contains_app_r. exact (IH Hin).
Qed.

(** ** Validation of the flow definition *)

(** Membership in a list grown by a loop whose rounds only append. *)
Lemma elem_of_foldl_append {X : Type} (f : list string → X → list string)
    (Q : X → string → Prop) :
  (∀ errs x m, m ∈ f errs x ↔ m ∈ errs ∨ Q x m) →
  ∀ l errs m, m ∈ foldl f errs l ↔ m ∈ errs ∨ ∃ x, x ∈ l ∧ Q x m.
Proof.
  intros Hf l. induction l as [|x l IH]; intros errs m; cbn [foldl].
  - split; [auto|]. intros [Hm|(x & Hx & _)]; [exact Hm|].
    apply elem_of_nil in Hx. contradiction.
  - rewrite IH, Hf. split.
    + intros [[Hm|Hq]|(y & Hy & Hq)]; [auto| |].
      * right. exists x. split; [apply elem_of_cons; auto|exact Hq].
      * right. exists y. split; [apply elem_of_cons; auto|exact Hq].
    + intros [Hm|(y & Hy & Hq)]; [auto|].
      apply elem_of_cons in Hy as [->|Hy]; [auto|].
      right. exists y. auto.
Qed.

Section Validation.
Context `{GoUnicode}.
Variable range : MapRange.
Hypothesis range_valid : ValidRange range.

Lemma elem_of_checkLen name what limit text errs m :
  m ∈ checkLen name what limit text errs ↔
  m ∈ errs ∨ ((limit < runeLen text)%Z ∧ m = tooLong name what limit text).
Proof.
  unfold checkLen. destruct (Z.ltb_spec limit (runeLen text)).
  - rewrite elem_of_app, list_elem_of_singleton. intuition.
  - intuition lia.
Qed.

Lemma elem_of_validateRow name errs row m :
  m ∈ validateRow name errs row ↔ m ∈ errs ∨ RowOffends name row m.
Proof.
  unfold validateRow. rewrite !elem_of_checkLen.
  destruct (String.eqb_spec (FlowRow.ID row) "") as [Hid|Hid].
  - rewrite elem_of_app, list_elem_of_singleton. split.
    + intros [[[Hm| ->]|[Hlen ->]]|[Hlen ->]]; auto using RowOffends.
    + intros [Hm|Hoff]; [auto|]. destruct Hoff; auto.
  - split.
    + intros [[Hm|[Hlen ->]]|[Hlen ->]]; auto using RowOffends.
    + intros [Hm|Hoff]; [auto|]. destruct Hoff; auto. contradiction.
Qed.

(** The offending fields of a section. *)
Lemma elem_of_validateSection name errs sec m :
  m ∈ validateSection name errs sec ↔
  m ∈ errs ∨
  ((24 < runeLen (FlowSection.Title sec))%Z ∧
   m = tooLong name "section title" 24 (FlowSection.Title sec)) ∨
  ∃ row, row ∈ FlowSection.Rows sec ∧ RowOffends name row m.
Proof.
  unfold validateSection.
  rewrite (elem_of_foldl_append (validateRow name) (RowOffends name)
             (elem_of_validateRow name)).
  rewrite elem_of_checkLen. tauto.
Qed.

Lemma elem_of_validateState errs name st m :
  m ∈ validateState errs (name, st) ↔
  m ∈ errs ∨
  ∃ l, FlowState.Type_ st = "interactive_list" ∧ FlowState.List st = Some l ∧
    (((60 < runeLen (FlowList.Header l))%Z ∧
      m = tooLong name "header" 60 (FlowList.Header l)) ∨
     ((60 < runeLen (FlowList.Footer l))%Z ∧
      m = tooLong name "footer" 60 (FlowList.Footer l)) ∨
     ((20 < runeLen (FlowList.ButtonText l))%Z ∧
      m = tooLong name "button_text" 20 (FlowList.ButtonText l)) ∨
     ∃ sec, sec ∈ FlowList.Sections l ∧
       (((24 < runeLen (FlowSection.Title sec))%Z ∧
         m = tooLong name "section title" 24 (FlowSection.Title sec)) ∨
        ∃ row, row ∈ FlowSection.Rows sec ∧ RowOffends name row m)).
Proof.
  unfold validateState.
  destruct (FlowState.List st) as [l|].
  2: { split; [auto|]. intros [Hm|(l & _ & Hl & _)]; [exact Hm|discriminate]. }
  destruct (String.eqb_spec (FlowState.Type_ st) "interactive_list") as [Ht|Ht];
    cbn [negb].
  2: { split; [auto|]. intros [Hm|(l' & Ht' & _)]; [exact Hm|contradiction]. }
  rewrite (elem_of_foldl_append (validateSection name)
             (λ sec m,
                ((24 < runeLen (FlowSection.Title sec))%Z ∧
                 m = tooLong name "section title" 24 (FlowSection.Title sec)) ∨
                ∃ row, row ∈ FlowSection.Rows sec ∧ RowOffends name row m)
             (elem_of_validateSection name)).
  rewrite !elem_of_checkLen. split.
  - intros [[[[Hm|Hh]|Hf]|Hb]|Hsec]; [auto|right; exists l..]; tauto.
  - intros [Hm|(l' & _ & [= <-] & Hoff)]; tauto.
Qed.

(** The entries of the error are the offending fields, all of them and
    nothing else, whatever the order in which the states are visited. *)
Lemma flowErrors_Offends cfg m :
  m ∈ flowErrors range cfg ↔ Offends cfg m.
Proof.
  unfold flowErrors.
  rewrite (elem_of_foldl_append validateState
             (λ kv m, ∀ errs, m ∈ validateState errs kv)).
  2: { intros errs [name st] m'. rewrite elem_of_validateState. split.
       - intros [Hm|Hoff]; [auto|]. right. intros errs'.
         apply elem_of_validateState. auto.
       - intros [Hm|Hall]; [auto|].
         specialize (Hall []). apply elem_of_validateState in Hall.
         destruct Hall as [Hnil|Hoff]; [|auto].
         apply elem_of_nil in Hnil. contradiction. }
  split.
  - intros [Hnil|([name st] & Hin & Hall)];
      [apply elem_of_nil in Hnil; contradiction|].
    rewrite (range_valid _ (FlowConfig.States cfg)) in Hin.
    apply elem_of_map_to_list in Hin.
    specialize (Hall []). apply elem_of_validateState in Hall.
    destruct Hall as [Hnil|(l & Ht & Hl & Hoff)];
      [apply elem_of_nil in Hnil; contradiction|].
    assert (Hls : listState cfg name st l) by (repeat split; assumption).
    destruct Hoff as [[Hlen ->]|[[Hlen ->]|[[Hlen ->]|(sec & Hsec & Hoff)]]];
      [eauto using Offends..|].
    destruct Hoff as [[Hlen ->]|(row & Hrow & Hoff)]; eauto using Offends.
  - intros Hoff. right.
    assert (Hstate : ∀ name st l, listState cfg name st l →
              (name, st) ∈ range _ (FlowConfig.States cfg)).
    { intros name st l (Hst & _ & _).
      rewrite (range_valid _ (FlowConfig.States cfg)).
      apply elem_of_map_to_list. exact Hst. }
    destruct Hoff as [name st l Hls Hlen|name st l Hls Hlen|name st l Hls Hlen
                     |name st l sec Hls Hsec Hlen|name st l sec row m Hls Hsec Hrow Hoff];
      exists (name, st); (split; [eapply Hstate; eassumption|]);
      intros errs; apply elem_of_validateState; right; exists l;
      destruct Hls as (_ & Ht & Hl); (split; [exact Ht|]); (split; [exact Hl|]).
    + tauto.
    + tauto.
    + tauto.
    + right; right; right. exists sec. tauto.
    + right; right; right. exists sec. split; [exact Hsec|]. right. eauto.
Qed.

Lemma Offends_state cfg m :
  Offends cfg m → ∃ name st, FlowConfig.States cfg !! name = Some st.
Proof. intros Hoff. destruct Hoff as [? ? ? (Hst & _)|? ? ? (Hst & _)
    |? ? ? (Hst & _)|? ? ? ? (Hst & _)|? ? ? ? ? ? (Hst & _)]; eauto. Qed.

(** With an offending field the validation answers an error made of the
    entries of [flowErrors]. *)
Lemma validateFlowConfig_offending tenant cfg m :
  Offends cfg m →
  validateFlowConfig range tenant cfg =
    Some ("flow inválido tenant=" +:+ tenant +:+ ":" +:+ nl +:+ "- " +:+
          Join (flowErrors range cfg) (nl +:+ "- ")).
Proof.
  intros Hoff. apply flowErrors_Offends in Hoff. unfold validateFlowConfig.
  destruct (flowErrors range cfg) as [|e errs];
    [apply elem_of_nil in Hoff; contradiction|reflexivity].
Qed.

Variable os : OS.
Variable UnmarshalFlow : string → result FlowConfig.t.

(** C6: when the flow definition read for a tenant has an offending field
    (a header or footer of more than 60 characters, a button text of more
    than 20, a section or row title of more than 24, a row description of
    more than 72, counted in runes, or an empty row id), loading fails;
    the error is the list of the messages of ALL the offending fields and
    of nothing else, so each of them stands in it; and neither
    [processMessage] nor [RenderAndSend] puts an entry into the cache. *)
Theorem loadFlowConfig_rejects_offending tenant b cfg :
  ReadFile os (filepathJoin os [configRoot; tenant; "flow.json"]) = Ok b →
  UnmarshalFlow b = Ok cfg →
  (∃ m, Offends cfg m) →
  ∃ err errs,
    loadFlowConfig range os UnmarshalFlow tenant = Err err ∧
    err = "flow inválido tenant=" +:+ tenant +:+ ":" +:+ nl +:+ "- " +:+
          Join errs (nl +:+ "- ") ∧
    (∀ m, m ∈ errs ↔ Offends cfg m) ∧
    (∀ m, Offends cfg m → Contains err m = true) ∧
    (∀ cache state msg,
       ConfigCache.Get cache tenant = None →
       processMessage range os UnmarshalFlow cache tenant state msg =
         (cache, ("", false, Some err))) ∧
    (∀ cache stateName wa to vars,
       ConfigCache.Get cache tenant = None →
       RenderAndSend range os UnmarshalFlow cache tenant stateName wa to vars =
         (cache, (Some err, []))).
Proof.
  intros Hread Hjson [m0 Hoff].
  assert (Hload : loadFlowConfig range os UnmarshalFlow tenant =
            Err ("flow inválido tenant=" +:+ tenant +:+ ":" +:+ nl +:+ "- " +:+
                 Join (flowErrors range cfg) (nl +:+ "- "))).
  { unfold loadFlowConfig. rewrite Hread, Hjson.
    destruct (Offends_state _ _ Hoff) as (name & st & Hst).
    destruct (Nat.eqb_spec (size (FlowConfig.States cfg)) 0) as [Hsize|_].
    - apply map_size_empty_iff in Hsize. rewrite Hsize, lookup_empty in Hst.
      discriminate.
    - now rewrite (validateFlowConfig_offending tenant cfg m0 Hoff). }
  eexists. exists (flowErrors range cfg).
  split; [exact Hload|]. split; [reflexivity|].
  split; [intros m; apply flowErrors_Offends|].
  split; [|split].
  - intros m Hm. apply flowErrors_Offends in Hm.
    rewrite <- !app_assoc_s. apply Contains_app_r, Contains_Join, Hm.
  - intros cache state msg Hmiss. unfold processMessage.
    now rewrite Hmiss, Hload.
  - intros cache stateName wa to vars Hmiss. unfold RenderAndSend.
    now rewrite Hmiss, Hload.
Qed.

End Validation.

Lemma Err_inj {A : Type} (a b : string) : @Err A a = Err b → a = b.
Proof.
  intros Hab.
  exact (f_equal (λ r, match r with Ok _ => a | Err e => e end) Hab).
Qed.

Lemma Demo_range_valid : ValidRange Demo.range.
Proof. intros V m. reflexivity. Qed.

(** The load of the flow definition of [DemoBad]: four offending fields,
    four entries; the footer of five runes in seven bytes is none. *)
Lemma loadFlowConfig_rejects_offending_witness :
  demoBadLoad "broker" = Err DemoBad.error ∧
  Forall (λ m, Contains DemoBad.error m = true) DemoBad.entries ∧
  demoBadProcess NewConfigCache "broker" "MENU" (Demo.textMsg "hola") =
    (NewConfigCache, ("", false, Some DemoBad.error)) ∧
  demoBadRender NewConfigCache "broker" "MENU" DemoBad.wa "5491100000000"
    {[ "name" := "Ana" ]} =
    (NewConfigCache, (Some DemoBad.error, [])) ∧
  (runeLen "ñandú" = 5%Z ∧ String.length "ñandú" = 7).
Proof.
  assert (Hload : demoBadLoad "broker" = Err DemoBad.error)
    by (vm_compute; reflexivity).
  assert (Hoff : @Offends Ascii7.unicode DemoBad.flow
                   (@tooLong Ascii7.unicode "MENU" "header" 60 DemoBad.longHeader)).
  { apply (@offends_header Ascii7.unicode DemoBad.flow "MENU"
             (FlowState.mk "interactive_list" "Hola" (Some DemoBad.menuList) "" None)
             DemoBad.menuList).
    - repeat split; vm_compute; reflexivity.
    - vm_compute; reflexivity. }
  destruct (@loadFlowConfig_rejects_offending Ascii7.unicode Demo.range
              Demo_range_valid DemoBad.os DemoBad.unmarshal "broker"
              "configs/broker/flow.json" DemoBad.flow eq_refl eq_refl
              (ex_intro _ _ Hoff))
    as (err & errs & Hload' & _ & Hentries & Hnames & Hprocess & Hrender).
  rewrite Hload in Hload'. apply Err_inj in Hload'. subst err.
  split; [exact Hload|]. split; [|split; [|split]].
  - assert (Herrs : @flowErrors Ascii7.unicode Demo.range DemoBad.flow
                    = DemoBad.entries) by (vm_compute; reflexivity).
    apply Forall_forall. intros m Hm. apply Hnames.
    apply (proj1 (@flowErrors_Offends Ascii7.unicode Demo.range
                    Demo_range_valid DemoBad.flow m)).
    rewrite Herrs. exact Hm.
  - apply Hprocess. vm_compute; reflexivity.
  - apply Hrender. vm_compute; reflexivity.
  - split; vm_compute; reflexivity.
Defined.

(** ** Template substitution *)

(** *** The scan of [ReplaceAll] *)

Lemma replaceScan_skip old new u t :
  replaceScan old new (String.length u) (u +:+ t) = replaceScan old new 0 t.
Proof.
  induction u as [|c u IH]; [reflexivity|].
  rewrite app_cons. cbn [String.length replaceScan]. exact IH.
Qed.

(** At an occurrence the scan writes [new] and goes on behind it. *)
Lemma replaceScan_here c o new t :
  replaceScan (String c o) new 0 (String c o +:+ t) =
  new +:+ replaceScan (String c o) new 0 t.
Proof.
  rewrite app_cons. cbn [replaceScan]. rewrite <- app_cons, HasPrefix_app.
  replace (String.length (String c o) - 1) with (String.length o)
    by (cbn [String.length]; lia).
  now rewrite replaceScan_skip.
Qed.

(** Where no occurrence starts the scan copies the byte. *)
Lemma replaceScan_copy old new c r :
  HasPrefix (String c r) old = false →
  replaceScan old new 0 (String c r) = String c (replaceScan old new 0 r).
Proof. intros Hno. cbn [replaceScan]. now rewrite Hno. Qed.

(** Without an occurrence nothing changes. *)
Lemma replaceScan_absent old new s :
  Contains s old = false → replaceScan old new 0 s = s.
Proof.
  induction s as [|c r IH]; intros Hno; [reflexivity|].
  cbn [Contains] in Hno. apply orb_false_iff in Hno as [Hhere Hrest].
  rewrite (replaceScan_copy _ _ _ _ Hhere), (IH Hrest). reflexivity.
Qed.

Lemma ReplaceAll_absent s old new :
  old ≠ "" → Contains s old = false → ReplaceAll s old new = s.
Proof.
  intros Hold Hno. unfold ReplaceAll.
  destruct (String.eqb old new); [reflexivity|].
  destruct old; [contradiction|]. now apply replaceScan_absent.
Qed.

(** A pattern that starts with an opening brace does not occur in, nor
    across the end of, a text that has none. *)
Lemma HasPrefix_other c d r o :
  c ≠ d → HasPrefix (String c r) (String d o) = false.
Proof.
  intros Hcd. unfold HasPrefix. simpl.
  destruct (ascii_dec d c); [congruence|reflexivity].
Qed.

Lemma eqb_open_false c : Ascii.eqb c "{" = false → c ≠ "{"%char.
Proof. intros Hc ->. discriminate. Qed.

Lemma replaceScan_noOpen o new u w :
  noOpen u = true →
  replaceScan (String "{" o) new 0 (u +:+ w) =
  u +:+ replaceScan (String "{" o) new 0 w.
Proof.
  induction u as [|c u IH]; intros Hu; [reflexivity|].
  cbn [noOpen] in Hu. apply andb_true_iff in Hu as [Hc Hu].
  apply negb_true_iff, eqb_open_false in Hc.
  rewrite !app_cons, replaceScan_copy, (IH Hu);
    [reflexivity|now apply HasPrefix_other].
Qed.

Lemma braceFree_noOpen s : braceFree s = true → noOpen s = true.
Proof.
  induction s as [|c s IH]; [reflexivity|]. cbn [braceFree noOpen].
  rewrite !andb_true_iff. intros [[Hopen _] Hs]. auto.
Qed.

Lemma noOpen_app a b : noOpen a = true → noOpen b = true → noOpen (a +:+ b) = true.
Proof.
  intros Ha Hb. induction a as [|c a IH]; [exact Hb|].
  rewrite app_cons. cbn [noOpen] in *.
  apply andb_true_iff in Ha as [Hc Ha]. rewrite Hc. now apply IH.
Qed.

Lemma prefix_cons_true a p c s :
  String.prefix (String a p) (String c s) = true →
  a = c ∧ String.prefix p s = true.
Proof.
  cbn [String.prefix]. destruct (ascii_dec a c); [auto|discriminate].
Qed.

Lemma braceFree_cons c s :
  braceFree (String c s) = true →
  c ≠ "{"%char ∧ c ≠ "}"%char ∧ braceFree s = true.
Proof.
  cbn [braceFree]. rewrite !andb_true_iff, !negb_true_iff.
  intros [[Hopen Hclose] Hs]. repeat split; [| |exact Hs]; intros ->; discriminate.
Qed.

(** Two brace-free names followed by the closing braces: one is a prefix
    of the other only when they are the same name. *)
Lemma prefix_close_inj k x w :
  braceFree k = true → braceFree x = true →
  String.prefix (k +:+ "}}") (x +:+ "}}" +:+ w) = true → k = x.
Proof.
  revert x. induction k as [|a k IH]; intros x Hk Hx Hpre.
  - destruct x as [|c x]; [reflexivity|].
    apply braceFree_cons in Hx as (_ & Hc & _).
    change ("" +:+ "}}") with (String "}" "}") in Hpre.
    rewrite app_cons in Hpre. apply prefix_cons_true in Hpre as [Heq _].
    congruence.
  - apply braceFree_cons in Hk as (_ & Ha & Hk).
    rewrite app_cons in Hpre. destruct x as [|c x].
    + change ("" +:+ "}}" +:+ w) with (String "}" (String "}" w)) in Hpre.
      apply prefix_cons_true in Hpre as [Heq _]. congruence.
    + apply braceFree_cons in Hx as (_ & _ & Hx).
      rewrite app_cons in Hpre. apply prefix_cons_true in Hpre as [-> Hpre].
      f_equal. exact (IH x Hk Hx Hpre).
Qed.

Lemma placeholder_unfold k : placeholder k = String "{" (String "{" (k +:+ "}}")).
Proof. reflexivity. Qed.

Lemma placeholder_app k w :
  placeholder k +:+ w = String "{" (String "{" (k +:+ "}}" +:+ w)).
Proof. rewrite placeholder_unfold, !app_cons, app_assoc_s. reflexivity. Qed.

(** The scan at a placeholder: replaced when it is the one looked for,
    copied otherwise, whatever follows. *)
Lemma replaceScan_hole k x new w :
  braceFree k = true → braceFree x = true →
  replaceScan (placeholder k) new 0 (placeholder x +:+ w) =
  (if String.eqb x k then new else placeholder x) +:+
  replaceScan (placeholder k) new 0 w.
Proof.
  intros Hk Hx. destruct (String.eqb_spec x k) as [->|Hne].
  - rewrite (placeholder_unfold k) at 2. rewrite (placeholder_unfold k) at 1.
    rewrite placeholder_unfold. apply replaceScan_here.
  - rewrite (placeholder_app x), !(placeholder_unfold k).
    rewrite replaceScan_copy.
    2: { unfold HasPrefix. rewrite prefix_cons.
         destruct (String.prefix _ _) eqn:Hpre; [|reflexivity].
         rewrite prefix_cons in Hpre.
         apply prefix_close_inj in Hpre; congruence. }
    rewrite replaceScan_copy.
    2: { unfold HasPrefix. rewrite prefix_cons. destruct x as [|c x].
         - change ("" +:+ "}}" +:+ w) with (String "}" (String "}" w)).
           apply (HasPrefix_other "}" "{" (String "}" w) (k +:+ "}}")).
           discriminate.
         - apply braceFree_cons in Hx as (Hc & _ & _).
           rewrite app_cons.
           now apply (HasPrefix_other c "{" (x +:+ "}}" +:+ w) (k +:+ "}}")). }
    rewrite <- app_assoc_s, replaceScan_noOpen.
    2: { apply noOpen_app; [now apply braceFree_noOpen|reflexivity]. }
    reflexivity.
Qed.

Lemma braceFree_not_placeholder k v :
  braceFree v = true → String.eqb (placeholder k) v = false.
Proof.
  intros Hv. destruct (String.eqb_spec (placeholder k) v) as [<-|]; [|reflexivity].
  rewrite placeholder_unfold in Hv. discriminate.
Qed.

Lemma ReplaceAll_placeholder s k v :
  braceFree v = true →
  ReplaceAll s (placeholder k) v = replaceScan (placeholder k) v 0 s.
Proof.
  intros Hv. unfold ReplaceAll. rewrite (braceFree_not_placeholder k v Hv).
  reflexivity.
Qed.

(** *** One round on a template of tokens *)

Lemma ReplaceAll_tokens tks k v :
  Forall (λ tk, tokenOK tk = true) tks →
  braceFree k = true → braceFree v = true →
  ReplaceAll (flatten tks) (placeholder k) v = flatten (map (subst1 k v) tks).
Proof.
  intros Htks Hk Hv. rewrite (ReplaceAll_placeholder _ k v Hv).
  induction Htks as [|tk tks Htk _ IH]; [reflexivity|].
  cbn [flatten foldr map]. fold (flatten tks).
  fold (flatten (map (subst1 k v) tks)).
  destruct tk as [text|x]; cbn [tokenString subst1 tokenOK] in *.
  - rewrite placeholder_unfold, replaceScan_noOpen, <- placeholder_unfold, IH;
      [reflexivity|now apply braceFree_noOpen].
  - rewrite (replaceScan_hole k x v _ Hk Htk), IH.
    destruct (String.eqb x k); reflexivity.
Qed.

Lemma subst1_tokenOK k v tk :
  braceFree v = true → tokenOK tk = true → tokenOK (subst1 k v tk) = true.
Proof.
  intros Hv Htk. destruct tk as [text|x]; [exact Htk|].
  cbn [subst1]. destruct (String.eqb x k); [exact Hv|exact Htk].
Qed.

(** *** All rounds *)

(** The loop of [renderVars] over the entries in the order [kvs]. *)
Lemma foldl_ReplaceAll_tokens (kvs : list (string * string)) tks :
  Forall (λ tk, tokenOK tk = true) tks →
  Forall (λ kv, braceFree kv.1 = true ∧ braceFree kv.2 = true) kvs →
  foldl (λ s kv, ReplaceAll s ("{{" +:+ kv.1 +:+ "}}") kv.2) (flatten tks) kvs =
  flatten (map (λ tk, foldl (λ tk kv, subst1 kv.1 kv.2 tk) tk kvs) tks).
Proof.
  intros Htks Hkvs. revert tks Htks.
  induction Hkvs as [|[k v] kvs [Hk Hv] _ IH]; intros tks Htks; cbn [foldl].
  - now rewrite map_id.
  - cbn [fst snd] in *. fold (placeholder k).
    rewrite (ReplaceAll_tokens tks k v Htks Hk Hv), IH.
    + now rewrite map_map.
    + apply Forall_map. eapply Forall_impl; [exact Htks|].
      intros tk. apply subst1_tokenOK, Hv.
Qed.

Lemma foldl_subst1_Lit kvs text :
  foldl (λ tk kv, subst1 kv.1 kv.2 tk) (Lit text) kvs = Lit text.
Proof. induction kvs as [|kv kvs IH]; [reflexivity|exact IH]. Qed.

(** With each key once, the rounds amount to a lookup. *)
Lemma foldl_subst1_Hole (kvs : list (string * string)) (vars : gmap string string) x :
  NoDup kvs.*1 →
  (∀ k v, (k, v) ∈ kvs ↔ vars !! k = Some v) →
  foldl (λ tk kv, subst1 kv.1 kv.2 tk) (Hole x) kvs = substToken vars (Hole x).
Proof.
  intros Hnodup Hvars. cbn [substToken].
  destruct (vars !! x) as [v|] eqn:Hx.
  - apply Hvars in Hx. clear Hvars.
    induction kvs as [|[k w] kvs IH]; [apply elem_of_nil in Hx; contradiction|].
    cbn [foldl subst1 fst snd]. apply NoDup_cons in Hnodup as [Hfresh Hnodup].
    destruct (String.eqb_spec x k) as [->|Hne].
    + rewrite foldl_subst1_Lit.
      apply elem_of_cons in Hx as [[= ->]|Hx]; [reflexivity|].
      exfalso. apply Hfresh. apply list_elem_of_fmap. exists (k, v). auto.
    + apply elem_of_cons in Hx as [[= -> _]|Hx]; [contradiction|].
      apply IH; assumption.
  - assert (Hnot : ∀ v, (x, v) ∉ kvs).
    { intros v Hin. apply Hvars in Hin. congruence. }
    clear Hvars Hnodup.
    induction kvs as [|[k w] kvs IH]; [reflexivity|].
    cbn [foldl subst1 fst snd].
    destruct (String.eqb_spec x k) as [->|Hne].
    + exfalso. apply (Hnot w). apply elem_of_cons. auto.
    + apply IH. intros v Hin. apply (Hnot v). apply elem_of_cons. auto.
Qed.

Section RenderVars.

(** The entries of a valid range. *)
Lemma range_entries (range : MapRange) (vars : gmap string string) :
  ValidRange range →
  NoDup (range _ vars).*1 ∧
  ∀ k v, (k, v) ∈ range _ vars ↔ vars !! k = Some v.
Proof.
  intros Hvalid. split.
  - rewrite (Hvalid _ vars). apply NoDup_fst_map_to_list.
  - intros k v. rewrite (Hvalid _ vars). apply elem_of_map_to_list.
Qed.

(** The two early returns of [renderVars] return what the loop would. *)
Lemma renderVars_loop (range : MapRange) s vars :
  ValidRange range →
  renderVars range s vars =
  foldl (λ s kv, ReplaceAll s ("{{" +:+ kv.1 +:+ "}}") kv.2) s (range _ vars).
Proof.
  intros Hvalid. unfold renderVars.
  destruct (String.eqb_spec s "") as [->|_]; cbn [orb].
  - induction (range _ vars) as [|[k v] kvs IH]; [reflexivity|].
    cbn [foldl fst snd].
    assert (Hempty : ReplaceAll "" ("{{" +:+ k +:+ "}}") v = "").
    { unfold ReplaceAll. destruct (String.eqb _ v); reflexivity. }
    rewrite Hempty. exact IH.
  - destruct (Nat.eqb_spec (size vars) 0) as [Hsize|_]; [|reflexivity].
    apply map_size_empty_iff in Hsize. subst vars.
    assert (Hnil : range _ (∅ : gmap string string) = []).
    { apply Permutation_nil_r. rewrite (Hvalid _ ∅), map_to_list_empty.
      reflexivity. }
    now rewrite Hnil.
Qed.

(** On a template of tokens, with keys and values without braces, the
    substitution is the substitution in one pass. *)
Lemma renderVars_singlePass (range : MapRange) tks vars :
  ValidRange range →
  Forall (λ tk, tokenOK tk = true) tks →
  plainVars vars →
  renderVars range (flatten tks) vars = singlePass vars tks.
Proof.
  intros Hvalid Htks Hplain.
  destruct (range_entries range vars Hvalid) as [Hnodup Hentries].
  rewrite (renderVars_loop range _ _ Hvalid), foldl_ReplaceAll_tokens;
    [|exact Htks|].
  - unfold singlePass. f_equal. apply map_ext. intros [text|x].
    + apply foldl_subst1_Lit.
    + now apply foldl_subst1_Hole.
  - apply Forall_forall. intros [k v] Hin. apply Hentries in Hin.
    exact (Hplain k v Hin).
Qed.

(** Without a placeholder of a key, the template comes back. *)
Lemma renderVars_absent (range : MapRange) s vars :
  ValidRange range →
  (∀ k v, vars !! k = Some v → Contains s (placeholder k) = false) →
  renderVars range s vars = s.
Proof.
  intros Hvalid Habsent.
  destruct (range_entries range vars Hvalid) as [_ Hentries].
  rewrite (renderVars_loop range _ _ Hvalid).
  assert (Hall : ∀ kv, kv ∈ range _ vars → Contains s (placeholder kv.1) = false).
  { intros [k v] Hin. apply Hentries in Hin. exact (Habsent k v Hin). }
  clear Hentries. induction (range _ vars) as [|[k v] kvs IH]; [reflexivity|].
  cbn [foldl fst snd]. fold (placeholder k).
  rewrite ReplaceAll_absent.
  - apply IH. intros kv Hin. apply Hall, elem_of_cons. auto.
  - rewrite placeholder_unfold. discriminate.
  - apply (Hall (k, v)), elem_of_cons. auto.
Qed.

(** C8, as amended.  On a template that is a sequence of literal text
    and placeholders [{{name}}], where neither text nor names hold a
    brace, and with keys and values that hold no brace, the substitution
    replaces every placeholder whose name is a key by the value of the key
    and leaves every other placeholder, and the text, as they are.  On
    any template in which no placeholder of a key occurs, with any keys
    and values, it is the identity, hence idempotent.  So
    [render("Hola {{name}}", {name: "Ana"}) = "Hola Ana"] and
    [render("{{x}}", {}) = "{{x}}"]. *)
Theorem renderVars_substitution (range : MapRange) :
  ValidRange range →
  (∀ tks vars,
     Forall (λ tk, tokenOK tk = true) tks → plainVars vars →
     renderVars range (flatten tks) vars = singlePass vars tks) ∧
  (∀ s vars,
     (∀ k v, vars !! k = Some v → Contains s (placeholder k) = false) →
     renderVars range s vars = s ∧
     renderVars range (renderVars range s vars) vars = renderVars range s vars) ∧
  renderVars range "Hola {{name}}" {[ "name" := "Ana" ]} = "Hola Ana" ∧
  renderVars range "{{x}}" ∅ = "{{x}}".
Proof.
  intros Hvalid. split; [|split; [|split]].
  - intros tks vars. now apply renderVars_singlePass.
  - intros s vars Habsent.
    rewrite !(renderVars_absent range s vars Hvalid Habsent). split; reflexivity.
  - change "Hola {{name}}" with (flatten [Lit "Hola "; Hole "name"]).
    rewrite renderVars_singlePass; [reflexivity|exact Hvalid| |].
    + repeat constructor.
    + intros k v Hkv. apply lookup_singleton_Some in Hkv as [<- <-].
      split; reflexivity.
  - apply renderVars_absent; [exact Hvalid|].
    intros k v Hkv. rewrite lookup_empty in Hkv. discriminate.
Qed.

(** C10, as amended: on a template of brace-free text and placeholders
    with brace-free names, with keys and values that hold no brace, the
    result does not depend on the order in which [range] visits the
    keys. *)
Theorem renderVars_order_independent (range1 range2 : MapRange) tks vars :
  ValidRange range1 → ValidRange range2 →
  Forall (λ tk, tokenOK tk = true) tks →
  plainVars vars →
  renderVars range1 (flatten tks) vars = renderVars range2 (flatten tks) vars.
Proof.
  intros Hvalid1 Hvalid2 Htks Hplain.
  rewrite (renderVars_singlePass range1 tks vars Hvalid1 Htks Hplain).
  rewrite (renderVars_singlePass range2 tks vars Hvalid2 Htks Hplain).
  reflexivity.
Qed.

End RenderVars.

Lemma Demo_reversed_valid : ValidRange Demo.reversed.
Proof. intros V m. apply reverse_Permutation. Qed.

Lemma plainVars_greeting : plainVars {[ "name" := "Ana"; "day" := "lunes" ]}.
Proof.
  intros k v Hkv. apply lookup_insert_Some in Hkv as [[<- <-]|[_ Hkv]].
  - split; reflexivity.
  - apply lookup_singleton_Some in Hkv as [<- <-]. split; reflexivity.
Qed.

Lemma renderVars_substitution_witness :
  renderVars Demo.range "Hola {{name}}, {{x}} el {{day}}"
    {[ "name" := "Ana"; "day" := "lunes" ]} = "Hola Ana, {{x}} el lunes" ∧
  renderVars Demo.range "Hola {{name}}" {[ "name" := "Ana" ]} = "Hola Ana" ∧
  renderVars Demo.range "{{x}}" ∅ = "{{x}}".
Proof.
  destruct (renderVars_substitution Demo.range Demo_range_valid)
    as (Hpass & _ & Hana & Hx).
  split; [|split; [exact Hana|exact Hx]].
  exact (Hpass [Lit "Hola "; Hole "name"; Lit ", "; Hole "x"; Lit " el ";
                Hole "day"]
           {[ "name" := "Ana"; "day" := "lunes" ]}
           ltac:(repeat constructor) plainVars_greeting).
Defined.

(** C8 as stated fails, for keys, values and templates with braces out of
    place.  (1) The key [{x]: the template holds the placeholder of [x],
    which is no key, and it is not left as it is.  (2) A value that is a
    placeholder: in the order a, b the placeholder of [a] does not end as
    the value of [a].  (3) A placeholder inside another: what is left
    after replacing the inner one is replaced only in the order b, ac. *)
Lemma renderVars_out_of_place :
  (({[ "{x" := "v" ]} : gmap string string) !! "x" = None ∧
   Contains "{{{x}}" (placeholder "x") = true ∧
   renderVars Demo.range "{{{x}}" {[ "{x" := "v" ]} = "v") ∧
  (({[ "a" := "{{b}}"; "b" := "x" ]} : gmap string string) !! "a" = Some "{{b}}" ∧
   renderVars Demo.range "{{a}}" {[ "a" := "{{b}}"; "b" := "x" ]} = "x") ∧
  (renderVars Demo.range "{{a{{b}}c}}" {[ "b" := ""; "ac" := "Z" ]} = "{{ac}}" ∧
   Contains "{{ac}}" (placeholder "ac") = true).
Proof. repeat split; vm_compute; reflexivity. Qed.

Lemma renderVars_order_independent_witness :
  renderVars Demo.range "{{name}}: {{day}}"
    {[ "name" := "Ana"; "day" := "lunes" ]} =
  renderVars Demo.reversed "{{name}}: {{day}}"
    {[ "name" := "Ana"; "day" := "lunes" ]}.
Proof.
  exact (renderVars_order_independent Demo.range Demo.reversed
           [Hole "name"; Lit ": "; Hole "day"]
           {[ "name" := "Ana"; "day" := "lunes" ]}
           Demo_range_valid Demo_reversed_valid
           ltac:(repeat constructor) plainVars_greeting).
Defined.

(** C10 as stated fails.  No value below holds the placeholder of a key,
    and the two orders of the keys give two results: (1) with the value
    [{{] of [a], which closes into the placeholder of [b]; (2) with keys
    and values free of braces, on a template with a placeholder inside
    another; (3) with a key that holds braces. *)
Lemma renderVars_order_dependent :
  ((Contains "{{" (placeholder "a") = false ∧
    Contains "{{" (placeholder "b") = false ∧
    Contains "x" (placeholder "a") = false ∧
    Contains "x" (placeholder "b") = false) ∧
   renderVars Demo.range "{{a}}b}}" {[ "a" := "{{"; "b" := "x" ]} = "x" ∧
   renderVars Demo.reversed "{{a}}b}}" {[ "a" := "{{"; "b" := "x" ]} = "{{b}}") ∧
  (renderVars Demo.range "{{a{{b}}c}}" {[ "b" := ""; "ac" := "Z" ]} = "{{ac}}" ∧
   renderVars Demo.reversed "{{a{{b}}c}}" {[ "b" := ""; "ac" := "Z" ]} = "Z") ∧
  (renderVars Demo.range "{{x}}{{y}}" {[ "x" := "1"; "x}}{{y" := "2" ]} =
     "2" ∧
   renderVars Demo.reversed "{{x}}{{y}}" {[ "x" := "1"; "x}}{{y" := "2" ]} =
     "1{{y}}") ∧
  ValidRange Demo.range ∧ ValidRange Demo.reversed.
Proof.
  split; [repeat split; vm_compute; reflexivity|].
  split; [split; vm_compute; reflexivity|].
  split; [split; vm_compute; reflexivity|].
  split; [exact Demo_range_valid|exact Demo_reversed_valid].
Qed.

(* ===================================================================== *)
(** * Part III.  Further properties of the programs                      *)
(* ===================================================================== *)

(** ** Loading and caching flow definitions *)

Section Loading.
Context `{GoUnicode}.
Variable range : MapRange.
Hypothesis range_valid : ValidRange range.

Lemma validateFlowConfig_None tenant cfg :
  validateFlowConfig range tenant cfg = None ↔ ∀ m, ¬ Offends cfg m.
Proof.
  unfold validateFlowConfig. split.
  - intros Hnone m Hoff. apply (flowErrors_Offends range range_valid) in Hoff.
    destruct (flowErrors range cfg) as [|e errs];
      [apply elem_of_nil in Hoff; contradiction|discriminate].
  - intros Hno. destruct (flowErrors range cfg) as [|e errs] eqn:Herrs;
      [reflexivity|].
    exfalso. apply (Hno e). apply (flowErrors_Offends range range_valid).
    rewrite Herrs. apply elem_of_cons. auto.
Qed.

Variable os : OS.
Variable UnmarshalFlow : string → result FlowConfig.t.

(** X1: the load succeeds exactly when the file is read, decodes, has a state
    and has no offending field; it then returns what was decoded. *)
Theorem loadFlowConfig_Ok_iff tenant cfg :
  loadFlowConfig range os UnmarshalFlow tenant = Ok cfg ↔
  ∃ b, ReadFile os (filepathJoin os [configRoot; tenant; "flow.json"]) = Ok b ∧
       UnmarshalFlow b = Ok cfg ∧ flowValid cfg.
Proof.
  unfold loadFlowConfig, flowValid.
  set (path := filepathJoin os [configRoot; tenant; "flow.json"]). split.
  - destruct (ReadFile os path) as [b|]; [|discriminate].
    destruct (UnmarshalFlow b) as [cfg'|] eqn:Hjson; [|discriminate].
    destruct (Nat.eqb_spec (size (FlowConfig.States cfg')) 0) as [|Hsize];
      [discriminate|].
    destruct (validateFlowConfig range tenant cfg') eqn:Hval; [discriminate|].
    intros Hok. apply Ok_inj in Hok. subst cfg'.
    exists b. repeat split;
      [exact Hjson| |exact (proj1 (validateFlowConfig_None tenant cfg) Hval)].
    intros Hempty. apply Hsize. rewrite Hempty. apply map_size_empty.
  - intros (b & -> & -> & Hstates & Hno).
    destruct (Nat.eqb_spec (size (FlowConfig.States cfg)) 0) as [Hsize|_].
    { apply map_size_empty_iff in Hsize. contradiction. }
    now rewrite (proj2 (validateFlowConfig_None tenant cfg) Hno).
Qed.

Lemma loadFlowConfig_flowValid tenant cfg :
  loadFlowConfig range os UnmarshalFlow tenant = Ok cfg → flowValid cfg.
Proof.
  unfold loadFlowConfig, flowValid.
  destruct (ReadFile os _) as [b|]; [|discriminate].
  destruct (UnmarshalFlow b) as [cfg'|]; [|discriminate].
  destruct (Nat.eqb_spec (size (FlowConfig.States cfg')) 0) as [|Hsize];
    [discriminate|].
  destruct (validateFlowConfig range tenant cfg') eqn:Hval; [discriminate|].
  intros Hok. apply Ok_inj in Hok. subst cfg'. split.
  - intros Hempty. apply Hsize. rewrite Hempty. apply map_size_empty.
  - exact (proj1 (validateFlowConfig_None tenant cfg) Hval).
Qed.

Lemma Set_cacheValid cache tenant loaded :
  cacheValid cache →
  loadFlowConfig range os UnmarshalFlow tenant = Ok loaded →
  cacheValid (ConfigCache.Set_ cache tenant loaded).
Proof.
  intros Hcache Hload t cfg Hget.
  unfold ConfigCache.Get, ConfigCache.Set_ in Hget.
  cbn [ConfigCache.cache] in Hget.
  apply lookup_insert_Some in Hget as [[_ <-]|[_ Hget]].
  - exact (loadFlowConfig_flowValid tenant loaded Hload).
  - exact (Hcache t cfg Hget).
Qed.

(** Both users of the cache put into it only what the load returned: a
    cache of valid flow definitions stays one. *)
Lemma processMessage_cacheValid cache tenant state msg :
  cacheValid cache →
  cacheValid (processMessage range os UnmarshalFlow cache tenant state msg).1.
Proof.
  intros Hcache. unfold processMessage.
  destruct (ConfigCache.Get cache tenant); [exact Hcache|].
  destruct (loadFlowConfig range os UnmarshalFlow tenant) as [loaded|] eqn:Hload;
    [exact (Set_cacheValid cache tenant loaded Hcache Hload)|exact Hcache].
Qed.

Lemma RenderAndSend_cacheValid cache tenant stateName wa to vars :
  cacheValid cache →
  cacheValid (RenderAndSend range os UnmarshalFlow cache tenant stateName
                wa to vars).1.
Proof.
  intros Hcache. unfold RenderAndSend.
  destruct (ConfigCache.Get cache tenant) as [cfg|].
  - destruct (FlowConfig.States cfg !! stateName); exact Hcache.
  - destruct (loadFlowConfig range os UnmarshalFlow tenant) as [loaded|] eqn:Hload;
      [|exact Hcache].
    destruct (FlowConfig.States loaded !! stateName);
      exact (Set_cacheValid cache tenant loaded Hcache Hload).
Qed.

End Loading.

(** ** What [processMessage] returns and what it does to the cache *)

Section Decisions.
Context `{GoUnicode}.
Variable range : MapRange.
Variable os : OS.
Variable UnmarshalFlow : string → result FlowConfig.t.

Lemma selectNext_shape st id :
  ∃ next handled, selectNext st id = (next, handled, None) ∧
    if handled then next ≠ "" else next = "MENU".
Proof.
  unfold selectNext.
  destruct (FlowState.OnSelectNext st) as [m|]; [|exists "MENU", false; auto].
  destruct (m !! id) as [ns|]; [|exists "MENU", false; auto].
  destruct (String.eqb_spec ns ""); [exists "MENU", false; auto|].
  exists ns, true. auto.
Qed.

Lemma decide_shape cfg state msg :
  ∃ next handled, decide_ cfg state msg = (next, handled, None) ∧
    if handled then next ≠ "" else next = "MENU".
Proof.
  assert (Hmenu : ∃ next handled,
            ("MENU", false, @None string) = (next, handled, None) ∧
            if handled then next ≠ "" else next = "MENU")
    by (exists "MENU", false; auto).
  unfold decide_.
  destruct (FlowConfig.States cfg !! state) as [st|]; [|exact Hmenu].
  destruct (String.eqb (IncomingMessage.Type_ msg) "text").
  { destruct (IncomingMessage.Text msg) as [text|]; [|exact Hmenu].
    destruct (EqualFold _ "menu").
    { exists "MENU", true. split; [reflexivity|discriminate]. }
    destruct (String.eqb_spec (FlowState.OnTextNext st) ""); cbn [negb];
      [exact Hmenu|].
    exists (FlowState.OnTextNext st), true. auto. }
  destruct (String.eqb (IncomingMessage.Type_ msg) "interactive"); [|exact Hmenu].
  destruct (IncomingMessage.Interactive msg) as [inter|]; [|exact Hmenu].
  destruct (String.eqb (WAInteractive.Type_ inter) "list_reply").
  { destruct (WAInteractive.ListReply inter); [apply selectNext_shape|exact Hmenu]. }
  destruct (String.eqb (WAInteractive.Type_ inter) "button_reply"); [|exact Hmenu].
  destruct (WAInteractive.ButtonReply inter); [apply selectNext_shape|exact Hmenu].
Qed.

(** X3: [processMessage] fails only when the flow definition cannot be
    resolved, and then returns the empty state, not handled.  When it
    succeeds, a handled input gives a state name that is not empty and an
    input that is not handled gives "MENU". *)
Theorem processMessage_outcome cache tenant state msg :
  (∃ err, resolveFlow range os UnmarshalFlow cache tenant = Err err ∧
          (processMessage range os UnmarshalFlow cache tenant state msg).2 =
            ("", false, Some err)) ∨
  (∃ next handled,
     (processMessage range os UnmarshalFlow cache tenant state msg).2 =
       (next, handled, None) ∧
     if handled then next ≠ "" else next = "MENU").
Proof.
  rewrite processMessage_resolved.
  destruct (resolveFlow range os UnmarshalFlow cache tenant) as [cfg|err].
  - right. apply decide_shape.
  - left. exists err. auto.
Qed.

(** X4: a call touches no other tenant's entry; a call that fails leaves the
    cache as it is; and after a call that succeeds the tenant is cached,
    so that every later call for the tenant is decided on the cached
    definition, whatever the files hold by then. *)
Theorem processMessage_cache cache tenant state msg :
  let cache' := (processMessage range os UnmarshalFlow cache tenant state msg).1 in
  let err := (processMessage range os UnmarshalFlow cache tenant state msg).2.2 in
  (∀ other, other ≠ tenant →
     ConfigCache.Get cache' other = ConfigCache.Get cache other) ∧
  (err ≠ None → cache' = cache) ∧
  (err = None →
   ∃ cfg, ConfigCache.Get cache' tenant = Some cfg ∧
     ∀ (range' : MapRange) (os' : OS) UnmarshalFlow' state' msg',
       processMessage range' os' UnmarshalFlow' cache' tenant state' msg' =
         (cache', decide_ cfg state' msg')).
Proof.
  cbv zeta.
  remember (processMessage range os UnmarshalFlow cache tenant state msg) as r
    eqn:Hr.
  unfold processMessage in Hr.
  destruct (ConfigCache.Get cache tenant) as [cfg|] eqn:Hget.
  - subst r. cbn [fst snd]. split; [reflexivity|]. split; [reflexivity|].
    intros _. exists cfg. split; [exact Hget|].
    intros range' os' U' state' msg'. unfold processMessage. now rewrite Hget.
  - destruct (loadFlowConfig range os UnmarshalFlow tenant) as [loaded|err];
      subst r; cbn [fst snd].
    + assert (Hnew : ConfigCache.Get (ConfigCache.Set_ cache tenant loaded) tenant
                     = Some loaded).
      { unfold ConfigCache.Get, ConfigCache.Set_. cbn [ConfigCache.cache].
        apply lookup_insert_eq. }
      split; [|split].
      * intros other Hother. unfold ConfigCache.Get, ConfigCache.Set_.
        cbn [ConfigCache.cache]. apply lookup_insert_ne. congruence.
      * destruct (decide_shape loaded state msg) as (next & handled & -> & _).
        intros Herr. contradiction.
      * intros _. exists loaded. split; [exact Hnew|].
        intros range' os' U' state' msg'. unfold processMessage. now rewrite Hnew.
    + split; [reflexivity|]. split; [reflexivity|]. discriminate.
Qed.

(** ** The renderer *)

Lemma renderState_oneSend stateName st wa to vars :
  oneSend wa to (renderState range stateName st wa to vars).
Proof.
  unfold renderState, oneSend.
  destruct (String.eqb (FlowState.Type_ st) "text").
  { right. eexists. cbn [fst snd]. repeat split. }
  destruct (String.eqb (FlowState.Type_ st) "interactive_list").
  - destruct (FlowState.List st).
    + right. eexists. cbn [fst snd]. repeat split.
    + left. cbn [fst snd]. split; [reflexivity|discriminate].
  - left. cbn [fst snd]. split; [reflexivity|discriminate].
Qed.

Lemma RenderAndSend_oneSend cache tenant stateName wa to vars :
  oneSend wa to
    (RenderAndSend range os UnmarshalFlow cache tenant stateName wa to vars).2.
Proof.
  assert (Hsend : ∀ (c : ConfigCache.t) cfg,
    oneSend wa to
      (match FlowConfig.States cfg !! stateName with
       | None => (c, (Some ("estado no existe: " +:+ stateName),
                      @nil Outbound))
       | Some st => (c, renderState range stateName st wa to vars)
       end).2).
  { intros c cfg.
    destruct (FlowConfig.States cfg !! stateName) as [st|]; cbn [fst snd].
    - apply renderState_oneSend.
    - left. split; [reflexivity|discriminate]. }
  unfold RenderAndSend.
  destruct (ConfigCache.Get cache tenant) as [cfg|]; [apply Hsend|].
  destruct (loadFlowConfig range os UnmarshalFlow tenant) as [loaded|err];
    [apply Hsend|].
  left. cbn [fst snd]. split; [reflexivity|discriminate].
Qed.

(** X6: a call sends at most one message.  When it sends none it returns an
    error; when it sends one it returns the answer of the channel to that
    message, which goes to the recipient given. *)
Theorem RenderAndSend_one_message cache tenant stateName wa to vars :
  let r := RenderAndSend range os UnmarshalFlow cache tenant stateName wa to vars in
  (r.2.2 = [] ∧ r.2.1 ≠ None) ∨
  (∃ m, r.2.2 = [m] ∧ r.2.1 = post wa m ∧
        match m with
        | SendText to' _ => to' = to
        | SendList to' _ _ _ _ _ => to' = to
        end).
Proof.
  cbv zeta.
  destruct (RenderAndSend_oneSend cache tenant stateName wa to vars)
    as [Hnone|(m & Hm & Hpost & Hto)]; [left; exact Hnone|].
  right. exists m. split; [exact Hm|]. split; [exact Hpost|].
  destruct m; exact Hto.
Qed.

Lemma rowIDs_renderSection vars sections :
  rowIDs (map (renderSection range vars) sections) = rowIDs sections.
Proof.
  unfold rowIDs. rewrite map_map. apply map_ext. intros s.
  unfold renderSection. cbn [FlowSection.Rows]. rewrite map_map.
  apply map_ext. intros row. reflexivity.
Qed.

(** X7: for a state that is an interactive list the one message is the list,
    with the sections and rows of the flow definition in their order and
    with their ids untouched by the substitution; its body is never the
    blank body of the state but the default prompt, before substitution. *)
Theorem RenderAndSend_list cache tenant cfg stateName st l wa to vars :
  resolveFlow range os UnmarshalFlow cache tenant = Ok cfg →
  listState cfg stateName st l →
  ∃ header body footer button sections,
    (RenderAndSend range os UnmarshalFlow cache tenant stateName wa to vars).2.2 =
      [SendList to header body footer button sections] ∧
    rowIDs sections = rowIDs (FlowList.Sections l) ∧
    length sections = length (FlowList.Sections l) ∧
    body = renderVars range
             (if String.eqb (TrimSpace (FlowState.Body st)) ""
              then "Elegí una opción:" else TrimSpace (FlowState.Body st))
             vars.
Proof.
  intros Hcfg (Hst & Htype & Hlist).
  assert (Hrender : renderState range stateName st wa to vars =
    let m := SendList to (renderVars range (FlowList.Header l) vars)
               (renderVars range
                  (if String.eqb (TrimSpace (FlowState.Body st)) ""
                   then "Elegí una opción:" else TrimSpace (FlowState.Body st))
                  vars)
               (renderVars range (FlowList.Footer l) vars)
               (renderVars range (FlowList.ButtonText l) vars)
               (map (renderSection range vars) (FlowList.Sections l)) in
    (post wa m, [m])).
  { unfold renderState. rewrite Htype, Hlist. reflexivity. }
  do 5 eexists.
  split; [|split; [apply rowIDs_renderSection|split;
                   [apply length_map|reflexivity]]].
  unfold RenderAndSend, resolveFlow in *.
  destruct (ConfigCache.Get cache tenant) as [cfg0|].
  - apply Ok_inj in Hcfg. subst cfg0. rewrite Hst, Hrender. reflexivity.
  - rewrite Hcfg, Hst, Hrender. reflexivity.
Qed.

End Decisions.

(** ** What the validation lets through *)

Lemma runeCount_le skip s : runeCount skip s ≤ String.length s.
Proof.
  revert skip. induction s as [|c s IH]; intros skip; [reflexivity|].
  cbn [runeCount String.length]. destruct skip as [|k].
  - specialize (IH (runeWidth (String c s) - 1)). lia.
  - specialize (IH k). lia.
Qed.

Lemma runeLen_le_bytes s : (runeLen s ≤ Z.of_nat (String.length s))%Z.
Proof.
  unfold runeLen, RuneCountInString.
  pose proof (runeCount_le 0 s). lia.
Qed.

Section Accepting.
Context `{GoUnicode}.
Variable range : MapRange.
Hypothesis range_valid : ValidRange range.

Lemma withinBytes_listState cfg name st l :
  withinBytes cfg = true → listState cfg name st l → listWithin l = true.
Proof.
  unfold withinBytes. rewrite forallb_forall. intros Hall (Hst & Htype & Hlist).
  specialize (Hall (name, st)). cbn [snd] in Hall. unfold stateWithin in Hall.
  rewrite Hlist, Htype in Hall. apply Hall.
  apply list_elem_of_In, elem_of_map_to_list, Hst.
Qed.

(** X2: a flow definition whose list texts respect the limits counted in
    bytes, and whose row ids are not empty, passes the validation: a text
    has no more characters than bytes. *)
Theorem validateFlowConfig_accepts_within_bytes tenant cfg :
  withinBytes cfg = true →
  validateFlowConfig range tenant cfg = None.
Proof.
  intros Hwithin. apply (validateFlowConfig_None range range_valid).
  assert (Hlen : ∀ text limit,
            (String.length text <=? limit) = true →
            ¬ (Z.of_nat limit < runeLen text)%Z).
  { intros text limit Hle Hlt. apply Nat.leb_le in Hle.
    pose proof (runeLen_le_bytes text). lia. }
  intros m Hoff.
  destruct Hoff as [name st l Hl Hlong|name st l Hl Hlong|name st l Hl Hlong
                   |name st l sec Hl Hsec Hlong|name st l sec row msg Hl Hsec Hrow Hoff];
    pose proof (withinBytes_listState cfg name st l Hwithin Hl) as Hlist;
    unfold listWithin in Hlist;
    apply andb_prop in Hlist as [Hlist Hsections];
    apply andb_prop in Hlist as [Hlist Hbutton];
    apply andb_prop in Hlist as [Hheader Hfooter].
  - exact (Hlen _ 60 Hheader Hlong).
  - exact (Hlen _ 60 Hfooter Hlong).
  - exact (Hlen _ 20 Hbutton Hlong).
  - rewrite forallb_forall in Hsections.
    specialize (Hsections sec (proj1 (list_elem_of_In _ _) Hsec)).
    apply andb_prop in Hsections as [Htitle _].
    exact (Hlen _ 24 Htitle Hlong).
  - rewrite forallb_forall in Hsections.
    specialize (Hsections sec (proj1 (list_elem_of_In _ _) Hsec)).
    apply andb_prop in Hsections as [_ Hrows].
    rewrite forallb_forall in Hrows.
    specialize (Hrows row (proj1 (list_elem_of_In _ _) Hrow)).
    unfold rowWithin in Hrows.
    apply andb_prop in Hrows as [Hrows Hdesc].
    apply andb_prop in Hrows as [Hid Htitle].
    destruct Hoff as [Hempty|Hlong|Hlong].
    + rewrite Hempty in Hid. discriminate Hid.
    + exact (Hlen _ 24 Htitle Hlong).
    + exact (Hlen _ 72 Hdesc Hlong).
Qed.

Variable os : OS.
Variable UnmarshalFlow : string → result FlowConfig.t.

(** X8: a state of type "interactive_list" that has no list is skipped by
    the validation, and cannot be rendered: the renderer sends nothing
    and reports the state. *)
Theorem RenderAndSend_missing_list cache tenant cfg stateName st wa to vars :
  resolveFlow range os UnmarshalFlow cache tenant = Ok cfg →
  FlowConfig.States cfg !! stateName = Some st →
  FlowState.Type_ st = "interactive_list" →
  FlowState.List st = None →
  (∀ errs, validateState errs (stateName, st) = errs) ∧
  (RenderAndSend range os UnmarshalFlow cache tenant stateName wa to vars).2 =
    (Some ("estado " +:+ stateName +:+ " es interactive_list pero list es nil"),
     []).
Proof.
  intros Hcfg Hst Htype Hlist. split.
  - intros errs. unfold validateState. now rewrite Hlist.
  - assert (Hrender : renderState range stateName st wa to vars =
              (Some ("estado " +:+ stateName +:+
                     " es interactive_list pero list es nil"), [])).
    { unfold renderState. rewrite Htype, Hlist. reflexivity. }
    unfold RenderAndSend, resolveFlow in *.
    destruct (ConfigCache.Get cache tenant) as [cfg0|].
    + apply Ok_inj in Hcfg. subst cfg0. rewrite Hst. exact Hrender.
    + rewrite Hcfg, Hst. exact Hrender.
Qed.

End Accepting.

(** ** The calendar arithmetic *)

Lemma civilOKFrom_spec n z i :
  civilOKFrom n z = true → (z ≤ i < z + Z.of_nat n)%Z → civilOK i = true.
Proof.
  revert z. induction n as [|n IH]; intros z Hall Hi; [lia|].
  cbn [civilOKFrom] in Hall. apply andb_true_iff in Hall as [Hz Hrest].
  destruct (Z.eq_dec i z) as [->|Hne]; [exact Hz|].
  apply (IH (z + 1)%Z Hrest). lia.
Qed.

(** The 146097 days of the era that starts on 0000-03-01. *)
Lemma civilOK_era :
  civilOKFrom (Z.to_nat 146097) (-719468) = true.
Proof. vm_compute. reflexivity. Qed.

(** Four hundred years are 146097 days, for both conversions. *)
Lemma civil_shift z k :
  time.civil (z + 146097 * k) =
  (let '(y, m, d) := time.civil z in (y + 400 * k, m, d))%Z.
Proof.
  unfold time.civil.
  replace (z + 146097 * k + 719468)%Z with (z + 719468 + k * 146097)%Z by lia.
  rewrite Z.div_add by lia.
  set (era := ((z + 719468) / 146097)%Z).
  replace (z + 719468 + k * 146097 - (era + k) * 146097)%Z
    with (z + 719468 - era * 146097)%Z by lia.
  set (doe := (z + 719468 - era * 146097)%Z).
  set (yoe := ((doe - doe / 1460 + doe / 36524 - doe / 146096) / 365)%Z).
  set (doy := (doe - (365 * yoe + yoe / 4 - yoe / 100))%Z).
  set (mp := ((5 * doy + 2) / 153)%Z).
  cbv zeta.
  destruct ((if (mp <? 10)%Z then (mp + 3)%Z else (mp - 9)%Z) <=? 2)%Z;
    f_equal; f_equal; lia.
Qed.

Lemma daysFromCivil_shift y m d k :
  time.daysFromCivil (y + 400 * k) m d =
  (time.daysFromCivil y m d + 146097 * k)%Z.
Proof.
  unfold time.daysFromCivil.
  set (y0 := (if (m <=? 2)%Z then (y - 1)%Z else y)).
  replace (if (m <=? 2)%Z then (y + 400 * k - 1)%Z else (y + 400 * k)%Z)
    with (y0 + k * 400)%Z by (unfold y0; destruct (m <=? 2)%Z; lia).
  rewrite Z.div_add by lia. cbv zeta.
  replace (y0 + k * 400 - (y0 / 400 + k) * 400)%Z
    with (y0 - y0 / 400 * 400)%Z by lia.
  lia.
Qed.

(** [civil] gives the date of the day, for every day. *)
Lemma civil_correct z :
  ∃ y m d, time.civil z = (y, m, d) ∧ time.daysFromCivil y m d = z ∧
           (1 ≤ m ≤ 12)%Z ∧ (1 ≤ d ≤ 31)%Z.
Proof.
  set (k := ((z + 719468) / 146097)%Z).
  set (z0 := (z - 146097 * k)%Z).
  assert (Hz0 : (-719468 ≤ z0 < -719468 + Z.of_nat (Z.to_nat 146097))%Z).
  { rewrite Z2Nat.id by lia. unfold z0, k.
    pose proof (Z.div_mod (z + 719468) 146097 ltac:(lia)) as Hdm.
    pose proof (Z.mod_pos_bound (z + 719468) 146097 ltac:(lia)) as Hmod.
    lia. }
  pose proof (civilOKFrom_spec _ _ z0 civilOK_era Hz0) as Hok.
  replace z with (z0 + 146097 * k)%Z by (unfold z0; lia).
  rewrite civil_shift. unfold civilOK in Hok.
  destruct (time.civil z0) as [[y m] d].
  rewrite !andb_true_iff in Hok.
  destruct Hok as ((((Hdays & Hm1) & Hm2) & Hd1) & Hd2).
  exists (y + 400 * k)%Z, m, d. split; [reflexivity|].
  rewrite daysFromCivil_shift. lia.
Qed.

(** [daysFromCivil] counts the days of a month one by one. *)
Lemma daysFromCivil_day y m d :
  time.daysFromCivil y m d = (time.daysFromCivil y m 1 + (d - 1))%Z.
Proof. unfold time.daysFromCivil. cbv zeta. lia. Qed.

(** [time.Date] on the date of [t], [dd] days later, at any clock. *)
Lemma Date_of_day t dd hour min sec nsec l :
  time.unixNano
    (time.Date (time.Year t) (time.Month t) (time.Day t + dd)
       hour min sec nsec l) =
  (((time.wallDays t + dd) * 86400 + hour * 3600 + min * 60 + sec
    - time.zoneOffset l) * time.Second + nsec)%Z.
Proof.
  unfold time.Date, time.Year, time.Month, time.Day. cbn [time.unixNano].
  destruct (civil_correct (time.wallDays t)) as (y & m & d & -> & Hdays & Hm & _).
  cbn [fst snd].
  replace ((m - 1) / 12)%Z with 0%Z by (symmetry; apply Z.div_small; lia).
  replace ((m - 1) mod 12 + 1)%Z with m by (rewrite Z.mod_small; lia).
  rewrite Z.add_0_r, (daysFromCivil_day y m d) in *. lia.
Qed.

(** A slot of the day of [day] is [h] hours after that day's midnight. *)
Lemma wallSec_slotStartAt day l h :
  time.wallSec (slotStartAt day l h) =
  (time.wallDays day * 86400 + h * 3600)%Z.
Proof.
  unfold time.wallSec, slotStartAt.
  pose proof (Date_of_day day 0 h 0 0 0 l) as Hdate.
  rewrite Z.add_0_r in Hdate. rewrite Hdate.
  unfold time.Date. cbn [time.loc].
  rewrite Z.add_0_r, Z.div_mul by (unfold time.Second; lia). lia.
Qed.

Lemma Time_eq (t u : time.Time) :
  time.unixNano t = time.unixNano u → time.loc t = time.loc u → t = u.
Proof. destruct t, u. cbn [time.unixNano time.loc]. now intros -> ->. Qed.

(** In a location with a fixed offset, [AddDate(0, 0, d)] adds [d] times
    24 hours. *)
Lemma AddDate_days t d :
  time.AddDate t 0 0 d = time.Add t (d * (24 * time.Hour)).
Proof.
  unfold time.AddDate, time.Add.
  assert (Hnano : time.unixNano
            (time.Date (time.Year t + 0) (time.Month t + 0) (time.Day t + d)
               (time.Hour_ t) (time.Minute t) (time.Second_ t)
               (time.Nanosecond t) (time.loc t)) =
          (time.unixNano t + d * (24 * time.Hour))%Z).
  { rewrite !Z.add_0_r, Date_of_day.
    unfold time.Hour_, time.Minute, time.Second_, time.Nanosecond,
      time.wallDays, time.Hour.
    set (ws := time.wallSec t).
    assert (Hws : ws = (time.unixNano t / time.Second + time.zoneOffset (time.loc t))%Z)
      by reflexivity.
    pose proof (Z.div_mod (time.unixNano t) time.Second
                  ltac:(unfold time.Second; lia)) as Hns.
    pose proof (Z.div_mod ws 86400 ltac:(lia)) as Hday.
    pose proof (Z.div_mod (ws mod 86400) 3600 ltac:(lia)) as Hhour.
    pose proof (Z.div_mod ws 3600 ltac:(lia)) as Hh.
    pose proof (Z.div_mod (ws mod 3600) 60 ltac:(lia)) as Hmin.
    pose proof (Z.div_mod ws 60 ltac:(lia)) as Hm.
    assert (H3600 : ((ws mod 86400) mod 3600 = ws mod 3600)%Z).
    { apply Z.mod_mod_divide. exists 24%Z. reflexivity. }
    assert (H60 : ((ws mod 3600) mod 60 = ws mod 60)%Z).
    { apply Z.mod_mod_divide. exists 60%Z. reflexivity. }
    rewrite H3600 in Hhour. rewrite H60 in Hmin.
    unfold time.Second in *. lia. }
  apply Time_eq; [exact Hnano|reflexivity].
Qed.

(** ** Where the slots of a search come from *)

Lemma foldl_invariant_in {A B : Type} (P : A → Prop) (f : A → B → A)
    (l : list B) (a : A) :
  (∀ a b, b ∈ l → P a → P (f a b)) → P a → P (foldl f a l).
Proof.
  revert a. induction l as [|b l IH]; intros a Hstep Ha; [exact Ha|].
  cbn [foldl]. apply IH.
  - intros a' b' Hb'. apply Hstep. apply elem_of_cons. auto.
  - apply Hstep; [apply elem_of_cons; auto|exact Ha].
Qed.

Section Provenance.
Context `{GoTimeParse}.
Variable clock : Clock.

Local Open Scope Z_scope.

Lemma hourStep_slotsFrom c now l busyRanges d acc h :
  0 ≤ d < 10 →
  CalendarService.StartHour c ≤ h < CalendarService.EndHour c →
  isWorkingDay c (time.Weekday (time.AddDate now 0 0 d)) = true →
  slotsFrom c now l busyRanges acc →
  slotsFrom c now l busyRanges
    (hourStep now (time.AddDate now 0 0 d) l busyRanges acc h).
Proof.
  intros Hd Hh Hwork. destruct acc as [slots counter]. intros Hsame.
  pose proof Hsame as (Hcounter & starts & Hslots & Hstarts).
  cbn [fst snd] in *. rewrite hourStep_cases.
  destruct (3 <=? length slots)%nat; cbn [orb]; [exact Hsame|].
  destruct (time.Before _ now) eqn:Hpast; cbn [orb]; [exact Hsame|].
  destruct (isBusy _ _ busyRanges) eqn:Hbusy; [exact Hsame|].
  split; cbn [fst snd].
  - rewrite length_app. cbn [length]. lia.
  - exists (starts ++ [slotStartAt (time.AddDate now 0 0 d) l h]). split.
    + rewrite imap_app. cbn [imap]. rewrite <- Hslots. f_equal.
      unfold slotOf. rewrite Hcounter, Hslots, length_imap.
      repeat f_equal. lia.
    + apply Forall_app. split; [exact Hstarts|].
      apply Forall_singleton. exists d, h. repeat split; try assumption; lia.
Qed.

Lemma dayStep_slotsFrom c now l busyRanges acc d :
  0 ≤ d < 10 →
  slotsFrom c now l busyRanges acc →
  slotsFrom c now l busyRanges (dayStep c now l busyRanges acc d).
Proof.
  intros Hd Hacc. unfold dayStep.
  destruct (3 <=? length acc.1)%nat; [exact Hacc|].
  destruct (isWorkingDay c _) eqn:Hwork; cbn [negb]; [|exact Hacc].
  apply foldl_invariant_in; [|exact Hacc].
  intros a h Hh. apply elem_of_seqZ in Hh.
  apply hourStep_slotsFrom; [exact Hd|lia|exact Hwork].
Qed.

(** A search that succeeds has sent one request, has got an answer, and
    returns the slots of candidate starts, numbered from 1. *)
Lemma GetNextAvailableSlots_slotsFrom c slots calls :
  GetNextAvailableSlots clock c = (Ok slots, calls) →
  ∃ q res starts,
    calls = [calendar.FreebusyQuery q] ∧
    calendar.FreebusyDo (CalendarService.srv c) q = Ok res ∧
    slots = imap (λ i start, slotOf (Z.of_nat i + 1) start) starts ∧
    Forall (candidate c (searchNow clock) (searchLocation clock) (busyOf c res))
      starts.
Proof.
  unfold GetNextAvailableSlots. cbv zeta.
  fold (searchLocation clock). fold (searchNow clock).
  match goal with
  | |- context [calendar.FreebusyDo _ ?q] => set (query := q)
  end.
  destruct (calendar.FreebusyDo _ query) as [res|] eqn:Hdo; intros Hrun.
  2: { apply (f_equal fst) in Hrun. cbn [fst] in Hrun. discriminate Hrun. }
  fold (busyOf c res) in Hrun.
  pose proof (f_equal snd Hrun) as Hcalls. cbn [snd] in Hcalls.
  apply (f_equal fst) in Hrun. cbn [fst] in Hrun. apply Ok_inj in Hrun.
  pose proof (foldl_invariant_in
                (slotsFrom c (searchNow clock) (searchLocation clock) (busyOf c res))
                (dayStep c (searchNow clock) (searchLocation clock) (busyOf c res))
                (seqZ 0 10) ([], 1)) as Hinv.
  destruct Hinv as (_ & starts & Hslots & Hstarts).
  { intros a d Hd. apply elem_of_seqZ in Hd. apply dayStep_slotsFrom. lia. }
  { split; [reflexivity|]. exists []. split; [reflexivity|constructor]. }
  exists query, res, starts. rewrite <- Hrun, <- Hcalls. auto.
Qed.

(** X9: the display ids are SLOT_1, SLOT_2, ... in the order of the slots. *)
Theorem GetNextAvailableSlots_ids c slots calls :
  GetNextAvailableSlots clock c = (Ok slots, calls) →
  ∀ (i : nat) s, slots !! i = Some s →
    Slot.ID s = "SLOT_" +:+ fmt_d (Z.of_nat i + 1).
Proof.
  intros Hrun i s Hi.
  destruct (GetNextAvailableSlots_slotsFrom c slots calls Hrun)
    as (q & res & starts & _ & _ & -> & _).
  rewrite list_lookup_imap in Hi.
  destruct (starts !! i) as [start|]; [|discriminate].
  cbn [fmap option_fmap option_map] in Hi.
  apply (f_equal (λ o, match o with Some x => x | None => s end)) in Hi.
  subst s. reflexivity.
Qed.


(** The wall clock of the hour [h] of a day: that day, [h] o'clock
    sharp. *)
Lemma slotStartAt_clock day l h :
  0 ≤ h < 24 →
  time.wallDays (slotStartAt day l h) = time.wallDays day ∧
  time.Hour_ (slotStartAt day l h) = h ∧
  time.Minute (slotStartAt day l h) = 0 ∧
  time.Second_ (slotStartAt day l h) = 0 ∧
  time.Nanosecond (slotStartAt day l h) = 0.
Proof.
  intros Hh.
  unfold time.Hour_, time.Minute, time.Second_, time.Nanosecond, time.wallDays.
  rewrite wallSec_slotStartAt. unfold time.wallDays.
  assert (Hnano : time.unixNano (slotStartAt day l h) mod time.Second = 0).
  { unfold slotStartAt, time.Date. cbn [time.unixNano].
    rewrite Z.add_0_r. apply Z.mod_mul. unfold time.Second. lia. }
  rewrite Hnano. set (wd := time.wallSec day / 86400).
  repeat split.
  - symmetry. apply (Z.div_unique _ 86400 wd (h * 3600)); lia.
  - replace ((wd * 86400 + h * 3600) mod 86400) with (h * 3600).
    + apply Z.div_mul. lia.
    + apply (Z.mod_unique _ 86400 wd (h * 3600)); lia.
  - replace ((wd * 86400 + h * 3600) mod 3600) with 0; [reflexivity|].
    apply (Z.mod_unique _ 3600 (wd * 24 + h) 0); lia.
  - symmetry. apply (Z.mod_unique _ 60 (wd * 1440 + h * 60) 0); lia.
Qed.

Lemma wallSec_AddDate t d :
  time.wallSec (time.AddDate t 0 0 d) = time.wallSec t + d * 86400.
Proof.
  rewrite AddDate_days. unfold time.wallSec, time.Add, time.Hour.
  cbn [time.unixNano time.loc].
  replace (time.unixNano t + d * (24 * (3600 * time.Second)))
    with (time.unixNano t + d * 86400 * time.Second) by lia.
  rewrite Z.div_add by (unfold time.Second; lia). lia.
Qed.

Lemma isWorkingDay_elem c wd :
  isWorkingDay c wd = true ↔ wd ∈ CalendarService.WorkDays c.
Proof.
  unfold isWorkingDay. rewrite existsb_exists. split.
  - intros (x & Hin & Heq). apply Z.eqb_eq in Heq. subst x.
    now apply list_elem_of_In.
  - intros Hin. exists wd. split; [now apply list_elem_of_In|apply Z.eqb_refl].
Qed.

Lemma loc_slotStartAt day l h : time.loc (slotStartAt day l h) = l.
Proof. unfold slotStartAt, time.Date. reflexivity. Qed.

Lemma within_day_arith x y off h :
  0 ≤ h < 24 →
  x / time.Second + off = (y / time.Second + off) / 86400 * 86400 + h * 3600 →
  x mod time.Second = 0 →
  x < y + 24 * time.Hour.
Proof.
  unfold time.Hour, time.Second. intros Hh Hws Hnano.
  Z.div_mod_to_equations. lia.
Qed.

Lemma wallSec_unfold t :
  time.wallSec t = time.unixNano t / time.Second + time.zoneOffset (time.loc t).
Proof. reflexivity. Qed.

Lemma wallDays_unfold t : time.wallDays t = time.wallSec t / 86400.
Proof. reflexivity. Qed.

Lemma Nanosecond_unfold t :
  time.Nanosecond t = time.unixNano t mod time.Second.
Proof. reflexivity. Qed.

(** The hour [h] of a day starts less than 24 hours after any instant of
    that day. *)
Lemma slotStartAt_within_day day h :
  0 ≤ h < 24 →
  time.unixNano (slotStartAt day (time.loc day) h)
    < time.unixNano day + 24 * time.Hour.
Proof.
  intros Hh.
  pose proof (wallSec_slotStartAt day (time.loc day) h) as Hws.
  destruct (slotStartAt_clock day (time.loc day) h Hh)
    as (_ & _ & _ & _ & Hnano).
  rewrite Nanosecond_unfold in Hnano.
  rewrite wallDays_unfold, !wallSec_unfold, loc_slotStartAt in Hws.
  exact (within_day_arith _ _ _ h Hh Hws Hnano).
Qed.

Lemma Weekday_wallDays t u :
  time.wallDays t = time.wallDays u → time.Weekday t = time.Weekday u.
Proof. unfold time.Weekday. now intros ->. Qed.

Lemma Before_false t u :
  time.Before t u = false → time.unixNano u ≤ time.unixNano t.
Proof. unfold time.Before. apply Z.ltb_ge. Qed.

Lemma unixNano_searchNow clock0 :
  time.unixNano (searchNow clock0) = time.unixNano (Now clock0).
Proof. reflexivity. Qed.

Lemma ten_days_arith x n d :
  0 ≤ d < 10 →
  x < n + d * (24 * time.Hour) + 24 * time.Hour →
  x < n + 10 * (24 * time.Hour).
Proof. unfold time.Hour, time.Second. lia. Qed.

Lemma searchDay clock0 d :
  time.loc (time.AddDate (searchNow clock0) 0 0 d) = searchLocation clock0 ∧
  time.unixNano (time.AddDate (searchNow clock0) 0 0 d)
    = time.unixNano (Now clock0) + d * (24 * time.Hour).
Proof.
  rewrite AddDate_days. unfold time.Add, searchNow, time.In.
  cbn [time.loc time.unixNano]. split; reflexivity.
Qed.

(** X11: with hours between 0 and 24, as [NewCalendarService] leaves them,
    every slot of the result is on a working day of the service, at a
    whole hour from its start hour up to, not including, its end hour, on
    the wall clock of the location of the search, and less than ten days
    after the evaluation instant. *)
Theorem GetNextAvailableSlots_working_hours c slots calls :
  GetNextAvailableSlots clock c = (Ok slots, calls) →
  0 ≤ CalendarService.StartHour c →
  CalendarService.EndHour c ≤ 24 →
  ∀ s, s ∈ slots →
    ∃ start,
      Slot.ISOValue s = time.FormatRFC3339 start ∧
      time.loc start = searchLocation clock ∧
      time.Weekday start ∈ CalendarService.WorkDays c ∧
      CalendarService.StartHour c ≤ time.Hour_ start < CalendarService.EndHour c ∧
      time.Minute start = 0 ∧ time.Second_ start = 0 ∧
      time.Nanosecond start = 0 ∧
      time.unixNano (Now clock) ≤ time.unixNano start
        < time.unixNano (Now clock) + 10 * (24 * time.Hour).
Proof.
  intros Hrun Hstart Hend s Hs.
  destruct (GetNextAvailableSlots_slotsFrom c slots calls Hrun)
    as (q & res & starts & _ & _ & Hslots & Hstarts).
  rewrite Hslots in Hs. clear Hslots Hrun.
  apply elem_of_lookup_imap in Hs as (i & start & Hs & Hi).
  rewrite Forall_forall in Hstarts.
  destruct (Hstarts start (list_elem_of_lookup_2 _ _ _ Hi))
    as (d & h & Hd & Hh & Hwork & Hst & Hpast & _).
  clear Hstarts Hi.
  destruct (searchDay clock d) as (Hloc & Hday).
  pose proof (slotStartAt_within_day (time.AddDate (searchNow clock) 0 0 d) h
                ltac:(lia)) as Hin.
  rewrite Hloc in Hin. rewrite <- Hst in Hin.
  destruct (slotStartAt_clock (time.AddDate (searchNow clock) 0 0 d)
              (searchLocation clock) h ltac:(lia))
    as (Hdays & Hhour & Hmin & Hsec & Hnano).
  rewrite <- Hst in Hdays, Hhour, Hmin, Hsec, Hnano.
  exists start.
  split; [rewrite Hs; reflexivity|].
  split; [rewrite Hst; apply loc_slotStartAt|].
  split.
  { apply isWorkingDay_elem in Hwork.
    now rewrite (Weekday_wallDays _ _ Hdays). }
  split; [lia|].
  split; [exact Hmin|]. split; [exact Hsec|]. split; [exact Hnano|].
  apply Before_false in Hpast. rewrite unixNano_searchNow in Hpast.
  split; [exact Hpast|].
  rewrite Hday in Hin. exact (ten_days_arith _ _ d Hd Hin).
Qed.

End Provenance.

(** ** Construction of the calendar service, continued *)

Section ServiceConstruction2.
Variable os : OS.
Variable UnmarshalCalendar : string → result CalendarJSON.t.
Variable NewService : string → result calendar.Service.

(** X13: a service is constructed only with credentials named in the
    environment, for a calendar id that is not empty, around the client
    that [calendar.NewService] made from those credentials. *)
Theorem NewCalendarService_requirements tenant c :
  NewCalendarService os UnmarshalCalendar NewService tenant = Ok c →
  Getenv os "GOOGLE_APPLICATION_CREDENTIALS" ≠ "" ∧
  CalendarService.calID c ≠ "" ∧
  NewService (Getenv os "GOOGLE_APPLICATION_CREDENTIALS")
    = Ok (CalendarService.srv c) ∧
  (Stat os (filepathJoin os ["configs"; tenant; "calendar.json"]) = false →
   CalendarService.calID c = Getenv os "GOOGLE_CALENDAR_ID").
Proof.
  unfold NewCalendarService. intros Hnew.
  destruct (String.eqb_spec (Getenv os "GOOGLE_APPLICATION_CREDENTIALS") "")
    as [|Hcreds]; [discriminate|].
  set (path := filepathJoin os ["configs"; tenant; "calendar.json"]) in *.
  assert (Hend : ∀ cfg,
    (if String.eqb (TenantCalendarConfig.CalendarID cfg) "" then
       Err ("no se encontró calendar_id para el tenant " +:+ tenant)
     else
       match NewService (Getenv os "GOOGLE_APPLICATION_CREDENTIALS") with
       | Err err => Err ("error creando cliente calendar: " +:+ err)
       | Ok srv =>
           Ok (CalendarService.mk srv
                 (TenantCalendarConfig.CalendarID (basicValidations cfg))
                 (TenantCalendarConfig.StartHour (basicValidations cfg))
                 (TenantCalendarConfig.EndHour (basicValidations cfg))
                 (TenantCalendarConfig.WorkDays (basicValidations cfg)))
       end) = Ok c →
    CalendarService.calID c = TenantCalendarConfig.CalendarID cfg ∧
    CalendarService.calID c ≠ "" ∧
    NewService (Getenv os "GOOGLE_APPLICATION_CREDENTIALS")
      = Ok (CalendarService.srv c)).
  { intros cfg.
    destruct (String.eqb_spec (TenantCalendarConfig.CalendarID cfg) "")
      as [|Hid]; [discriminate|].
    destruct (NewService _) as [srv|]; [|discriminate].
    intros Hok. apply Ok_inj in Hok. subst c.
    cbn [CalendarService.calID CalendarService.srv].
    unfold basicValidations. cbn [TenantCalendarConfig.CalendarID]. auto. }
  destruct (Stat os path).
  - destruct (ReadFile os path) as [b|]; [|discriminate].
    destruct (UnmarshalCalendar b) as [j|]; [|discriminate].
    destruct (Hend _ Hnew) as (_ & Hid & Hsrv).
    repeat split; try assumption. discriminate.
  - destruct (Hend _ Hnew) as (Hcal & Hid & Hsrv).
    repeat split; try assumption. intros _. exact Hcal.
Qed.

End ServiceConstruction2.

(** ** The order of the slots *)

Lemma foldl_seqZ_invariant {A : Type} (P : Z → A → Prop) (f : A → Z → A)
    (len : nat) (start : Z) (a : A) :
  P start a →
  (∀ i a, (start ≤ i < start + Z.of_nat len)%Z → P i a → P (i + 1)%Z (f a i)) →
  P (start + Z.of_nat len)%Z (foldl f a (seqZ start (Z.of_nat len))).
Proof.
  revert start a. induction len as [|len IH]; intros start a Ha Hstep.
  - rewrite Z.add_0_r. exact Ha.
  - rewrite seqZ_cons by lia. cbn [foldl].
    replace (Z.pred (Z.of_nat (S len))) with (Z.of_nat len) by lia.
    replace (start + Z.of_nat (S len))%Z with (Z.succ start + Z.of_nat len)%Z
      by lia.
    apply IH.
    + replace (Z.succ start) with (start + 1)%Z by lia.
      apply Hstep; [lia|exact Ha].
    + intros i a' Hi. apply Hstep. lia.
Qed.

Lemma StronglySorted_snoc {A : Type} (R : A → A → Prop) (l : list A) (y : A) :
  StronglySorted R l → Forall (λ x, R x y) l → StronglySorted R (l ++ [y]).
Proof.
  induction 1 as [|x l Hl IH Hx]; intros Hy; cbn [app].
  - repeat constructor.
  - apply Forall_cons in Hy as [Hxy Hy]. constructor; [now apply IH|].
    apply Forall_app. split; [exact Hx|]. now apply Forall_singleton.
Qed.

Lemma hourInstant_arith x W d h off :
  (x / time.Second + off = (W + d) * 86400 + h * 3600)%Z →
  (x mod time.Second = 0)%Z →
  x = ((W * 86400 + (d * 24 + h) * 3600 - off) * time.Second)%Z.
Proof.
  unfold time.Second. intros Hws Hnano. Z.div_mod_to_equations. lia.
Qed.

Lemma hourInstant_lt now l i j :
  (i < j)%Z → (hourInstant now l i < hourInstant now l j)%Z.
Proof. unfold hourInstant, time.Second. lia. Qed.

Lemma wallDays_AddDate t d :
  time.wallDays (time.AddDate t 0 0 d) = (time.wallDays t + d)%Z.
Proof.
  rewrite !wallDays_unfold, wallSec_AddDate. apply Z.div_add. lia.
Qed.

(** The hour [h] of the day [d] days on starts at the instant of its
    rank. *)
Lemma unixNano_slotStartAt now l d h :
  (0 ≤ h < 24)%Z →
  time.unixNano (slotStartAt (time.AddDate now 0 0 d) l h)
    = hourInstant now l (d * 24 + h).
Proof.
  intros Hh.
  pose proof (wallSec_slotStartAt (time.AddDate now 0 0 d) l h) as Hws.
  destruct (slotStartAt_clock (time.AddDate now 0 0 d) l h Hh)
    as (_ & _ & _ & _ & Hnano).
  rewrite Nanosecond_unfold in Hnano.
  rewrite wallDays_AddDate, wallSec_unfold, loc_slotStartAt in Hws.
  exact (hourInstant_arith _ _ _ _ _ Hws Hnano).
Qed.

Section Chronology.
Context `{GoTimeParse}.
Variable clock : Clock.

Local Open Scope Z_scope.

Lemma scannedTo_later now l i j acc :
  i ≤ j → scannedTo now l i acc → scannedTo now l j acc.
Proof.
  intros Hij (starts & Hiso & Hsorted & Hbelow). exists starts.
  split; [exact Hiso|]. split; [exact Hsorted|].
  eapply Forall_impl; [exact Hbelow|]. intros t Ht. cbv beta in *.
  destruct (Z.eq_dec i j) as [->|]; [exact Ht|].
  pose proof (hourInstant_lt now l i j ltac:(lia)). lia.
Qed.

Lemma hourStep_scannedTo now l busyRanges d acc h :
  0 ≤ h < 24 →
  scannedTo now l (d * 24 + h) acc →
  scannedTo now l (d * 24 + (h + 1))
    (hourStep now (time.AddDate now 0 0 d) l busyRanges acc h).
Proof.
  intros Hh Hacc. destruct acc as [slots counter]. rewrite hourStep_cases.
  destruct (_ || _ || _); [apply (scannedTo_later now l (d * 24 + h)); [lia|exact Hacc]|].
  destruct Hacc as (starts & Hiso & Hsorted & Hbelow). cbn [fst] in Hiso.
  exists (starts ++ [slotStartAt (time.AddDate now 0 0 d) l h]).
  cbn [fst]. rewrite !map_app, Hiso. cbn [map Slot.ISOValue].
  split; [reflexivity|]. split.
  - apply StronglySorted_snoc; [exact Hsorted|].
    eapply Forall_impl; [exact Hbelow|]. intros t Ht. cbv beta in *.
    now rewrite unixNano_slotStartAt.
  - apply Forall_app. split.
    + eapply Forall_impl; [exact Hbelow|]. intros t Ht. cbv beta in *.
      pose proof (hourInstant_lt now l (d * 24 + h) (d * 24 + (h + 1))
                    ltac:(lia)). lia.
    + apply Forall_singleton. rewrite unixNano_slotStartAt by exact Hh.
      apply hourInstant_lt. lia.
Qed.

Lemma dayStep_scannedTo c now l busyRanges acc d :
  0 ≤ CalendarService.StartHour c →
  CalendarService.EndHour c ≤ 24 →
  scannedTo now l (d * 24) acc →
  scannedTo now l ((d + 1) * 24) (dayStep c now l busyRanges acc d).
Proof.
  intros Hstart Hend Hacc. unfold dayStep.
  assert (Hskip : scannedTo now l ((d + 1) * 24) acc)
    by (apply (scannedTo_later now l (d * 24)); [lia|exact Hacc]).
  destruct (3 <=? length acc.1)%nat; [exact Hskip|].
  destruct (isWorkingDay c _); cbn [negb]; [|exact Hskip].
  destruct (Z_le_gt_dec (CalendarService.EndHour c - CalendarService.StartHour c) 0)
    as [Hnone|Hsome].
  { rewrite seqZ_nil by exact Hnone. exact Hskip. }
  rewrite <- (Z2Nat.id (CalendarService.EndHour c - CalendarService.StartHour c))
    by lia.
  apply (scannedTo_later now l
           (d * 24 + (CalendarService.StartHour c
                      + Z.of_nat (Z.to_nat (CalendarService.EndHour c
                                            - CalendarService.StartHour c)))));
    [lia|].
  apply (foldl_seqZ_invariant (λ i a, scannedTo now l (d * 24 + i) a)).
  - apply (scannedTo_later now l (d * 24)); [lia|exact Hacc].
  - intros i a Hi. apply hourStep_scannedTo. lia.
Qed.


End Chronology.

(** ** The moves of the state machine *)

Section Moves.
Context `{GoUnicode}.
Variable range : MapRange.
Variable os : OS.
Variable UnmarshalFlow : string → result FlowConfig.t.

Lemma processMessage_next cache tenant state msg next handled :
  (processMessage range os UnmarshalFlow cache tenant state msg).2
    = (next, handled, None) →
  if handled then next ≠ "" else next = "MENU".
Proof.
  rewrite processMessage_resolved.
  destruct (resolveFlow range os UnmarshalFlow cache tenant) as [cfg|err];
    [|discriminate].
  destruct (decide_shape cfg state msg) as (next' & handled' & -> & Hshape).
  intros [= <- <-]. exact Hshape.
Qed.

Lemma selectNext_declared st id next :
  selectNext st id = (next, true, None) →
  ∃ m, FlowState.OnSelectNext st = Some m ∧ m !! id = Some next.
Proof.
  unfold selectNext.
  destruct (FlowState.OnSelectNext st) as [m|]; [|discriminate].
  destruct (m !! id) as [ns|] eqn:Hid; [|discriminate].
  destruct (String.eqb ns ""); [discriminate|].
  intros [= <-]. exists m. auto.
Qed.

(** X5: a handled input moves only as the flow definition says: to "MENU" on
    the menu keyword, to the free-text target of the current state on
    another text, or to what the selection map of the current state holds
    for the id selected. *)
Theorem processMessage_moves_along_flow cache tenant cfg state msg next :
  resolveFlow range os UnmarshalFlow cache tenant = Ok cfg →
  (processMessage range os UnmarshalFlow cache tenant state msg).2
    = (next, true, None) →
  ∃ st, FlowConfig.States cfg !! state = Some st ∧
    ((∃ body, freeText msg = Some body ∧
        (EqualFold (TrimSpace body) "menu" = true ∧ next = "MENU" ∨
         EqualFold (TrimSpace body) "menu" = false ∧
         next = FlowState.OnTextNext st)) ∨
     (∃ id m, selectedID msg = Some id ∧
        FlowState.OnSelectNext st = Some m ∧ m !! id = Some next)).
Proof.
  intros Hcfg. rewrite processMessage_resolved, Hcfg.
  unfold decide_, freeText, selectedID.
  destruct (FlowConfig.States cfg !! state) as [st|]; [|discriminate].
  intros Hmove. exists st. split; [reflexivity|].
  destruct (String.eqb (IncomingMessage.Type_ msg) "text").
  { left. destruct (IncomingMessage.Text msg) as [text|]; [|discriminate].
    exists (WAText.Body text). split; [reflexivity|].
    destruct (EqualFold _ "menu").
    - left. injection Hmove as <-. auto.
    - right. destruct (String.eqb (FlowState.OnTextNext st) "");
        cbn [negb] in Hmove; [discriminate|].
      injection Hmove as <-. auto. }
  right.
  destruct (String.eqb (IncomingMessage.Type_ msg) "interactive");
    [|discriminate].
  destruct (IncomingMessage.Interactive msg) as [inter|]; [|discriminate].
  cbn [mbind option_bind].
  destruct (String.eqb (WAInteractive.Type_ inter) "list_reply").
  { destruct (WAInteractive.ListReply inter) as [lr|]; [|discriminate].
    apply selectNext_declared in Hmove as (m & Hm & Hid).
    exists (WAListReply.ID lr), m. auto. }
  destruct (String.eqb (WAInteractive.Type_ inter) "button_reply");
    [|discriminate].
  destruct (WAInteractive.ButtonReply inter) as [br|]; [|discriminate].
  apply selectNext_declared in Hmove as (m & Hm & Hid).
  exists (WAButtonReply.ID br), m. auto.
Qed.

End Moves.

(** ** Tenants *)

(** [Split] undoes [Join]: the pieces, joined by the separator, are the
    string. *)
Lemma Join_Split s sep : Join (Split s sep) (String sep "") = s.
Proof.
  induction s as [|c s IH]; [reflexivity|].
  cbn [Split]. destruct (Ascii.eqb_spec c sep) as [->|_].
  - destruct (Split s sep) as [|p ps] eqn:Hsplit.
    + destruct s; cbn [Split] in Hsplit; [discriminate|].
      destruct (Ascii.eqb _ sep); [discriminate|].
      destruct (Split s sep); discriminate.
    + change (Join ("" :: p :: ps) (String sep ""))
        with ("" +:+ String sep "" +:+ Join (p :: ps) (String sep "")).
      rewrite IH. reflexivity.
  - destruct (Split s sep) as [|p ps] eqn:Hsplit.
    + destruct s; cbn [Split] in Hsplit; [discriminate|].
      destruct (Ascii.eqb _ sep); [discriminate|].
      destruct (Split s sep); discriminate.
    + rewrite <- IH. destruct ps as [|q qs]; reflexivity.
Qed.

(** [cutAt] cuts at a separator: the parts, with the separator between
    them, are the string, and the first part holds no separator. *)
Lemma cutAt_Some s sep before after :
  cutAt s sep = Some (before, after) →
  s = before +:+ String sep after ∧ cutAt before sep = None.
Proof.
  revert before. induction s as [|c s IH]; intros before; [discriminate|].
  cbn [cutAt]. destruct (Ascii.eqb_spec c sep) as [->|Hc].
  - intros [= <- <-]. auto.
  - destruct (cutAt s sep) as [[b a]|]; [|discriminate].
    intros [= <- <-]. destruct (IH b eq_refl) as [-> Hb]. split; [reflexivity|].
    cbn [cutAt]. destruct (Ascii.eqb_spec c sep); [contradiction|].
    now rewrite Hb.
Qed.

Section TenantProps.
Context `{GoUnicode}.
Variable os : OS.

(** X14: every phone number id resolves to a tenant whose name is not empty. *)
Theorem Resolve_not_empty phoneNumberID :
  Resolve (NewTenantResolver os) phoneNumberID ≠ "".
Proof.
  unfold Resolve.
  assert (Hdef : TenantResolver.defaultTenant (NewTenantResolver os) ≠ "").
  { unfold NewTenantResolver. cbn [TenantResolver.defaultTenant].
    destruct (String.eqb_spec (Getenv os "DEFAULT_TENANT") "");
      [discriminate|assumption]. }
  destruct (_ !! phoneNumberID) as [t|]; [|exact Hdef].
  destruct (String.eqb_spec t ""); cbn [negb]; assumption.
Qed.

Lemma tenantEntry_fromEntry entries m p :
  p ∈ entries →
  (∀ id t, m !! id = Some t → fromEntry entries id t) →
  ∀ id t, tenantEntry m p !! id = Some t → fromEntry entries id t.
Proof.
  intros Hp Hm id t. unfold tenantEntry, SplitN2.
  destruct (String.eqb (TrimSpace p) ""); [apply Hm|].
  destruct (cutAt (TrimSpace p) ":") as [[k v]|] eqn:Hcut; [|apply Hm].
  intros Hid. apply lookup_insert_Some in Hid as [[<- <-]|[_ Hid]].
  - exists p, k, v. auto.
  - exact (Hm id t Hid).
Qed.

(** X15: a phone number id resolves to the default tenant, or to the tenant
    that an entry of TENANT_BY_PHONE_NUMBER_ID gives after the first
    colon for that id before it, both trimmed. *)
Theorem Resolve_provenance phoneNumberID :
  Resolve (NewTenantResolver os) phoneNumberID
    = TenantResolver.defaultTenant (NewTenantResolver os) ∨
  fromEntry (Split (Getenv os "TENANT_BY_PHONE_NUMBER_ID") ",")
    phoneNumberID (Resolve (NewTenantResolver os) phoneNumberID).
Proof.
  unfold Resolve.
  destruct (_ !! phoneNumberID) as [t|] eqn:Hid; [|left; reflexivity].
  destruct (String.eqb t ""); cbn [negb]; [left; reflexivity|].
  right. revert Hid. unfold NewTenantResolver.
  cbn [TenantResolver.byPhoneNumberID].
  destruct (String.eqb (Getenv os "TENANT_BY_PHONE_NUMBER_ID") "");
    cbn [negb]; [intros Hid; now apply lookup_empty_Some in Hid|].
  revert phoneNumberID t.
  apply (foldl_invariant_in
           (λ m, ∀ id t, m !! id = Some t →
                 fromEntry (Split (Getenv os "TENANT_BY_PHONE_NUMBER_ID") ",")
                   id t)).
  - intros m p Hp Hm. now apply tenantEntry_fromEntry.
  - intros id t Hid. now apply lookup_empty_Some in Hid.
Qed.

End TenantProps.

(** ** The recipient of what the client posts *)

Section ClientProps.
Context `{GoUnicode}.
Variable os : OS.

Lemma payloadOf_to c m :
  payloadOf os c m !! "to" = Some (AString (recipient os c (recipientOf m))).
Proof.
  destruct m; cbn [payloadOf recipientOf]; unfold textPayload, listPayload;
    cbv zeta; rewrite lookup_insert_ne by discriminate;
    apply lookup_insert_eq.
Qed.

(** X16: in production no recipient is rewritten: a client made there posts
    every message to the recipient the send was called with. *)
Theorem prod_recipient_unchanged phoneNumberID c :
  TrimSpace (Getenv os "APP_ENV") = "prod" →
  NewWhatsAppClient os phoneNumberID = Ok c →
  ∀ m, payloadOf os c m !! "to" = Some (AString (recipientOf m)).
Proof.
  intros Henv Hnew m. rewrite payloadOf_to. do 2 f_equal.
  unfold NewWhatsAppClient in Hnew. rewrite Henv in Hnew.
  destruct (String.eqb (Getenv os "WHATSAPP_TOKEN") ""); [discriminate|].
  apply Ok_inj in Hnew. subst c.
  unfold recipient, normalizeRecipientForMeta. cbn [WAClient.forceTo].
  rewrite Henv. reflexivity.
Qed.

(** X17: a client holds a forced recipient only in the environment "dev", and
    then every message it posts goes to that one recipient, whoever the
    send was called with. *)
Theorem forced_recipient phoneNumberID c :
  NewWhatsAppClient os phoneNumberID = Ok c →
  WAClient.forceTo c ≠ "" →
  (TrimSpace (Getenv os "APP_ENV") = "" ∨
   TrimSpace (Getenv os "APP_ENV") = "dev") ∧
  WAClient.forceTo c = Getenv os "WHATSAPP_FORCE_TO" ∧
  ∀ m, payloadOf os c m !! "to"
       = Some (AString (normalizeRecipientForMeta os
                          (Getenv os "WHATSAPP_FORCE_TO"))).
Proof.
  intros Hnew Hforce. unfold NewWhatsAppClient in Hnew.
  destruct (String.eqb (Getenv os "WHATSAPP_TOKEN") ""); [discriminate|].
  apply Ok_inj in Hnew. subst c. cbn [WAClient.forceTo] in Hforce.
  assert (Henv : (TrimSpace (Getenv os "APP_ENV") = "" ∨
                  TrimSpace (Getenv os "APP_ENV") = "dev") ∧
                 (if negb (String.eqb
                       (if String.eqb (TrimSpace (Getenv os "APP_ENV")) ""
                        then "dev" else TrimSpace (Getenv os "APP_ENV")) "dev")
                  then "" else Getenv os "WHATSAPP_FORCE_TO")
                 = Getenv os "WHATSAPP_FORCE_TO").
  { destruct (String.eqb_spec (TrimSpace (Getenv os "APP_ENV")) "") as [->|_];
      [auto|].
    destruct (String.eqb_spec (TrimSpace (Getenv os "APP_ENV")) "dev")
      as [->|_]; [auto|].
    cbn [negb] in Hforce. contradiction. }
  destruct Henv as [Henv Hsame]. split; [exact Henv|].
  split; [exact Hsame|].
  intros m. rewrite payloadOf_to. do 2 f_equal.
  unfold recipient. cbn [WAClient.forceTo]. rewrite Hsame.
  destruct (String.eqb_spec (Getenv os "WHATSAPP_FORCE_TO") "") as [Hempty|_];
    [|reflexivity].
  rewrite Hsame in Hforce. contradiction.
Qed.

End ClientProps.

(** ** The webhook handler *)

(** X18: the key of a session tells the tenant and the user apart, for users
    whose id holds no colon. *)
Theorem sessKey_injective tenant1 waID1 tenant2 waID2 :
  cutAt waID1 ":" = None →
  cutAt waID2 ":" = None →
  sessKey tenant1 waID1 = sessKey tenant2 waID2 →
  tenant1 = tenant2 ∧ waID1 = waID2.
Proof.
  unfold sessKey.
  assert (Hcolon : ∀ t w, cutAt (t +:+ ":" +:+ w) ":" ≠ None).
  { intros t w. induction t as [|c t IH];
      rewrite ?app_cons, ?app_nil_l; cbn [cutAt]; [done|].
    destruct (Ascii.eqb c ":"); [done|].
    destruct (cutAt _ ":") as [[b a]|]; [done|contradiction]. }
  revert tenant2. induction tenant1 as [|c t1 IH]; intros [|c2 t2] H1 H2 Heq;
    rewrite ?app_cons, ?app_nil_l in Heq.
  - injection Heq as ->. auto.
  - exfalso. injection Heq as <- ->. exact (Hcolon t2 waID2 H1).
  - exfalso. injection Heq as -> <-. exact (Hcolon t1 waID1 H2).
  - injection Heq as <- Heq. destruct (IH t2 H1 H2 Heq) as [-> ->]. auto.
Qed.

Section HandlerProps.
Context `{GoUnicode}.
Variable range : MapRange.
Variable os : OS.
Variable net : http.Client.
Variable UnmarshalFlow : string → result FlowConfig.t.
Variable UnmarshalWebhook : string → result WebhookPayload.t.
Variable nowAt : nat → time.Time.

(** X19: a check of the webhook succeeds only in the mode "subscribe" with a
    token that is not empty, and answers the challenge. *)
Theorem handleVerify_needs_token mode token challenge body :
  handleVerify (NewApp os) mode token challenge = (StatusOK, body) →
  mode = "subscribe" ∧ token ≠ "" ∧ body = challenge.
Proof.
  unfold handleVerify, NewApp. cbn [App.verifyToken].
  destruct (String.eqb_spec mode "subscribe") as [->|]; cbn [andb];
    [|discriminate].
  destruct (String.eqb_spec token
              (if String.eqb (Getenv os "VERIFY_TOKEN") ""
               then "brokerbot_verify" else Getenv os "VERIFY_TOKEN"))
    as [->|]; [|discriminate].
  intros [= <-]. split; [reflexivity|]. split; [|reflexivity].
  destruct (String.eqb_spec (Getenv os "VERIFY_TOKEN") "");
    [discriminate|assumption].
Qed.

(** *** Sessions *)

Lemma Get_setSession r key state k :
  SessionStore.Get (App.sessions (app (setSession nowAt r key state))) k =
  if decide (key = k)
  then Some (UserSession.mk state (nowAt (clockReads r)))
  else SessionStore.Get (App.sessions (app r)) k.
Proof.
  unfold setSession, SessionStore.Get, SessionStore.Set_.
  cbn [app App.sessions SessionStore.data].
  destruct (decide (key = k)) as [->|Hk].
  - apply lookup_insert_eq.
  - now apply lookup_insert_ne.
Qed.

Lemma setSession_named r key state :
  state ≠ "" → sessionsNamed r → sessionsNamed (setSession nowAt r key state).
Proof.
  intros Hstate Hr k sess. rewrite Get_setSession.
  destruct (decide (key = k)); [|apply Hr].
  intros [= <-]. exact Hstate.
Qed.

(** What [openSession] leaves. *)
Lemma openSession_spec r key :
  let state := (openSession nowAt r key).1 in
  let r1 := (openSession nowAt r key).2 in
  state ≠ "" ∧
  (∃ sess, SessionStore.Get (App.sessions (app r1)) key = Some sess ∧
           UserSession.State sess = state) ∧
  (∀ k, k ≠ key →
     SessionStore.Get (App.sessions (app r1)) k
     = SessionStore.Get (App.sessions (app r)) k) ∧
  App.cache (app r1) = App.cache (app r) ∧
  sends r1 = sends r ∧
  (sessionsNamed r → sessionsNamed r1).
Proof.
  cbv zeta. unfold openSession.
  assert (Hfresh :
    "MENU" ≠ "" ∧
    (∃ sess,
       SessionStore.Get (App.sessions (app (setSession nowAt r key "MENU"))) key
         = Some sess ∧
       UserSession.State sess = "MENU") ∧
    (∀ k, k ≠ key →
       SessionStore.Get (App.sessions (app (setSession nowAt r key "MENU"))) k
       = SessionStore.Get (App.sessions (app r)) k) ∧
    App.cache (app (setSession nowAt r key "MENU")) = App.cache (app r) ∧
    sends (setSession nowAt r key "MENU") = sends r ∧
    (sessionsNamed r → sessionsNamed (setSession nowAt r key "MENU"))).
  { split; [discriminate|]. split.
    { eexists. rewrite Get_setSession.
      destruct (decide (key = key)) as [_|]; [|contradiction].
      split; reflexivity. }
    split.
    { intros k Hk. rewrite Get_setSession.
      destruct (decide (key = k)); [congruence|reflexivity]. }
    split; [reflexivity|]. split; [reflexivity|].
    now apply setSession_named. }
  destruct (SessionStore.Get (App.sessions (app r)) key) as [sess|] eqn:Hget;
    [|exact Hfresh].
  destruct (String.eqb_spec (UserSession.State sess) "") as [|Hstate];
    [exact Hfresh|].
  cbn [fst snd]. split; [exact Hstate|].
  split; [exists sess; auto|]. auto.
Qed.

(** *** One message *)

Ltac handleOne_cases :=
  unfold handleOne; cbv zeta;
  match goal with
  | |- context [openSession ?n ?r ?k] =>
      let Hopen := fresh "Hopen" in
      pose proof (openSession_spec r k) as Hopen; cbv zeta in Hopen;
      destruct (openSession n r k) as [state r1]; cbn [fst snd] in Hopen;
      destruct Hopen
        as (Hstate & (sess0 & Hget & Hsess) & Hframe & Hcache & Hsends & Hnamed)
  end;
  destruct (NewWhatsAppClient _ _) as [waClient|cerr] eqn:Hclient;
  [ match goal with
    | |- context [processMessage ?a ?b ?c ?d ?e ?f ?g] =>
        let Hn := fresh "Hnext" in
        pose proof (processMessage_next a b c d e f g) as Hn;
        pose proof (λ Hrv, processMessage_cacheValid a Hrv b c d e f g)
          as Hvalid1;
        destruct (processMessage a b c d e f g)
          as [cache [[next handled] [err|]]] eqn:Hpm;
        cbn [fst snd] in Hn, Hvalid1;
        [ | specialize (Hn _ _ eq_refl) ]
    end;
    [ | match goal with
        | |- context [RenderAndSend ?a ?b ?c ?d ?e ?f ?g ?h ?i] =>
            pose proof (RenderAndSend_oneSend a b c d e f g h i) as Hone;
            pose proof (λ Hrv, RenderAndSend_cacheValid a Hrv b c d e f g h i)
              as Hvalid2;
            destruct (RenderAndSend a b c d e f g h i)
              as [cache' [rerr sent]] eqn:Hrs;
            unfold oneSend in Hone; cbn [fst snd] in Hone, Hvalid2
        end ]
  | ].

(** The handler answers the sender, and only the sender: without a
    client it sends nothing; with one it sends one message, or two when
    the message of the new state was attempted and the rendering failed. *)
Lemma handleOne_sends tenant phoneID contacts r msg :
  ∃ new,
    sends (handleOne range os net UnmarshalFlow nowAt tenant phoneID contacts
             r msg) = sends r ++ new ∧
    Forall (λ m, recipientOf m = IncomingMessage.From msg) new ∧
    match NewWhatsAppClient os phoneID with
    | Err _ => new = []
    | Ok _ => 1 ≤ length new ≤ 2
    end.
Proof.
  handleOne_cases.
  - exists [SendText (IncomingMessage.From msg)
              "Perdón, hubo un error. Probá de nuevo."].
    cbn [sends addSends setCache]. rewrite Hsends.
    split; [reflexivity|]. split; [|cbn [length]; lia].
    apply Forall_singleton. reflexivity.
  - destruct Hone as [[-> Herr]|(m & -> & _ & Hto)].
    + destruct rerr as [e|]; [|contradiction].
      exists [SendText (IncomingMessage.From msg)
                "Perdón, hubo un problema mostrando el menú."].
      cbn [sends addSends setCache setSession]. rewrite Hsends, List.app_nil_r.
      split; [reflexivity|]. split; [|cbn [length]; lia].
      apply Forall_singleton. reflexivity.
    + destruct rerr as [e|].
      * exists [m; SendText (IncomingMessage.From msg)
                     "Perdón, hubo un problema mostrando el menú."].
        cbn [sends addSends setCache setSession]. rewrite Hsends, <- app_assoc.
        split; [reflexivity|]. split; [|cbn [length]; lia].
        apply Forall_cons. split; [exact Hto|].
        apply Forall_singleton. reflexivity.
      * exists [m]. cbn [sends addSends setCache setSession]. rewrite Hsends.
        split; [reflexivity|]. split; [|cbn [length]; lia].
        apply Forall_singleton. exact Hto.
  - exists []. rewrite Hsends, List.app_nil_r. auto.
Qed.

(** X20: a message touches the session of its sender only, and leaves one
    there, with a state name. *)
Theorem handleOne_sessions tenant phoneID contacts r msg :
  let r' := handleOne range os net UnmarshalFlow nowAt tenant phoneID contacts
              r msg in
  (∀ key, key ≠ sessKey tenant (IncomingMessage.From msg) →
     SessionStore.Get (App.sessions (app r')) key
     = SessionStore.Get (App.sessions (app r)) key) ∧
  (∃ sess,
     SessionStore.Get (App.sessions (app r'))
       (sessKey tenant (IncomingMessage.From msg)) = Some sess ∧
     UserSession.State sess ≠ "").
Proof.
  cbv zeta. handleOne_cases.
  - cbn [app addSends setCache App.sessions]. split; [exact Hframe|].
    exists sess0. split; [exact Hget|]. now rewrite Hsess.
  - assert (Hstate' : (if negb handled then "MENU" else next) ≠ "")
      by (destruct handled; cbn [negb]; [exact Hnext|discriminate]).
    assert (Hshape : ∀ r2 : Run,
      (∀ key, key ≠ sessKey tenant (IncomingMessage.From msg) →
         SessionStore.Get (App.sessions (app r2)) key
         = SessionStore.Get
             (App.sessions
                (app (setSession nowAt (setCache r1 cache)
                        (sessKey tenant (IncomingMessage.From msg))
                        (if negb handled then "MENU" else next)))) key) →
      (∃ sess,
         SessionStore.Get (App.sessions (app r2))
           (sessKey tenant (IncomingMessage.From msg)) = Some sess ∧
         UserSession.State sess ≠ "") →
      (∀ key, key ≠ sessKey tenant (IncomingMessage.From msg) →
         SessionStore.Get (App.sessions (app r2)) key
         = SessionStore.Get (App.sessions (app r)) key) ∧
      (∃ sess,
         SessionStore.Get (App.sessions (app r2))
           (sessKey tenant (IncomingMessage.From msg)) = Some sess ∧
         UserSession.State sess ≠ "")).
    { intros r2 Hother Hhere. split; [|exact Hhere].
      intros key Hkey. rewrite (Hother key Hkey), Get_setSession.
      destruct (decide (_ = key)); [congruence|]. exact (Hframe key Hkey). }
    destruct rerr as [e|]; apply Hshape;
      cbn [app addSends setCache App.sessions];
      try (intros key _; reflexivity);
      rewrite Get_setSession;
      (destruct (decide (sessKey tenant (IncomingMessage.From msg)
                         = sessKey tenant (IncomingMessage.From msg)));
       [|contradiction]);
      (eexists; split; [reflexivity|exact Hstate']).
  - split; [exact Hframe|]. exists sess0. split; [exact Hget|].
    now rewrite Hsess.
Qed.

(** *** One request *)

Lemma handleOne_handlerOK tenant phoneID contacts r msg :
  ValidRange range →
  handlerOK r →
  handlerOK (handleOne range os net UnmarshalFlow nowAt tenant phoneID
               contacts r msg).
Proof.
  intros Hrange [Hcache0 Hnamed0]. unfold handlerOK. handleOne_cases.
  - cbn [app addSends setCache App.cache]. split.
    + apply Hvalid1; [exact Hrange|]. now rewrite Hcache.
    + intros key sess. cbn [app App.sessions]. apply (Hnamed Hnamed0).
  - assert (Hstate' : (if negb handled then "MENU" else next) ≠ "")
      by (destruct handled; cbn [negb]; [exact Hnext|discriminate]).
    assert (Hok : ∀ ms,
      cacheValid (App.cache (app (addSends
        (setCache (setSession nowAt (setCache r1 cache)
                     (sessKey tenant (IncomingMessage.From msg))
                     (if negb handled then "MENU" else next)) cache') ms))) ∧
      sessionsNamed (addSends
        (setCache (setSession nowAt (setCache r1 cache)
                     (sessKey tenant (IncomingMessage.From msg))
                     (if negb handled then "MENU" else next)) cache') ms)).
    { intros ms. split.
      - cbn [app addSends setCache App.cache].
        apply Hvalid2; [exact Hrange|].
        apply Hvalid1; [exact Hrange|]. now rewrite Hcache.
      - intros key sess. cbn [app addSends setCache App.sessions].
        apply (setSession_named (setCache r1 cache) _ _ Hstate').
        intros k s. cbn [app setCache App.sessions]. apply (Hnamed Hnamed0). }
    destruct rerr as [e|]; [|apply Hok].
    destruct (Hok sent) as [Hc Hs]. split; [exact Hc|exact Hs].
  - split; [now rewrite Hcache|exact (Hnamed Hnamed0)].
Qed.

Lemma NewApp_handlerOK reads sent :
  handlerOK {| app := NewApp os; clockReads := reads; sends := sent |}.
Proof.
  split.
  - intros tenant cfg Hget. unfold ConfigCache.Get in Hget.
    cbn [app NewApp App.cache NewConfigCache ConfigCache.cache] in Hget.
    now apply lookup_empty_Some in Hget.
  - intros key sess Hget. unfold SessionStore.Get in Hget.
    cbn [app NewApp App.sessions NewSessionStore SessionStore.data] in Hget.
    now apply lookup_empty_Some in Hget.
Qed.

(** X21: the application starts with a valid cache and named sessions, and a
    request keeps both, whatever its body holds. *)
Theorem handleMessage_invariant :
  (∀ reads sent,
     handlerOK {| app := NewApp os; clockReads := reads; sends := sent |}) ∧
  (ValidRange range →
   ∀ r rawBody,
     handlerOK r →
     handlerOK (handleMessage range os net UnmarshalFlow UnmarshalWebhook nowAt
                  r rawBody).1).
Proof.
  split; [exact NewApp_handlerOK|].
  intros Hrange r rawBody Hr. unfold handleMessage.
  destruct (UnmarshalWebhook rawBody) as [payload|]; cbn [fst]; [|exact Hr].
  apply foldl_invariant; [|exact Hr].
  intros r1 e Hr1. apply foldl_invariant; [|exact Hr1].
  intros r2 ch Hr2. unfold handleChange.
  destruct (length _ =? 0)%nat; [exact Hr2|].
  apply foldl_invariant; [|exact Hr2].
  intros r3 msg Hr3. now apply handleOne_handlerOK.
Qed.

(** *** The answers of one request *)

Lemma answers_none lo hi msgs r : answers lo hi msgs 0 r r.
Proof.
  exists []. rewrite List.app_nil_r. split; [reflexivity|].
  split; [constructor|]. cbn [length]. lia.
Qed.

Lemma answers_trans lo hi msgs n m r r' r'' :
  answers lo hi msgs n r r' → answers lo hi msgs m r' r'' →
  answers lo hi msgs (n + m) r r''.
Proof.
  intros (new1 & Hs1 & Hto1 & Hn1) (new2 & Hs2 & Hto2 & Hn2).
  exists (new1 ++ new2). rewrite Hs2, Hs1, <- app_assoc.
  split; [reflexivity|]. split; [now apply Forall_app|].
  rewrite length_app. lia.
Qed.

Lemma foldl_answers {B : Type} lo hi msgs (f : Run → B → Run)
    (part : B → list IncomingMessage.t) (l : list B) r :
  (∀ r b, b ∈ l → answers lo hi msgs (length (part b)) r (f r b)) →
  answers lo hi msgs (length (flat_map part l)) r (foldl f r l).
Proof.
  revert r. induction l as [|b l IH]; intros r Hstep; [apply answers_none|].
  cbn [foldl flat_map]. rewrite length_app.
  apply (answers_trans _ _ _ _ _ r (f r b)).
  - apply Hstep. apply elem_of_cons. auto.
  - apply IH. intros r' b' Hb'. apply Hstep. apply elem_of_cons. auto.
Qed.

Lemma NewWhatsAppClient_token phoneID :
  match NewWhatsAppClient os phoneID with
  | Ok _ => Getenv os "WHATSAPP_TOKEN" ≠ ""
  | Err _ => Getenv os "WHATSAPP_TOKEN" = ""
  end.
Proof.
  unfold NewWhatsAppClient.
  destruct (String.eqb_spec (Getenv os "WHATSAPP_TOKEN") ""); assumption.
Qed.

Lemma handleOne_answers msgs tenant phoneID contacts r msg :
  msg ∈ msgs →
  answers (sendsPerMessage os).1 (sendsPerMessage os).2 msgs 1 r
    (handleOne range os net UnmarshalFlow nowAt tenant phoneID contacts r msg).
Proof.
  intros Hmsg.
  destruct (handleOne_sends tenant phoneID contacts r msg)
    as (new & Hsends & Hto & Hcount).
  exists new. split; [exact Hsends|]. split.
  - eapply Forall_impl; [exact Hto|]. intros m Hm. exists msg. auto.
  - pose proof (NewWhatsAppClient_token phoneID) as Htoken.
    unfold sendsPerMessage.
    destruct (NewWhatsAppClient os phoneID).
    + destruct (String.eqb_spec (Getenv os "WHATSAPP_TOKEN") "");
        [contradiction|]. cbn [fst snd]. lia.
    + rewrite Htoken. subst new. cbn [fst snd length String.eqb]. lia.
Qed.

(** X22: what a request sends, it sends to senders of messages of the
    request.  Without WHATSAPP_TOKEN it sends nothing; with it, every
    message of the request is answered, with one send or two. *)
Theorem handleMessage_answers r rawBody payload :
  UnmarshalWebhook rawBody = Ok payload →
  ∃ new,
    sends (handleMessage range os net UnmarshalFlow UnmarshalWebhook nowAt
             r rawBody).1 = sends r ++ new ∧
    Forall (λ m, ∃ msg, msg ∈ payloadMessages payload ∧
                        recipientOf m = IncomingMessage.From msg) new ∧
    if String.eqb (Getenv os "WHATSAPP_TOKEN") "" then new = []
    else length (payloadMessages payload) ≤ length new
           ≤ 2 * length (payloadMessages payload).
Proof.
  intros Hjson. unfold handleMessage. rewrite Hjson. cbn [fst].
  assert (Hall : answers (sendsPerMessage os).1 (sendsPerMessage os).2
                   (payloadMessages payload)
                   (length (payloadMessages payload)) r
                   (foldl (λ r e, foldl (handleChange range os net
                                           UnmarshalFlow nowAt) r
                                    (WAEntry.Changes e))
                      r (WebhookPayload.Entry payload))).
  { apply (foldl_answers _ _ _ _ entryMessages). intros r1 e He.
    apply (foldl_answers _ _ _ _ changeMessages). intros r2 ch Hch.
    unfold handleChange.
    destruct (Nat.eqb_spec (length (WAValue.Messages (WAChange.Value ch))) 0)
      as [Hempty|_].
    { unfold changeMessages. rewrite Hempty. apply answers_none. }
    assert (Hone : length (changeMessages ch)
                   = length (flat_map (λ m : IncomingMessage.t, [m])
                               (changeMessages ch))).
    { induction (changeMessages ch) as [|m ms IH]; [reflexivity|].
      simpl. f_equal. exact IH. }
    rewrite Hone.
    apply (foldl_answers _ _ _ _ (λ m, [m])). intros r3 msg Hmsg.
    apply handleOne_answers. unfold payloadMessages.
    apply list_elem_of_In, in_flat_map. exists e.
    split; [now apply list_elem_of_In|]. unfold entryMessages.
    apply in_flat_map. exists ch. split; now apply list_elem_of_In. }
  destruct Hall as (new & Hsends & Hto & Hcount). exists new.
  split; [exact Hsends|]. split; [exact Hto|].
  unfold sendsPerMessage in Hcount.
  destruct (String.eqb (Getenv os "WHATSAPP_TOKEN") ""); cbn [fst snd] in Hcount.
  - destruct new; [reflexivity|cbn [length] in Hcount; lia].
  - lia.
Qed.

End HandlerProps.

(** ** The properties on the demo deployments *)

(** The flow of [Demo] loads from the files of [DemoApp]. *)
Lemma loadFlowConfig_Ok_iff_witness :
  ValidRange Demo.range ∧
  @loadFlowConfig Ascii7.unicode Demo.range DemoApp.os DemoApp.unmarshalFlow
    "broker" = Ok Demo.flow ∧
  @flowValid Ascii7.unicode Demo.flow.
Proof.
  assert (Hload : @loadFlowConfig Ascii7.unicode Demo.range DemoApp.os
                    DemoApp.unmarshalFlow "broker" = Ok Demo.flow)
    by (vm_compute; reflexivity).
  split; [exact Demo_range_valid|]. split; [exact Hload|].
  destruct (proj1 (@loadFlowConfig_Ok_iff Ascii7.unicode Demo.range
                     Demo_range_valid DemoApp.os DemoApp.unmarshalFlow
                     "broker" Demo.flow) Hload) as (b & _ & _ & Hvalid).
  exact Hvalid.
Defined.

(** The row "opt_turno" of the menu moves to "TURNO", as the selection
    map of the menu says. *)
Lemma processMessage_moves_along_flow_witness :
  @resolveFlow Ascii7.unicode Demo.range Demo.os Demo.noJSON Demo.cache
    "broker" = Ok Demo.flow ∧
  (demoProcess "MENU" (Demo.listReply "opt_turno")).2 = ("TURNO", true, None) ∧
  ∃ m, FlowState.OnSelectNext Demo.menuState = Some m ∧
       m !! "opt_turno" = Some "TURNO".
Proof.
  assert (Hcfg : @resolveFlow Ascii7.unicode Demo.range Demo.os Demo.noJSON
                   Demo.cache "broker" = Ok Demo.flow)
    by (vm_compute; reflexivity).
  assert (Hmove : (demoProcess "MENU" (Demo.listReply "opt_turno")).2
                  = ("TURNO", true, None)) by (vm_compute; reflexivity).
  split; [exact Hcfg|]. split; [exact Hmove|].
  destruct (@processMessage_moves_along_flow Ascii7.unicode Demo.range Demo.os
              Demo.noJSON Demo.cache "broker" Demo.flow "MENU"
              (Demo.listReply "opt_turno") "TURNO" Hcfg Hmove)
    as (st & Hst & [(body & Hbody & _)|(id & m & Hid & Hm & Hnext)]).
  - vm_compute in Hbody. discriminate Hbody.
  - assert (Hmenu : st = Demo.menuState).
    { vm_compute in Hst. symmetry.
      exact (f_equal (λ o, match o with Some x => x | None => st end) Hst). }
    assert (Hopt : id = "opt_turno").
    { vm_compute in Hid. symmetry.
      exact (f_equal (λ o, match o with Some x => x | None => id end) Hid). }
    subst st id. exists m. auto.
Defined.

(** The menu of [Demo] is sent as a list with the row ids of the flow. *)
Lemma RenderAndSend_list_witness :
  @resolveFlow Ascii7.unicode Demo.range Demo.os Demo.noJSON Demo.cache
    "broker" = Ok Demo.flow ∧
  @listState Demo.flow "MENU" Demo.menuState Demo.menuList ∧
  ∃ header body footer button sections,
    (@RenderAndSend Ascii7.unicode Demo.range Demo.os Demo.noJSON Demo.cache
       "broker" "MENU" DemoBad.wa "5491100000000" {[ "name" := "Ana" ]}).2.2 =
      [SendList "5491100000000" header body footer button sections] ∧
    rowIDs sections = [["opt_turno"; "opt_info"]].
Proof.
  assert (Hcfg : @resolveFlow Ascii7.unicode Demo.range Demo.os Demo.noJSON
                   Demo.cache "broker" = Ok Demo.flow)
    by (vm_compute; reflexivity).
  assert (Hlist : @listState Demo.flow "MENU" Demo.menuState Demo.menuList)
    by (repeat split; vm_compute; reflexivity).
  split; [exact Hcfg|]. split; [exact Hlist|].
  destruct (@RenderAndSend_list Ascii7.unicode Demo.range Demo.os Demo.noJSON
              Demo.cache "broker" Demo.flow "MENU" Demo.menuState
              Demo.menuList DemoBad.wa "5491100000000" {[ "name" := "Ana" ]}
              Hcfg Hlist)
    as (header & body & footer & button & sections & Hsent & Hids & _).
  exists header, body, footer, button, sections. split; [exact Hsent|].
  rewrite Hids. reflexivity.
Defined.

(** Monday 08:00, Monday to Friday from 9 to 17, busy from 10 to 11: the
    slots are numbered in their order. *)
Lemma GetNextAvailableSlots_ids_witness :
  demoSlots (monday 8 0)
    (DemoCalendar.service [tenToEleven] 9 17 [1; 2; 3; 4; 5]%Z) =
    (Ok [slotAt 1 "Mon 01 09:00" "2024-01-01T09:00:00-03:00";
         slotAt 2 "Mon 01 11:00" "2024-01-01T11:00:00-03:00";
         slotAt 3 "Mon 01 12:00" "2024-01-01T12:00:00-03:00"],
     [calendar.FreebusyQuery (weekQuery "08")]) ∧
  Slot.ID (slotAt 2 "Mon 01 11:00" "2024-01-01T11:00:00-03:00") = "SLOT_2".
Proof.
  assert (Hrun :
    demoSlots (monday 8 0)
      (DemoCalendar.service [tenToEleven] 9 17 [1; 2; 3; 4; 5]%Z) =
      (Ok [slotAt 1 "Mon 01 09:00" "2024-01-01T09:00:00-03:00";
           slotAt 2 "Mon 01 11:00" "2024-01-01T11:00:00-03:00";
           slotAt 3 "Mon 01 12:00" "2024-01-01T12:00:00-03:00"],
       [calendar.FreebusyQuery (weekQuery "08")]))
    by (vm_compute; reflexivity).
  split; [exact Hrun|].
  exact (@GetNextAvailableSlots_ids rfc3339.strict _ _ _ _ Hrun 1%nat _ eq_refl).
Defined.


(** The same search: the slots are on working days, at whole hours from
    9 to 16, within ten days. *)
Lemma GetNextAvailableSlots_working_hours_witness :
  demoSlots (monday 8 0)
    (DemoCalendar.service [tenToEleven] 9 17 [1; 2; 3; 4; 5]%Z) =
    (Ok [slotAt 1 "Mon 01 09:00" "2024-01-01T09:00:00-03:00";
         slotAt 2 "Mon 01 11:00" "2024-01-01T11:00:00-03:00";
         slotAt 3 "Mon 01 12:00" "2024-01-01T12:00:00-03:00"],
     [calendar.FreebusyQuery (weekQuery "08")]) ∧
  (0 ≤ 9 ∧ 17 ≤ 24)%Z ∧
  ∃ start,
    "2024-01-01T12:00:00-03:00" = time.FormatRFC3339 start ∧
    time.Weekday start ∈ [1; 2; 3; 4; 5]%Z ∧
    (9 ≤ time.Hour_ start < 17)%Z ∧ time.Minute start = 0%Z.
Proof.
  assert (Hrun :
    demoSlots (monday 8 0)
      (DemoCalendar.service [tenToEleven] 9 17 [1; 2; 3; 4; 5]%Z) =
      (Ok [slotAt 1 "Mon 01 09:00" "2024-01-01T09:00:00-03:00";
           slotAt 2 "Mon 01 11:00" "2024-01-01T11:00:00-03:00";
           slotAt 3 "Mon 01 12:00" "2024-01-01T12:00:00-03:00"],
       [calendar.FreebusyQuery (weekQuery "08")]))
    by (vm_compute; reflexivity).
  split; [exact Hrun|]. split; [lia|].
  destruct (@GetNextAvailableSlots_working_hours rfc3339.strict _ _ _ _ Hrun
              ltac:(cbn [CalendarService.StartHour DemoCalendar.service]; lia)
              ltac:(cbn [CalendarService.EndHour DemoCalendar.service]; lia)
              (slotAt 3 "Mon 01 12:00" "2024-01-01T12:00:00-03:00"))
    as (start & Hiso & _ & Hday & Hhour & Hmin & _).
  { apply (list_elem_of_lookup_2 _ 2%nat). reflexivity. }
  exists start. auto.
Defined.


(** The service of the tenant "broker" of [DemoCalendar]. *)
Lemma NewCalendarService_requirements_witness :
  ∃ c, demoNewService "broker" = Ok c ∧
       CalendarService.calID c ≠ "" ∧
       DemoCalendar.newService "creds.json" = Ok (CalendarService.srv c).
Proof.
  destruct (demoNewService "broker") as [c|] eqn:Hc;
    [|vm_compute in Hc; discriminate].
  exists c. split; [reflexivity|].
  destruct (NewCalendarService_requirements DemoCalendar.os
              DemoCalendar.unmarshal DemoCalendar.newService "broker" c Hc)
    as (_ & Hid & Hsrv & _).
  split; [exact Hid|exact Hsrv].
Defined.

(** In production the client of [DemoApp] posts to the recipient given. *)
Lemma prod_recipient_unchanged_witness :
  @TrimSpace Ascii7.unicode (Getenv DemoApp.os "APP_ENV") = "prod" ∧
  @NewWhatsAppClient Ascii7.unicode DemoApp.os DemoApp.phone
    = Ok (DemoApp.client "") ∧
  @payloadOf Ascii7.unicode DemoApp.os (DemoApp.client "")
    (SendText "+5491100000000" "Hola") !! "to"
    = Some (AString "+5491100000000").
Proof.
  assert (Henv : @TrimSpace Ascii7.unicode (Getenv DemoApp.os "APP_ENV")
                 = "prod") by (vm_compute; reflexivity).
  assert (Hnew : @NewWhatsAppClient Ascii7.unicode DemoApp.os DemoApp.phone
                 = Ok (DemoApp.client "")) by (vm_compute; reflexivity).
  split; [exact Henv|]. split; [exact Hnew|].
  exact (@prod_recipient_unchanged Ascii7.unicode DemoApp.os DemoApp.phone
           (DemoApp.client "") Henv Hnew (SendText "+5491100000000" "Hola")).
Defined.

(** In development, with a forced recipient, every message goes to it,
    normalised: without the plus sign, and without the 9 after 54. *)
Lemma forced_recipient_witness :
  @NewWhatsAppClient Ascii7.unicode DemoApp.devOs DemoApp.phone
    = Ok (DemoApp.client "+5491155550000") ∧
  @payloadOf Ascii7.unicode DemoApp.devOs (DemoApp.client "+5491155550000")
    (SendText "5491100000000" "Hola") !! "to"
    = Some (AString "541155550000").
Proof.
  assert (Hnew : @NewWhatsAppClient Ascii7.unicode DemoApp.devOs DemoApp.phone
                 = Ok (DemoApp.client "+5491155550000"))
    by (vm_compute; reflexivity).
  split; [exact Hnew|].
  destruct (@forced_recipient Ascii7.unicode DemoApp.devOs DemoApp.phone
              (DemoApp.client "+5491155550000") Hnew ltac:(discriminate))
    as (_ & _ & Hto).
  rewrite Hto. vm_compute. reflexivity.
Defined.

(** Two users of one tenant have two keys. *)
Lemma sessKey_injective_witness :
  cutAt "5491100000000" ":" = None ∧
  sessKey "broker" "5491100000000" = "broker:5491100000000" ∧
  (sessKey "broker" "5491100000000" = sessKey "broker" "5491100000000" →
   "broker" = "broker" ∧ "5491100000000" = "5491100000000").
Proof.
  split; [vm_compute; reflexivity|]. split; [vm_compute; reflexivity|].
  exact (sessKey_injective "broker" "5491100000000" "broker" "5491100000000"
           eq_refl eq_refl).
Defined.

(** Without VERIFY_TOKEN the token of the check is "brokerbot_verify". *)
Lemma handleVerify_needs_token_witness :
  @handleVerify (@NewApp Ascii7.unicode DemoApp.os) "subscribe"
    "brokerbot_verify" "1158201444" = (StatusOK, "1158201444") ∧
  "brokerbot_verify" ≠ "".
Proof.
  assert (Hok : @handleVerify (@NewApp Ascii7.unicode DemoApp.os) "subscribe"
                  "brokerbot_verify" "1158201444" = (StatusOK, "1158201444"))
    by (vm_compute; reflexivity).
  split; [exact Hok|].
  exact (proj1 (proj2 (@handleVerify_needs_token Ascii7.unicode DemoApp.os
                         "subscribe" "brokerbot_verify" "1158201444"
                         "1158201444" Hok))).
Defined.

(** The first request of Ana: the handler starts well and stays so. *)
Lemma handleMessage_invariant_witness :
  ValidRange Demo.range ∧
  @handlerOK Ascii7.unicode DemoApp.start ∧
  @handlerOK Ascii7.unicode (demoHandle DemoApp.start "{}").1.
Proof.
  destruct (@handleMessage_invariant Ascii7.unicode Demo.range DemoApp.os
              DemoApp.net DemoApp.unmarshalFlow DemoApp.unmarshalWebhook
              DemoApp.nowAt) as [Hstart Hkeep].
  split; [exact Demo_range_valid|]. split; [exact (Hstart 0 [])|].
  exact (Hkeep Demo_range_valid DemoApp.start "{}" (Hstart 0 [])).
Defined.

(** The first request of Ana is answered with the menu, to her. *)
Lemma handleMessage_answers_witness :
  DemoApp.unmarshalWebhook "{}" = Ok DemoApp.payload ∧
  sends (demoHandle DemoApp.start "{}").1 = [DemoApp.menuForAna] ∧
  ∃ new, sends (demoHandle DemoApp.start "{}").1 = sends DemoApp.start ++ new ∧
         1 ≤ length new ≤ 2.
Proof.
  split; [reflexivity|]. split; [vm_compute; reflexivity|].
  destruct (@handleMessage_answers Ascii7.unicode Demo.range DemoApp.os
              DemoApp.net DemoApp.unmarshalFlow DemoApp.unmarshalWebhook
              DemoApp.nowAt DemoApp.start "{}" DemoApp.payload eq_refl)
    as (new & Hsends & _ & Hcount).
  exists new. split; [exact Hsends|].
  change (String.eqb (Getenv DemoApp.os "WHATSAPP_TOKEN") "") with false
    in Hcount.
  exact Hcount.
Defined.

(** The flow of [Demo] is within the limits in bytes. *)
Lemma validateFlowConfig_accepts_within_bytes_witness :
  ValidRange Demo.range ∧
  withinBytes Demo.flow = true ∧
  @validateFlowConfig Ascii7.unicode Demo.range "broker" Demo.flow = None.
Proof.
  split; [exact Demo_range_valid|]. split; [vm_compute; reflexivity|].
  exact (@validateFlowConfig_accepts_within_bytes Ascii7.unicode Demo.range
           Demo_range_valid "broker" Demo.flow eq_refl).
Defined.

(** The flow of [DemoNil] loads, and its menu cannot be rendered. *)
Lemma RenderAndSend_missing_list_witness :
  @loadFlowConfig Ascii7.unicode Demo.range DemoApp.os DemoNil.unmarshalFlow
    "broker" = Ok DemoNil.flow ∧
  (@RenderAndSend Ascii7.unicode Demo.range DemoApp.os DemoNil.unmarshalFlow
     NewConfigCache "broker" "MENU" DemoBad.wa "5491100000000"
     {[ "name" := "Ana" ]}).2 =
    (Some "estado MENU es interactive_list pero list es nil", []).
Proof.
  assert (Hload : @loadFlowConfig Ascii7.unicode Demo.range DemoApp.os
                    DemoNil.unmarshalFlow "broker" = Ok DemoNil.flow)
    by (vm_compute; reflexivity).
  split; [exact Hload|].
  exact (proj2 (@RenderAndSend_missing_list Ascii7.unicode Demo.range
                  DemoApp.os DemoNil.unmarshalFlow NewConfigCache "broker"
                  DemoNil.flow "MENU" DemoNil.menuState DemoBad.wa
                  "5491100000000" {[ "name" := "Ana" ]}
                  Hload eq_refl eq_refl eq_refl)).
Defined.
